(** * temba/flows/views.py: a shallow embedding of the flow views

  The views of [temba/flows/views.py] are modelled as pure functions over
  explicit snapshots of the database tables they read and write.  Calls
  into models, the framework and the execution engine that are not part
  of the file are either section variables (when the view only passes
  their result along) or small definitions introduced by a comment that
  says where they come from. *)

From Stdlib Require Import ZArith String Ascii Lia.
From stdpp Require Import gmap strings list sorting.

#[local] Set Warnings "-clear-no-such-hyp".

Local Open Scope string_scope.
Local Open Scope list_scope.
Local Open Scope stdpp_scope.

(** ** Python helpers shared by the views *)

(** Truthiness of a [str]: only the empty string is falsy. *)
Definition str_truthy (s : string) : bool :=
  match s with
  | EmptyString => false
  | String _ _ => true
  end.

(** [len] of a [str]: the number of its code points.  A string is kept
    as its UTF-8 bytes, in which every code point has exactly one byte
    that is not a continuation byte (a byte of the form 10xxxxxx). *)
Definition is_continuation (c : ascii) : bool :=
  match c with
  | Ascii _ _ _ _ _ _ false true => true
  | _ => false
  end.

Fixpoint len (s : string) : nat :=
  match s with
  | EmptyString => 0
  | String c rest => (if is_continuation c then 0 else 1) + len rest
  end.

(** [sum] over a list of integers. *)
Definition sum_Z (l : list Z) : Z := foldr Z.add 0%Z l.

(** * FlowCRUDL.ActivityChart *)

Module ActivityChart.

Local Open Scope Z_scope.

(** A [datetime] is the number of microseconds since the epoch and a
    [timedelta] a number of microseconds: Python compares timedeltas as
    normalised (days, seconds, microseconds) triples, which is the order
    of the total number of microseconds. *)
Definition datetime := Z.
Definition timedelta := Z.

Definition timedelta_days (d : Z) : timedelta := d * 86400 * 1000000.
Definition timedelta_hours (h : Z) : timedelta := h * 3600 * 1000000.

(** The argument of [date_trunc] in the [extra] clause of the histogram. *)
Inductive Bucket := Hour | Day | Week.

Definition HISTOGRAM_MIN : Z := 0.
Definition PERIOD_MIN : Z := 0.

(** The [if date_range < timedelta(days=21) ... elif ... else] chain:
    the bucket and [min_date]. *)
Definition histogram_for (start_date end_date : datetime) : Bucket * datetime :=
  let date_range := end_date - start_date in
  if date_range <? timedelta_days 21 then
    (Hour, start_date - timedelta_hours 1)
  else if date_range <? timedelta_days 500 then
    (Day, end_date - timedelta_days 100)
  else
    (Week, end_date - timedelta_days 500).

(** The histogram is only built [if total_responses > self.HISTOGRAM_MIN]. *)
Definition histogram (total_responses : Z) (start_date end_date : datetime)
  : option (Bucket * datetime) :=
  if total_responses >? HISTOGRAM_MIN then Some (histogram_for start_date end_date)
  else None.

(** [FlowRun.exit_type]: [None] is an active run. *)
Inductive ExitType := EXIT_TYPE_COMPLETED | EXIT_TYPE_INTERRUPTED | EXIT_TYPE_EXPIRED.

#[global] Instance ExitType_eq_dec : EqDecision ExitType.
Proof. solve_decision. Defined.

(** The [EXIT_TYPES] dict of the view. *)
Definition EXIT_TYPES (e : option ExitType) : string :=
  match e with
  | None => "active"
  | Some EXIT_TYPE_COMPLETED => "completed"
  | Some EXIT_TYPE_INTERRUPTED => "interrupted"
  | Some EXIT_TYPE_EXPIRED => "expired"
  end.

(** A row of the [FlowRunCount] table. *)
Record FlowRunCount := {
  frc_flow : nat;
  frc_exit_type : option ExitType;
  frc_count : Z
}.

(** [Sum("count")] over the rows of one exit type. *)
Definition count_sum (rows : list FlowRunCount) (e : option ExitType) : Z :=
  sum_Z (map frc_count (filter (fun r => frc_exit_type r = e) rows)).

(** [FlowRunCount.objects.filter(flow=flow).values("exit_type").annotate(Sum("count"))]:
    one row per exit type that occurs, with the sum of its counts. *)
Definition run_counts (flow : nat) (table : list FlowRunCount)
  : list (option ExitType * Z) :=
  let rows := filter (fun r => frc_flow r = flow) table in
  map (fun e => (e, count_sum rows e)) (remove_dups (map frc_exit_type rows)).

(** The loop [for count in counts]: the context and [total_runs]. *)
Definition add_counts (counts : list (option ExitType * Z))
    (context : gmap string Z) : gmap string Z * Z :=
  fold_left
    (fun '(context, total_runs) '(exit_type, count__sum) =>
       (<[EXIT_TYPES exit_type := count__sum]> context, total_runs + count__sum))
    counts (context, 0).

(** The loop [for state in (...)]: [if state not in context: context[state] = 0]. *)
Definition default_states (context : gmap string Z) : gmap string Z :=
  fold_left
    (fun context state =>
       match context !! state with
       | None => <[state := 0]> context
       | Some _ => context
       end)
    ["expired"; "interrupted"; "completed"; "active"] context.

(** The integer entries that the tail of [get_context_data] puts in the
    context, on top of the context built so far. *)
Definition get_context_data (flow : nat) (table : list FlowRunCount)
    (total_responses : Z) (context : gmap string Z) : gmap string Z :=
  let '(context, total_runs) := add_counts (run_counts flow table) context in
  let context := default_states context in
  let context := <["total_runs" := total_runs]> context in
  <["total_responses" := total_responses]> context.

End ActivityChart.


(** * Results of calls that may raise *)

(** A call either returns a value or raises an exception of type [E]. *)
Inductive result (E A : Type) : Type :=
| Ok (a : A)
| Raise (e : E).

Arguments Ok {E A} a.
Arguments Raise {E A} e.

#[local] Unset Elimination Schemes.

(** A small JSON value, for the bodies of [JsonResponse]. *)
Inductive Json :=
| JNull
| JStr (s : string)
| JInt (z : Z)
| JList (items : list Json)
| JObj (fields : list (string * Json)).

#[local] Set Elimination Schemes.

(** * FlowCRUDL.Revisions *)

Module Revisions.

(** [packaging.version.Version] of a spec version such as 11.12 or 13.0.0:
    the release segments.  Two releases compare segment by segment, the
    shorter one padded with zeros. *)
Definition Version := list nat.

Definition all_zero (v : Version) : bool := forallb (Nat.eqb 0) v.

Fixpoint version_compare (a b : Version) : comparison :=
  match a, b with
  | [], _ => if all_zero b then Eq else Lt
  | _, [] => if all_zero a then Eq else Gt
  | x :: a', y :: b' =>
      match Nat.compare x y with
      | Eq => version_compare a' b'
      | c => c
      end
  end.

(** [a >= b] and [a < b] on versions. *)
Definition version_ge (a b : Version) : bool :=
  match version_compare a b with
  | Lt => false
  | _ => true
  end.

Definition version_lt (a b : Version) : bool := negb (version_ge a b).

(** The body of a flow definition: its spec version, the revision number
    the client loaded (the [revision] key, which may be missing) and the
    rest of the document. *)
Record FlowDefinition := {
  def_spec_version : Version;
  def_revision : option nat;
  def_body : string
}.

Record FlowRevision := {
  rev_id : nat;
  rev_flow : nat;
  rev_revision : nat;
  rev_spec_version : Version;
  rev_definition : FlowDefinition;
  rev_created_by : string
}.

Record Flow := {
  flow_id : nat;
  flow_uuid : string;
  flow_org_id : nat;
  flow_is_active : bool;
  flow_version : Version;
  flow_saved_by : string;
  flow_saved_on : Z;
  flow_metadata : Json
}.

(** The exceptions the view tells apart. [ValueError] stands for the class
    and its subclasses, [OtherException] for every other [Exception]. *)
Inductive Exception :=
| ValueError (msg : string)
| FlowValidationException (msg : string)
| FlowVersionConflictException
| FlowUserConflictException (other_user : string) (last_saved_on : Z)
| OtherException (msg : string).

(** [isinstance(e, ValueError)], the test of [except ValueError]. *)
Definition is_ValueError (e : Exception) : bool :=
  match e with
  | ValueError _ => true
  | _ => false
  end.

(** [str(e)] *)
Definition exception_str (e : Exception) : string :=
  match e with
  | ValueError msg => msg
  | FlowValidationException msg => msg
  | FlowVersionConflictException => EmptyString
  | FlowUserConflictException _ _ => EmptyString
  | OtherException msg => msg
  end.

(** A call of [logger.error]: the message
    [Error validating flow revision (uuid [id]): str(e)] kept as its three
    interpolated values. *)
Record LogRecord := {
  log_flow_uuid : string;
  log_revision_id : nat;
  log_error : string
}.

(** [order_by("-revision")] *)
Definition revision_desc (a b : FlowRevision) : Prop :=
  rev_revision b <= rev_revision a.

#[global] Instance revision_desc_dec a b : Decision (revision_desc a b).
Proof. unfold revision_desc. apply _. Defined.

Definition order_by_revision_desc (revs : list FlowRevision) : list FlowRevision :=
  merge_sort revision_desc revs.

(** [flow.revisions.all()] *)
Definition flow_revisions (flow : Flow) (table : list FlowRevision) : list FlowRevision :=
  filter (fun r => rev_flow r = flow_id flow) table.

Section Get.

(** Constants of [Flow] and methods of [FlowRevision], [Flow] and the
    mailroom client, all outside the file. *)
Variable CURRENT_SPEC_VERSION : Version.
Variable INITIAL_GOFLOW_VERSION : Version.
Variable FINAL_LEGACY_VERSION : Version.
Variable get_migrated_definition : FlowRevision -> Version -> result Exception FlowDefinition.
Variable validate_legacy_definition : FlowDefinition -> result Exception unit.
Variable as_json : FlowRevision -> Json.
Variable definition_json : FlowDefinition -> Json.
Variable flow_inspect : nat -> FlowDefinition -> result Exception Json.
Variable get_metadata : Json -> Json.

(** The [try] block of the loop over legacy revisions, up to the append. *)
Definition validate_legacy (revision : FlowRevision) : result Exception unit :=
  match get_migrated_definition revision FINAL_LEGACY_VERSION with
  | Ok legacy_flow_def => validate_legacy_definition legacy_flow_def
  | Raise e => Raise e
  end.

(** One turn of [for revision in ...]: the list [revisions] and the error
    log after it. *)
Definition revisions_step (flow : Flow) (acc : list Json * list LogRecord)
    (revision : FlowRevision) : list Json * list LogRecord :=
  let '(revisions, log) := acc in
  if version_ge (rev_spec_version revision) INITIAL_GOFLOW_VERSION then
    (revisions ++ [as_json revision], log)
  else
    match validate_legacy revision with
    | Ok _ => (revisions ++ [as_json revision], log)
    | Raise e =>
        if is_ValueError e then (revisions, log)
        else (revisions,
              log ++ [{| log_flow_uuid := flow_uuid flow;
                         log_revision_id := rev_id revision;
                         log_error := exception_str e |}])
    end.

(** [Revisions.get]: the response, or the exception that escapes, and the
    records written to the error log.  [revision_id] is the URL group,
    [requested_version] the [version] query parameter. *)
Definition get (table : list FlowRevision) (flow : Flow)
    (revision_id : option nat) (requested_version : option Version)
  : result Exception Json * list LogRecord :=
  let requested_version := default CURRENT_SPEC_VERSION requested_version in
  match revision_id with
  | Some revision_id =>
      match find (fun r => bool_decide (rev_flow r = flow_id flow /\ rev_id r = revision_id))
              table with
      | None => (Raise (OtherException "FlowRevision matching query does not exist."), [])
      | Some revision =>
          match get_migrated_definition revision requested_version with
          | Raise e => (Raise e, [])
          | Ok definition =>
              match flow_inspect (flow_org_id flow) definition with
              | Raise e => (Raise e, [])
              | Ok flow_info =>
                  (Ok (JObj [("definition", definition_json definition);
                             ("metadata", get_metadata flow_info)]), [])
              end
          end
      end
  | None =>
      let '(revisions, log) :=
        fold_left (revisions_step flow)
          (take 100 (order_by_revision_desc (flow_revisions flow table))) ([], []) in
      (Ok (JObj [("results", JList revisions)]), log)
  end.

(** The listing as the specification words it: a revision is listed when
    it is at or above the initial goflow version, or when it is a legacy
    revision whose migration to the final legacy version gives a
    definition that validates. *)
Definition listed (revision : FlowRevision) : bool :=
  version_ge (rev_spec_version revision) INITIAL_GOFLOW_VERSION
  || match get_migrated_definition revision FINAL_LEGACY_VERSION with
     | Ok legacy_flow_def =>
         match validate_legacy_definition legacy_flow_def with
         | Ok _ => true
         | Raise _ => false
         end
     | Raise _ => false
     end.

(** The record of the error log for a failure that is not expected. *)
Definition unexpected (flow : Flow) (revision : FlowRevision) (e : Exception)
  : option LogRecord :=
  if is_ValueError e then None
  else Some {| log_flow_uuid := flow_uuid flow;
               log_revision_id := rev_id revision;
               log_error := exception_str e |}.

(** A revision is reported to the error log when it is a legacy revision
    whose migration or validation fails with something else than a
    [ValueError]. *)
Definition reported (flow : Flow) (revision : FlowRevision) : option LogRecord :=
  if version_ge (rev_spec_version revision) INITIAL_GOFLOW_VERSION then None
  else
    match get_migrated_definition revision FINAL_LEGACY_VERSION with
    | Ok legacy_flow_def =>
        match validate_legacy_definition legacy_flow_def with
        | Ok _ => None
        | Raise e => unexpected flow revision e
        end
    | Raise e => unexpected flow revision e
    end.

End Get.

Section Post.

(** [json.loads(force_text(request.body))], [json.encode_datetime], the
    serialisation of a revision and the validation of a definition by the
    engine are outside the file. *)
Variable json_loads : string -> result Exception FlowDefinition.
Variable encode_datetime : Z -> string.
Variable as_json : FlowRevision -> Json.
Variable validate : FlowDefinition -> option string.

(** The tables the view reads and writes. *)
Record DB := {
  db_flows : list Flow;
  db_revisions : list FlowRevision
}.

(** [flow.get_current_revision()]: the revision with the highest number. *)
Definition get_current_revision (db : DB) (flow : Flow) : option FlowRevision :=
  head (order_by_revision_desc (flow_revisions flow (db_revisions db))).

(** Modelled from the spec: [Flow.save_revision] is in temba/flows/models.py,
    which is not part of the file.  A save compares the definition against
    the concurrency marker of the flow: when the specification version of
    the flow moved forward since the client loaded the definition it is a
    version conflict; when the client's revision is behind the current one
    and the last editor is not the requester it is a user conflict naming
    that editor; a definition the engine rejects is a validation failure.
    All three raise before anything is written.  Otherwise a new revision
    is created and the flow records who saved it and when. *)
Definition save_revision (db : DB) (flow : Flow) (user : string)
    (definition : FlowDefinition) (now : Z)
  : DB * result Exception (Flow * FlowRevision) :=
  let current := get_current_revision db flow in
  let current_number := from_option rev_revision 0 current in
  if version_lt (def_spec_version definition) (flow_version flow) then
    (db, Raise FlowVersionConflictException)
  else if from_option (fun n => Nat.ltb n current_number) false (def_revision definition)
          && negb (String.eqb (flow_saved_by flow) user) then
    (db, Raise (FlowUserConflictException (flow_saved_by flow) (flow_saved_on flow)))
  else
    match validate definition with
    | Some detail => (db, Raise (FlowValidationException detail))
    | None =>
        let revision :=
          {| rev_id := S (foldr Nat.max 0 (map rev_id (db_revisions db)));
             rev_flow := flow_id flow;
             rev_revision := S current_number;
             rev_spec_version := def_spec_version definition;
             rev_definition := definition;
             rev_created_by := user |} in
        let flow' :=
          {| flow_id := flow_id flow;
             flow_uuid := flow_uuid flow;
             flow_org_id := flow_org_id flow;
             flow_is_active := flow_is_active flow;
             flow_version := def_spec_version definition;
             flow_saved_by := user;
             flow_saved_on := now;
             flow_metadata := flow_metadata flow |} in
        ({| db_flows := map (fun f => if bool_decide (flow_id f = flow_id flow) then flow' else f)
                          (db_flows db);
            db_revisions := db_revisions db ++ [revision] |},
         Ok (flow', revision))
    end.

(** [self.get_object(self.get_queryset())]: the active flow with the UUID of
    the URL, [Http404] when there is none. *)
Definition get_object (db : DB) (uuid : string) : result Exception Flow :=
  match find (fun f => String.eqb (flow_uuid f) uuid && flow_is_active f) (db_flows db) with
  | Some flow => Ok flow
  | None => Raise (OtherException "Http404")
  end.

(** A [JsonResponse] with its HTTP status. *)
Record JsonResponse := {
  response_status : nat;
  response_body : Json
}.

Definition permission_message : string :=
  "You don't have permission to edit this flow".
Definition validation_message : string :=
  "Your flow failed validation. Please refresh your browser.".
Definition version_conflict_message : string :=
  "Your flow has been upgraded to the latest version. In order to continue editing, please refresh your browser.".
Definition user_conflict_message (other_user : string) : string :=
  other_user +:+ " is currently editing this Flow. Your changes will not be saved until you refresh your browser.".
Definition not_saved_message : string :=
  "Your flow could not be saved. Please refresh your browser.".

(** [traceback.print_stack(f)] prints the stack from the frame [f] up.
    The last handler of [post] hands it the exception it caught, which is
    no frame: the call reads [f.f_lineno] and raises [AttributeError]. *)
Definition print_stack (e : Exception) : result Exception unit :=
  Raise (OtherException "AttributeError").

(** The [except] clauses of [post]: [error] and [detail], or the exception
    that escapes the handler. *)
Definition error_and_detail (e : Exception) : result Exception (string * Json) :=
  match e with
  | FlowValidationException msg => Ok (validation_message, JStr msg)
  | FlowVersionConflictException => Ok (version_conflict_message, JNull)
  | FlowUserConflictException other_user _ => Ok (user_conflict_message other_user, JNull)
  | _ =>
      match print_stack e with
      | Ok _ => Ok (not_saved_message, JNull)
      | Raise e' => Raise e'
      end
  end.

(** The end of [post] after an exception of the [try] block: the response
    with status 400 made of [error] and [detail]. *)
Definition failure (e : Exception) : result Exception JsonResponse :=
  match error_and_detail e with
  | Ok (error, detail) =>
      Ok {| response_status := 400;
            response_body := JObj [("status", JStr "failure"); ("description", JStr error);
                                   ("detail", detail)] |}
  | Raise e' => Raise e'
  end.


(** [Revisions.post]: the tables after the request and the response, or
    the exception that escapes the view. *)
Definition post (db : DB) (has_org_perm : bool) (user : string) (uuid : string)
    (body : string) (now : Z) : DB * result Exception JsonResponse :=
  if negb has_org_perm then
    (db, Ok {| response_status := 403;
               response_body := JObj [("status", JStr "failure");
                                      ("description", JStr permission_message)] |})
  else
    match json_loads body with
    | Raise e => (db, Raise e)
    | Ok definition =>
        match get_object db uuid with
        | Raise e => (db, failure e)
        | Ok flow =>
            match save_revision db flow user definition now with
            | (db', Ok (flow', revision)) =>
                (db', Ok {| response_status := 200;
                            response_body :=
                              JObj [("status", JStr "success");
                                    ("saved_on", JStr (encode_datetime (flow_saved_on flow')));
                                    ("revision", as_json revision);
                                    ("metadata", flow_metadata flow')] |})
            | (db', Raise e) => (db', failure e)
            end
        end
    end.

End Post.

End Revisions.

(** Sequencing of calls that may raise. *)
#[global] Instance result_ret {E} : MRet (result E) := fun _ a => Ok a.

#[global] Instance result_bind {E} : MBind (result E) := fun _ _ f r =>
  match r with
  | Ok a => f a
  | Raise e => Raise e
  end.

(** Python truthiness of a decoded JSON value. *)
Definition json_truthy (j : Json) : bool :=
  match j with
  | JNull => false
  | JStr s => str_truthy s
  | JInt z => negb (Z.eqb z 0)
  | JList items => negb (bool_decide (items = []))
  | JObj fields => negb (bool_decide (fields = []))
  end.

(** * FlowCRUDL.Broadcast *)

Module Broadcast.

Record Org := {
  org_id : nat;
  is_suspended : bool;
  is_flagged : bool
}.

Record Flow := {
  flow_id : nat;
  flow_org : Org
}.

Inductive StartStatus := STATUS_PENDING | STATUS_STARTING | STATUS_COMPLETE | STATUS_FAILED.

(** A row of the [FlowStart] table. *)
Record FlowStart := {
  start_flow : nat;
  start_status : StartStatus;
  start_created_by : string;
  start_groups : list nat;
  start_contacts : list nat;
  start_query : option string;
  start_restart_participants : bool;
  start_include_active : bool
}.

(** A start is unfinished until it is complete or failed. *)
Definition unfinished (s : StartStatus) : bool :=
  match s with
  | STATUS_PENDING | STATUS_STARTING => true
  | STATUS_COMPLETE | STATUS_FAILED => false
  end.

(** Modelled from the spec: [Flow.is_starting] is in temba/flows/models.py,
    which is not part of the file.  A flow is starting when it has a
    FlowStart in a non-terminal state. *)
Definition is_starting (flow : Flow) (starts : list FlowStart) : bool :=
  existsb (fun s => Nat.eqb (start_flow s) (flow_id flow) && unfinished (start_status s)) starts.

(** Modelled from the spec: [Flow.async_start] is in temba/flows/models.py,
    which is not part of the file.  It persists a FlowStart record
    synchronously and leaves the fan-out to the engine. *)
Definition async_start (flow : Flow) (user : string) (groups contacts : list nat)
    (query : option string) (restart_participants include_active : bool)
    (starts : list FlowStart) : list FlowStart :=
  starts ++ [{| start_flow := flow_id flow;
                start_status := STATUS_PENDING;
                start_created_by := user;
                start_groups := groups;
                start_contacts := contacts;
                start_query := query;
                start_restart_participants := restart_participants;
                start_include_active := include_active |}].

(** The exceptions of the form: only [ValidationError] is caught by the
    form machinery, the others escape the view. *)
Inductive Exception :=
| ValidationError (msg : string)
| MultiValueDictKeyError (key : string)
| KeyError (key : string).

(** [self.data], the submitted values by field name; a key may be missing. *)
Record PostData := {
  data_omnibox : option string;
  data_restart_participants : option string;
  data_include_active : option string;
  data_recipients_mode : option string;
  data_contact_query : option string
}.

(** The result of [omnibox_deserialize]. *)
Record Omnibox := {
  omnibox_groups : list nat;
  omnibox_contacts : list nat
}.

(** [self.cleaned_data]: a field is present once it has been cleaned
    without error. *)
Record CleanedData := {
  cleaned_omnibox : option Omnibox;
  cleaned_restart_participants : option bool;
  cleaned_include_active : option bool;
  cleaned_recipients_mode : option string;
  cleaned_contact_query : option string
}.

(** [form.errors]: field name and message; the errors of [clean] are filed
    under [NON_FIELD_ERRORS]. *)
Definition Errors := list (string * string).
Definition NON_FIELD_ERRORS : string := "__all__".

Definition starting_message : string :=
  "This flow is already being started, please wait until that process is complete before starting more contacts.".
Definition suspended_message : string :=
  "Sorry, your workspace is currently suspended. To enable starting flows, please contact support.".
Definition flagged_message : string :=
  "Sorry, your workspace is currently flagged. To enable starting flows, please contact support.".
Definition query_required_message : string := "Contact query is required".
Definition recipients_required_message : string :=
  "You must specify at least one contact or one group to start a flow.".

(** [self.data[key]] *)
Definition data_get (key : string) (value : option string) : result Exception string :=
  match value with
  | Some v => Ok v
  | None => Raise (MultiValueDictKeyError key)
  end.

(** [cleaned_data[key]] *)
Definition cleaned_get {A} (key : string) (value : option A) : result Exception A :=
  match value with
  | Some v => Ok v
  | None => Raise (KeyError key)
  end.

Section Form.

(** The [clean] methods of the form fields ([JSONField], [BooleanField],
    [ChoiceField], [CharField]) are the framework's: each returns the
    cleaned value or the message of its [ValidationError].  [str.strip],
    [omnibox_deserialize] and [parse_query] are outside the file too;
    [parse_query] returns the normalised query or the message of its
    [SearchException]. *)
Variable omnibox_field : option string -> result string Json.
Variable boolean_field : option string -> result string bool.
Variable recipients_mode_field : option string -> result string string.
Variable contact_query_field : option string -> result string string.
Variable strip : string -> string.
Variable omnibox_deserialize : Org -> Json -> Omnibox.
Variable parse_query : Org -> string -> result string string.

Definition field_clean {A} (r : result string A) : result Exception A :=
  match r with
  | Ok v => Ok v
  | Raise msg => Raise (ValidationError msg)
  end.

Definition clean_contact_query (flow : Flow) (data : PostData) (contact_query : string)
  : result Exception string :=
  recipients_mode ← data_get "recipients_mode" (data_recipients_mode data);
  if String.eqb recipients_mode "query" then
    if negb (str_truthy (strip contact_query)) then
      Raise (ValidationError query_required_message)
    else
      match parse_query (flow_org flow) contact_query with
      | Ok parsed_query => Ok parsed_query
      | Raise e => Raise (ValidationError e)
      end
  else Ok contact_query.

Definition clean_omnibox (flow : Flow) (data : PostData) (starting : Json)
  : result Exception Omnibox :=
  recipients_mode ← data_get "recipients_mode" (data_recipients_mode data);
  if String.eqb recipients_mode "select" && negb (json_truthy starting) then
    Raise (ValidationError recipients_required_message)
  else Ok (omnibox_deserialize (flow_org flow) starting).

(** [BroadcastForm.clean]; [super().clean()] returns the cleaned data. *)
Definition clean (flow : Flow) (starts : list FlowStart) (cleaned : CleanedData)
  : result Exception CleanedData :=
  if is_starting flow starts then Raise (ValidationError starting_message)
  else if is_suspended (flow_org flow) then Raise (ValidationError suspended_message)
  else if is_flagged (flow_org flow) then Raise (ValidationError flagged_message)
  else Ok cleaned.

(** One turn of the framework's loop over the fields: a [ValidationError]
    of the field or of its [clean_<name>] method is added to the errors and
    the field is left out of the cleaned data; any other exception escapes. *)
Definition collect {A} (name : string) (r : result Exception A) (errors : Errors)
  : result Exception (option A * Errors) :=
  match r with
  | Ok v => Ok (Some v, errors)
  | Raise (ValidationError msg) => Ok (None, errors ++ [(name, msg)])
  | Raise e => Raise e
  end.

(** The framework's [full_clean]: the fields in the order of their
    declaration, then [clean]. *)
Definition full_clean (flow : Flow) (starts : list FlowStart) (data : PostData)
  : result Exception (CleanedData * Errors) :=
  '(omnibox, errors) ←
    collect "omnibox"
      (field_clean (omnibox_field (data_omnibox data)) ≫= clean_omnibox flow data) [];
  '(restart_participants, errors) ←
    collect "restart_participants"
      (field_clean (boolean_field (data_restart_participants data))) errors;
  '(include_active, errors) ←
    collect "include_active"
      (field_clean (boolean_field (data_include_active data))) errors;
  '(recipients_mode, errors) ←
    collect "recipients_mode"
      (field_clean (recipients_mode_field (data_recipients_mode data))) errors;
  '(contact_query, errors) ←
    collect "contact_query"
      (field_clean (contact_query_field (data_contact_query data))
         ≫= clean_contact_query flow data) errors;
  let cleaned :=
    {| cleaned_omnibox := omnibox;
       cleaned_restart_participants := restart_participants;
       cleaned_include_active := include_active;
       cleaned_recipients_mode := recipients_mode;
       cleaned_contact_query := contact_query |} in
  match clean flow starts cleaned with
  | Ok cleaned => Ok (cleaned, errors)
  | Raise (ValidationError msg) => Ok (cleaned, errors ++ [(NON_FIELD_ERRORS, msg)])
  | Raise e => Raise e
  end.

(** [Broadcast.save]: the FlowStart table after the call. *)
Definition save (flow : Flow) (user : string) (cleaned : CleanedData)
    (starts : list FlowStart) : result Exception (list FlowStart) :=
  recipients_mode ← cleaned_get "recipients_mode" (cleaned_recipients_mode cleaned);
  '(groups, contacts, contact_query) ←
    (if String.eqb recipients_mode "query" then
       contact_query ← cleaned_get "contact_query" (cleaned_contact_query cleaned);
       Ok ([], [], Some contact_query)
     else
       omnibox ← cleaned_get "omnibox" (cleaned_omnibox cleaned);
       Ok (omnibox_groups omnibox, omnibox_contacts omnibox, None));
  restart_participants ←
    cleaned_get "restart_participants" (cleaned_restart_participants cleaned);
  include_active ← cleaned_get "include_active" (cleaned_include_active cleaned);
  Ok (async_start flow user groups contacts contact_query
        restart_participants include_active starts).

(** What the view answers to a submission. *)
Inductive Response :=
| FormInvalid (errors : Errors)
| Redirect (flow : Flow).

(** The POST of the form view: [save] runs only when the form is valid. *)
Definition post (flow : Flow) (user : string) (data : PostData)
    (starts : list FlowStart) : list FlowStart * result Exception Response :=
  match full_clean flow starts data with
  | Raise e => (starts, Raise e)
  | Ok (cleaned, []) =>
      match save flow user cleaned starts with
      | Ok starts' => (starts', Ok (Redirect flow))
      | Raise e => (starts, Raise e)
      end
  | Ok (_, errors) => (starts, Ok (FormInvalid errors))
  end.

End Form.

End Broadcast.

(** * Keyword triggers: BaseFlowForm and FlowCRUDL.Update *)

(** [s.split(sep)] for a separator of one character. *)
Fixpoint split (sep : ascii) (s : string) : list string :=
  match s with
  | EmptyString => [EmptyString]
  | String c rest =>
      if Ascii.eqb c sep then EmptyString :: split sep rest
      else
        match split sep rest with
        | [] => [String c EmptyString]
        | word :: words => String c word :: words
        end
  end.

(** The order of [sorted] on [str]: by code point, which on the UTF-8
    bytes of two strings is the order of [String.compare]. *)
Definition str_le (a b : string) : Prop := String.leb a b = true.

#[global] Instance str_le_dec a b : Decision (str_le a b).
Proof. unfold str_le. apply _. Defined.

Definition sorted (l : list string) : list string := merge_sort str_le l.

Module Triggers.

Inductive TriggerType := TYPE_KEYWORD | TYPE_OTHER.

#[global] Instance TriggerType_eq_dec : EqDecision TriggerType.
Proof. solve_decision. Defined.

(** A row of the [Trigger] table; [trigger_flow] is the key of its flow. *)
Record Trigger := {
  trigger_org : nat;
  trigger_flow : option nat;
  trigger_keyword : string;
  trigger_type : TriggerType;
  is_archived : bool;
  is_active : bool;
  groups : list nat;
  created_by : string;
  modified_by : string
}.

Definition set_is_archived (value : bool) (t : Trigger) : Trigger :=
  {| trigger_org := trigger_org t;
     trigger_flow := trigger_flow t;
     trigger_keyword := trigger_keyword t;
     trigger_type := trigger_type t;
     is_archived := value;
     is_active := is_active t;
     groups := groups t;
     created_by := created_by t;
     modified_by := modified_by t |}.

(** [queryset.update(is_archived=value)] on the rows that [matches] selects. *)
Definition update_is_archived (matches : Trigger -> bool) (value : bool)
    (table : list Trigger) : list Trigger :=
  map (fun t => if matches t then set_is_archived value t else t) table.

(** Modelled from the spec: the [Trigger] model is in
    temba/triggers/models.py, which is not part of the file.  A trigger
    that is created is active, not archived and has no contact groups. *)
Definition create (org : nat) (keyword : string) (type : TriggerType) (flow : nat)
    (user : string) (table : list Trigger) : list Trigger :=
  table ++ [{| trigger_org := org;
               trigger_flow := Some flow;
               trigger_keyword := keyword;
               trigger_type := type;
               is_archived := false;
               is_active := true;
               groups := [];
               created_by := user;
               modified_by := user |}].

(** ** BaseFlowForm.clean_keyword_triggers *)

(** The two [forms.ValidationError] of the method, with the keywords that
    their messages join with a comma. *)
Inductive ValidationError :=
| WrongFormat (wrong_format : list string) (limit : nat)
| Duplicates (duplicates : list string).

Definition quote : string := String (ascii_of_nat 34) EmptyString.

(** The message of the duplicate error. *)
Definition error_message (duplicates : list string) : string :=
  if Nat.ltb 1 (length duplicates) then
    "The keywords " +:+ quote +:+ String.concat ", " duplicates +:+ quote
      +:+ " are already used for another flow"
  else
    "The keyword " +:+ quote +:+ String.concat ", " duplicates +:+ quote
      +:+ " is already used for another flow".

Section CleanKeywordTriggers.

(** [str.lower], [str.strip], the match of [^\w+$] with
    [regex.UNICODE | regex.V0], the comparison of the [iexact] lookup and
    [Trigger.KEYWORD_MAX_LEN] are outside the file. *)
Variable lower : string -> string.
Variable strip : string -> string.
Variable word_match : string -> bool.
Variable iexact : string -> string -> bool.
Variable KEYWORD_MAX_LEN : nat.

(** [Trigger.objects.filter(org=org, keyword__iexact=keyword, is_archived=False, is_active=True)]
    and then, the model instance of a form being always truthy,
    [.exclude(flow=self.instance.pk)]. *)
Definition existing (org : nat) (instance_pk : option nat) (keyword : string)
    (table : list Trigger) : list Trigger :=
  filter (fun t => negb (bool_decide (trigger_flow t = instance_pk)))
    (filter (fun t => Nat.eqb (trigger_org t) org && iexact (trigger_keyword t) keyword
                      && negb (is_archived t) && is_active t) table).

(** The three lists after one turn of [for keyword in value]. *)
Definition keyword_step (org : nat) (instance_pk : option nat) (table : list Trigger)
    (acc : list string * list string * list string) (keyword : string)
  : list string * list string * list string :=
  let '(duplicates, wrong_format, cleaned_keywords) := acc in
  let keyword := strip (lower keyword) in
  if negb (str_truthy keyword) then acc
  else
    let wrong_format :=
      if negb (word_match keyword) || Nat.ltb KEYWORD_MAX_LEN (len keyword)
      then wrong_format ++ [keyword] else wrong_format in
    match existing org instance_pk keyword table with
    | _ :: _ => (duplicates ++ [keyword], wrong_format, cleaned_keywords)
    | [] => (duplicates, wrong_format, cleaned_keywords ++ [keyword])
    end.

(** [clean_keyword_triggers]: the cleaned keywords joined by a comma, or
    the error raised.  [value] is [self.data.getlist("keyword_triggers", [])]. *)
Definition clean_keyword_triggers (org : nat) (instance_pk : option nat)
    (table : list Trigger) (value : list string) : result ValidationError string :=
  let '(duplicates, wrong_format, cleaned_keywords) :=
    fold_left (keyword_step org instance_pk table) value ([], [], []) in
  match wrong_format, duplicates with
  | _ :: _, _ => Raise (WrongFormat wrong_format KEYWORD_MAX_LEN)
  | [], _ :: _ => Raise (Duplicates duplicates)
  | [], [] => Ok (String.concat "," cleaned_keywords)
  end.

End CleanKeywordTriggers.

(** ** FlowCRUDL.Update.post_save *)

(** The writes of [post_save] to the trigger table, in the order they are
    issued. *)
Inductive Write :=
| Archive (keyword : string)
| Reactivate (keyword : string)
| Create (keyword : string).

(** [obj.triggers.filter(org=org, flow=obj, trigger_type=Trigger.TYPE_KEYWORD,
    is_archived=archived, groups=None)] *)
Definition keyword_triggers_of (org obj : nat) (archived : bool) (table : list Trigger)
  : list Trigger :=
  filter (fun t => Nat.eqb (trigger_org t) org
                   && bool_decide (trigger_flow t = Some obj)
                   && bool_decide (trigger_type t = TYPE_KEYWORD)
                   && Bool.eqb (is_archived t) archived
                   && bool_decide (groups t = [])) table.

(** The filter of the archiving update:
    [filter(org=org, flow=obj, keyword=keyword, groups=None, is_archived=False)] *)
Definition to_archive (org obj : nat) (keyword : string) (t : Trigger) : bool :=
  Nat.eqb (trigger_org t) org
  && bool_decide (trigger_flow t = Some obj)
  && String.eqb (trigger_keyword t) keyword
  && bool_decide (groups t = [])
  && negb (is_archived t).

(** The filter of the reactivating update:
    [filter(org=org, flow=obj, keyword=keyword, groups=None)] *)
Definition to_reactivate (org obj : nat) (keyword : string) (t : Trigger) : bool :=
  Nat.eqb (trigger_org t) org
  && bool_decide (trigger_flow t = Some obj)
  && String.eqb (trigger_keyword t) keyword
  && bool_decide (groups t = []).

(** One turn of [for keyword in removed_keywords]. *)
Definition remove_step (org obj : nat) (acc : list Trigger * list Write) (keyword : string)
  : list Trigger * list Write :=
  let '(table, writes) := acc in
  (update_is_archived (to_archive org obj keyword) true table, writes ++ [Archive keyword]).

(** One turn of [for keyword in sorted(added_keywords)]. *)
Definition add_step (org obj : nat) (user : string) (archived_keywords : list string)
    (acc : list Trigger * list Write) (keyword : string) : list Trigger * list Write :=
  let '(table, writes) := acc in
  if bool_decide (keyword ∈ archived_keywords) then
    (update_is_archived (to_reactivate org obj keyword) false table,
     writes ++ [Reactivate keyword])
  else
    (create org keyword TYPE_KEYWORD obj user table, writes ++ [Create keyword]).

(** The keywords of the form: [set(cleaned.split(","))] when the cleaned
    string is not empty, the empty set otherwise. *)
Definition submitted_keywords (cleaned : string) : gset string :=
  if Nat.ltb 0 (String.length cleaned) then list_to_set (split "," cleaned) else ∅.

(** [existing_keywords] *)
Definition existing_keywords (org obj : nat) (table : list Trigger) : gset string :=
  list_to_set (map trigger_keyword (keyword_triggers_of org obj false table)).

(** The trigger part of [post_save]: the table after it and the writes
    issued.  [keyword_triggers] is [None] when the form has no such field.
    The removed keywords, a Python set, are visited in the order of
    [elements]. *)
Definition post_save (org : nat) (user : string) (obj : nat)
    (keyword_triggers : option string) (table : list Trigger)
  : list Trigger * list Write :=
  match keyword_triggers with
  | None => (table, [])
  | Some cleaned =>
      let existing_keywords := existing_keywords org obj table in
      let keywords := submitted_keywords cleaned in
      let removed_keywords := existing_keywords ∖ keywords in
      let '(table, writes) :=
        fold_left (remove_step org obj) (elements removed_keywords) (table, []) in
      let added_keywords := keywords ∖ existing_keywords in
      let archived_keywords := map trigger_keyword (keyword_triggers_of org obj true table) in
      fold_left (add_step org obj user archived_keywords)
        (sorted (elements added_keywords)) (table, writes)
  end.

(** The rows that the queries of [post_save] on keyword triggers range
    over: the keyword triggers of the flow in the organisation that have
    no contact group. *)
Definition kw_scope (org obj : nat) (t : Trigger) : Prop :=
  trigger_org t = org /\ trigger_flow t = Some obj
  /\ trigger_type t = TYPE_KEYWORD /\ groups t = [].

(** Every keyword of a list has a keyword trigger of the flow, archived or
    not. *)
Definition covers (org obj : nat) (keywords : list string) (table : list Trigger) : Prop :=
  forall x, x ∈ keywords ->
    exists t, t ∈ table /\ kw_scope org obj t /\ trigger_keyword t = x.

(** The write that [post_save] issues for an added keyword. *)
Definition add_write (archived_keywords : list string) (keyword : string) : Write :=
  if bool_decide (keyword ∈ archived_keywords) then Reactivate keyword else Create keyword.

End Triggers.

(** * FlowCRUDL.ImportTranslation *)

Module ImportTranslation.

(** A language of an organisation. *)
Record Language := {
  iso_code : string;
  name : string
}.

Record Org := {
  org_id : nat;
  languages : list Language
}.

Record Flow := {
  flow_id : nat;
  flow_org : Org;
  base_language : string
}.

(** The result of [gettext.po_get_info]; the language code may be [None]. *)
Record POInfo := {
  language_name : string;
  language_code : option string
}.

(** An uploaded file: its name and its bytes. *)
Record UploadedFile := {
  file_name : string;
  file_content : string
}.

(** Truthiness of [po_info.language_code]. *)
Definition code_truthy (code : option string) : bool :=
  match code with
  | Some c => str_truthy c
  | None => false
  end.

(** The three [ValidationError] of [clean_po_file]; the two about the
    language carry the [lang] parameter of their message. *)
Inductive ValidationError :=
| InvalidPOFile
| IsBaseLanguage (lang : string)
| NotSupportedLanguage (lang : string)
| FieldError (msg : string).

Definition message (e : ValidationError) : string :=
  match e with
  | InvalidPOFile => "File doesn't appear to be a valid PO file."
  | IsBaseLanguage lang =>
      "Contains translations in " +:+ lang +:+ " which is the base language of this flow."
  | NotSupportedLanguage lang =>
      "Contains translations in " +:+ lang +:+ " which is not a supported translation language."
  | FieldError msg => msg
  end.

Section UploadForm.

(** [data.read().decode()] followed by [gettext.po_get_info], [None] when
    either raises; the [clean] of the required [FileField]; and the UUID
    under which [gettext.po_save] stores the file.  All three are outside
    the file. *)
Variable read_po_info : UploadedFile -> option POInfo.
Variable file_field : option UploadedFile -> result string (option UploadedFile).
Variable po_save : option UploadedFile -> string.

(** [self.flow.org.languages.filter(iso_code=code).exists()] *)
Definition language_exists (org : Org) (code : string) : bool :=
  existsb (fun l => String.eqb (iso_code l) code) (languages org).

(** [UploadForm.clean_po_file]; [data] is the cleaned value of the field,
    [None] standing for a falsy one. *)
Definition clean_po_file (flow : Flow) (data : option UploadedFile)
  : result ValidationError (option UploadedFile) :=
  match data with
  | None => Ok data
  | Some file =>
      match read_po_info file with
      | None => Raise InvalidPOFile
      | Some po_info =>
          if code_truthy (language_code po_info) then
            if bool_decide (language_code po_info = Some (base_language flow)) then
              Raise (IsBaseLanguage (language_name po_info))
            else if negb (language_exists (flow_org flow)
                            (default EmptyString (language_code po_info))) then
              Raise (NotSupportedLanguage (language_name po_info))
            else Ok data
          else Ok data
      end
  end.

(** The files kept by [gettext.po_save], by UUID. *)
Definition Storage := list (string * option UploadedFile).

Inductive Response :=
| FormInvalid (error : ValidationError)
| RedirectToConfirm (flow : nat) (po_uuid : string).

(** The cleaning of the only field of the form. *)
Definition full_clean (flow : Flow) (upload : option UploadedFile)
  : result ValidationError (option UploadedFile) :=
  match file_field upload with
  | Raise msg => Raise (FieldError msg)
  | Ok data => clean_po_file flow data
  end.

(** The POST of the view without a [po] parameter, which selects
    [UploadForm]: [form_valid] saves the file and redirects to the
    confirmation step; an invalid form saves nothing. *)
Definition post (flow : Flow) (upload : option UploadedFile) (storage : Storage)
  : Storage * Response :=
  match full_clean flow upload with
  | Raise e => (storage, FormInvalid e)
  | Ok po_file =>
      (storage ++ [(po_save po_file, po_file)],
       RedirectToConfirm (flow_id flow) (po_save po_file))
  end.

End UploadForm.

End ImportTranslation.

(** * FlowCRUDL.ExportResults *)

Module ExportResults.

(** A row of the [ExportFlowResultsTask] table. *)
Record ExportFlowResultsTask := {
  task_pk : nat;
  task_org : nat;
  task_created_by : string;
  task_flows : list nat;
  task_contact_fields : list nat;
  task_include_msgs : bool;
  task_responded_only : bool;
  task_extra_urns : list string;
  task_group_memberships : list nat
}.

(** [form.cleaned_data] *)
Record CleanedData := {
  FLOWS : list nat;
  CONTACT_FIELDS : list nat;
  INCLUDE_MSGS : bool;
  RESPONDED_ONLY : bool;
  EXTRA_URNS : list string;
  GROUP_MEMBERSHIPS : list nat
}.

(** What the request has changed: the task table, the messages shown to
    the user, the callbacks registered with [on_transaction_commit] (each
    is [export_flow_results_task.delay(pk)], kept as its [pk]) and the
    tasks handed to the worker queue. *)
Record State := {
  tasks : list ExportFlowResultsTask;
  messages : list string;
  on_commit : list nat;
  queue : list nat
}.

(** The commit of the transaction of the request runs the callbacks. *)
Definition commit (st : State) : State :=
  {| tasks := tasks st;
     messages := messages st;
     on_commit := [];
     queue := queue st ++ on_commit st |}.

Definition messages_info (msg : string) (st : State) : State :=
  {| tasks := tasks st;
     messages := messages st ++ [msg];
     on_commit := on_commit st;
     queue := queue st |}.

Definition on_transaction_commit (pk : nat) (st : State) : State :=
  {| tasks := tasks st;
     messages := messages st;
     on_commit := on_commit st ++ [pk];
     queue := queue st |}.

(** Modelled from the spec: [ExportFlowResultsTask.create] is in
    temba/flows/models.py, which is not part of the file.  It creates one
    task record for the organisation and the user. *)
Definition create (org : nat) (user : string) (cleaned : CleanedData) (st : State)
  : ExportFlowResultsTask * State :=
  let export :=
    {| task_pk := S (foldr Nat.max 0 (map task_pk (tasks st)));
       task_org := org;
       task_created_by := user;
       task_flows := FLOWS cleaned;
       task_contact_fields := CONTACT_FIELDS cleaned;
       task_include_msgs := INCLUDE_MSGS cleaned;
       task_responded_only := RESPONDED_ONLY cleaned;
       task_extra_urns := EXTRA_URNS cleaned;
       task_group_memberships := GROUP_MEMBERSHIPS cleaned |} in
  (export,
   {| tasks := tasks st ++ [export];
      messages := messages st;
      on_commit := on_commit st;
      queue := queue st |}).

Definition in_progress_message (username : string) : string :=
  "There is already an export in progress, started by " +:+ username
    +:+ ". You must wait for that export to complete before starting another.".
Definition preparing_message (username : string) : string :=
  "We are preparing your export. We will e-mail you at " +:+ username
    +:+ " when it is ready.".
Definition complete_message (dl_url : string) : string :=
  "Export complete, you can find it here: " +:+ dl_url
    +:+ " (production users will get an email)".

Inductive Response :=
| HttpResponseRedirect (url : string)
| RenderToResponse (success_url : string).

Section FormValid.

(** [ExportFlowResultsTask.get_recent_unfinished], the setting
    [CELERY_ALWAYS_EAGER] and [reverse("assets.download", ...)] are
    outside the file. *)
Variable get_recent_unfinished : nat -> list ExportFlowResultsTask -> option ExportFlowResultsTask.
Variable CELERY_ALWAYS_EAGER : bool.
Variable download_url : nat -> string.
Variable success_url : string.

(** [ExportResults.form_valid]; [pjax] says whether the request carries the
    [HTTP_X_PJAX] header. *)
Definition form_valid (org : nat) (user : string) (cleaned : CleanedData) (pjax : bool)
    (st : State) : State * Response :=
  let st :=
    match get_recent_unfinished org (tasks st) with
    | Some existing => messages_info (in_progress_message (task_created_by existing)) st
    | None =>
        let '(export, st) := create org user cleaned st in
        let st := on_transaction_commit (task_pk export) st in
        if negb CELERY_ALWAYS_EAGER then messages_info (preparing_message user) st
        else messages_info (complete_message (download_url (task_pk export))) st
    end in
  (st, if negb pjax then HttpResponseRedirect success_url else RenderToResponse success_url).

End FormValid.

End ExportResults.

(** * The string functions on ASCII text *)

(** [str.lower], [str.strip], the match of [^\w+$] and the [iexact]
    comparison, as they act on ASCII text; a byte above 127 is left alone
    and counts as a word character. *)
Module AsciiText.

Definition lower_char (c : ascii) : ascii :=
  let n := nat_of_ascii c in
  if Nat.leb 65 n && Nat.leb n 90 then ascii_of_nat (n + 32) else c.

Fixpoint lower (s : string) : string :=
  match s with
  | EmptyString => EmptyString
  | String c rest => String (lower_char c) (lower rest)
  end.

Definition is_space (c : ascii) : bool :=
  let n := nat_of_ascii c in
  (Nat.leb 9 n && Nat.leb n 13) || (Nat.leb 28 n && Nat.leb n 32).

Fixpoint lstrip (l : list ascii) : list ascii :=
  match l with
  | c :: rest => if is_space c then lstrip rest else l
  | [] => []
  end.

Definition strip (s : string) : string :=
  string_of_list_ascii (rev (lstrip (rev (lstrip (list_ascii_of_string s))))).

Definition is_word_char (c : ascii) : bool :=
  let n := nat_of_ascii c in
  (Nat.leb 48 n && Nat.leb n 57) || (Nat.leb 65 n && Nat.leb n 90)
  || (Nat.leb 97 n && Nat.leb n 122) || Nat.eqb n 95 || Nat.leb 128 n.

(** One word character or more, then the end of the string or the one
    newline that [$] lets through before it. *)
Fixpoint word_match_from (seen : bool) (s : string) : bool :=
  match s with
  | EmptyString => seen
  | String c rest =>
      if is_word_char c then word_match_from true rest
      else seen && Nat.eqb (nat_of_ascii c) 10
           && match rest with EmptyString => true | _ => false end
  end.

Definition word_match (s : string) : bool := word_match_from false s.

Definition iexact (a b : string) : bool := String.eqb (lower a) (lower b).

End AsciiText.

(** * Sample data *)

Module RevisionSamples.

Import Revisions.

Definition v13 : Version := [13; 0; 0].
Definition v11_12 : Version := [11; 12].

Definition flow1 : Flow :=
  {| flow_id := 1; flow_uuid := "f1"; flow_org_id := 1; flow_is_active := true;
     flow_version := v13; flow_saved_by := "alice"; flow_saved_on := 10;
     flow_metadata := JNull |}.

(** A definition loaded before the flow was upgraded, and one loaded
    before the last save of somebody else. *)
Definition def_legacy : FlowDefinition :=
  {| def_spec_version := v11_12; def_revision := Some 3; def_body := "legacy" |}.
Definition def_stale : FlowDefinition :=
  {| def_spec_version := v13; def_revision := Some 2; def_body := "stale" |}.

Definition rev3 : FlowRevision :=
  {| rev_id := 30; rev_flow := 1; rev_revision := 3; rev_spec_version := v13;
     rev_definition := def_stale; rev_created_by := "alice" |}.


(** The tables once flow f1 has been deleted. *)
Definition db_deleted : DB :=
  {| db_flows :=
       [{| flow_id := 1; flow_uuid := "f1"; flow_org_id := 1; flow_is_active := false;
           flow_version := v13; flow_saved_by := "alice"; flow_saved_on := 10;
           flow_metadata := JNull |}];
     db_revisions := [rev3] |}.

Definition json_loads (body : string) : result Exception FlowDefinition :=
  if String.eqb body "legacy" then Ok def_legacy else Ok def_stale.
Definition encode_datetime (t : Z) : string := "t".
Definition as_json (r : FlowRevision) : Json := JInt (Z.of_nat (rev_revision r)).
Definition validate (d : FlowDefinition) : option string := None.

(** A listing: a goflow revision, and three legacy revisions, the first
    valid, the second failing with a [ValueError], the third with another
    exception. *)
Definition legacy (n : nat) (body : string) : FlowRevision :=
  {| rev_id := 10 * n; rev_flow := 1; rev_revision := n; rev_spec_version := v11_12;
     rev_definition := {| def_spec_version := v11_12; def_revision := Some n;
                          def_body := body |};
     rev_created_by := "alice" |}.

Definition get_migrated_definition (r : FlowRevision) (to_version : Version)
  : result Exception FlowDefinition :=
  if String.eqb (def_body (rev_definition r)) "broken" then Raise (OtherException "boom")
  else Ok (rev_definition r).
Definition validate_legacy_definition (d : FlowDefinition) : result Exception unit :=
  if String.eqb (def_body d) "invalid" then Raise (ValueError "invalid") else Ok tt.

Definition get :=
  get v13 v13 v11_12 get_migrated_definition validate_legacy_definition as_json
    (fun d => JStr (def_body d)) (fun _ _ => Ok JNull) (fun j => j).

End RevisionSamples.

Module TriggerSamples.

Import Triggers.

(** The keyword trigger of flow 7 for the keyword start. *)
Definition start_trigger : Trigger :=
  {| trigger_org := 1; trigger_flow := Some 7; trigger_keyword := "start";
     trigger_type := TYPE_KEYWORD; is_archived := false; is_active := true;
     groups := []; created_by := "alice"; modified_by := "alice" |}.

Definition KEYWORD_MAX_LEN : nat := 16.

Definition clean_keyword_triggers :=
  clean_keyword_triggers AsciiText.lower AsciiText.strip AsciiText.word_match
    AsciiText.iexact KEYWORD_MAX_LEN.

(** A table for flow 7: an active trigger, an archived one, and an active
    trigger of another flow. *)
Definition old_trigger : Trigger :=
  {| trigger_org := 1; trigger_flow := Some 7; trigger_keyword := "old";
     trigger_type := TYPE_KEYWORD; is_archived := false; is_active := true;
     groups := []; created_by := "alice"; modified_by := "alice" |}.
Definition back_trigger : Trigger :=
  {| trigger_org := 1; trigger_flow := Some 7; trigger_keyword := "back";
     trigger_type := TYPE_KEYWORD; is_archived := true; is_active := true;
     groups := []; created_by := "alice"; modified_by := "alice" |}.
Definition other_trigger : Trigger :=
  {| trigger_org := 1; trigger_flow := Some 8; trigger_keyword := "join";
     trigger_type := TYPE_KEYWORD; is_archived := false; is_active := true;
     groups := []; created_by := "alice"; modified_by := "alice" |}.

End TriggerSamples.

Module TranslationSamples.

Import ImportTranslation.

(** An organisation with English and French, a flow in English, and
    catalogs named after the language they declare. *)
Definition org1 : Org :=
  {| org_id := 1;
     languages := [{| iso_code := "eng"; name := "English" |};
                   {| iso_code := "fra"; name := "French" |}] |}.
Definition flow1 : Flow := {| flow_id := 7; flow_org := org1; base_language := "eng" |}.

Definition po (code : string) : UploadedFile :=
  {| file_name := code; file_content := code |}.

Definition read_po_info (file : UploadedFile) : option POInfo :=
  Some {| language_name := file_name file; language_code := Some (file_content file) |}.
Definition file_field (upload : option UploadedFile)
  : result string (option UploadedFile) :=
  match upload with
  | Some file => Ok (Some file)
  | None => Raise "This field is required."
  end.
Definition po_save (file : option UploadedFile) : string := "uuid".

End TranslationSamples.

Module ExportSamples.

Import ExportResults.

Definition running : ExportFlowResultsTask :=
  {| task_pk := 4; task_org := 1; task_created_by := "alice"; task_flows := [7];
     task_contact_fields := []; task_include_msgs := false; task_responded_only := true;
     task_extra_urns := []; task_group_memberships := [] |}.

Definition cleaned : CleanedData :=
  {| FLOWS := [7]; CONTACT_FIELDS := []; INCLUDE_MSGS := false; RESPONDED_ONLY := true;
     EXTRA_URNS := []; GROUP_MEMBERSHIPS := [] |}.

Definition state (rows : list ExportFlowResultsTask) : State :=
  {| tasks := rows; messages := []; on_commit := []; queue := [] |}.

(** Every task of the table is unfinished: the first one of the
    organisation is the recent unfinished one. *)
Definition get_recent_unfinished (org : nat) (rows : list ExportFlowResultsTask)
  : option ExportFlowResultsTask :=
  find (fun t => Nat.eqb (task_org t) org) rows.

Definition download_url (pk : nat) : string := "/assets/download/results_export/".

End ExportSamples.

Module BroadcastSamples.

Import Broadcast.

Definition org1 : Org := {| org_id := 1; is_suspended := false; is_flagged := false |}.
Definition flow5 : Flow := {| flow_id := 5; flow_org := org1 |}.

(** A start of flow 5 that the engine has not finished. *)
Definition pending : FlowStart :=
  {| start_flow := 5; start_status := STATUS_PENDING; start_created_by := "alice";
     start_groups := [2]; start_contacts := []; start_query := None;
     start_restart_participants := false; start_include_active := false |}.

Definition omnibox_field (raw : option string) : result string Json :=
  match raw with
  | Some (String c rest) => Ok (JList [JStr (String c rest)])
  | _ => Ok JNull
  end.
Definition boolean_field (raw : option string) : result string bool :=
  Ok (bool_decide (raw = Some "on")).
Definition recipients_mode_field (raw : option string) : result string string :=
  match raw with
  | None => Raise "This field is required."
  | Some mode =>
      if String.eqb mode "select" || String.eqb mode "query" then Ok mode
      else Raise "Select a valid choice."
  end.
Definition contact_query_field (raw : option string) : result string string :=
  Ok (default EmptyString raw).
Definition omnibox_deserialize (org : Org) (value : Json) : Omnibox :=
  {| omnibox_groups := [3]; omnibox_contacts := [] |}.
Definition parse_query (org : Org) (query : string) : result string string := Ok query.

Definition post :=
  post omnibox_field boolean_field recipients_mode_field contact_query_field
    AsciiText.strip omnibox_deserialize parse_query.

(** A submission that selects a group, and one that gives a query and asks
    to restart the participants. *)
Definition select_group : PostData :=
  {| data_omnibox := Some "g-3"; data_restart_participants := None;
     data_include_active := None; data_recipients_mode := Some "select";
     data_contact_query := None |}.
Definition query_adults : PostData :=
  {| data_omnibox := None; data_restart_participants := Some "on";
     data_include_active := Some "on"; data_recipients_mode := Some "query";
     data_contact_query := Some "age > 18" |}.

End BroadcastSamples.

(** * Keyword forms: the submitted keywords *)

(** [sep in s] for a separator of one character. *)
Fixpoint contains (sep : ascii) (s : string) : bool :=
  match s with
  | EmptyString => false
  | String c rest => Ascii.eqb c sep || contains sep rest
  end.

Module KeywordForms.

Import Triggers.

(** The keywords that the views read back from the cleaned string:
    [cleaned.split(",")] when it is not empty, none otherwise.  The test
    [len(cleaned) > 0] only asks whether the string is empty, which its
    bytes tell as well as its code points. *)
Definition keywords_of (cleaned : string) : list string :=
  if Nat.ltb 0 (String.length cleaned) then split "," cleaned else [].

Section Keywords.

Variable lower : string -> string.
Variable strip : string -> string.
Variable word_match : string -> bool.
Variable iexact : string -> string -> bool.
Variable KEYWORD_MAX_LEN : nat.

(** The submitted keywords after [keyword.lower().strip()], the empty
    ones left out as the loop of [clean_keyword_triggers] does. *)
Definition normalised (value : list string) : list string :=
  filter (fun keyword => str_truthy keyword = true)
    (map (fun keyword => strip (lower keyword)) value).

(** The test that puts a keyword in [wrong_format]. *)
Definition badly_formed (keyword : string) : bool :=
  negb (word_match keyword) || Nat.ltb KEYWORD_MAX_LEN (len keyword).

(** The uniqueness query finds a trigger for the keyword. *)
Definition taken (org : nat) (instance_pk : option nat) (table : list Trigger)
    (keyword : string) : bool :=
  match existing iexact org instance_pk keyword table with
  | [] => false
  | _ :: _ => true
  end.

End Keywords.

End KeywordForms.

Module TriggerFrame.

Import Triggers.

(** The rows that the updates of [post_save] can select: the triggers of
    the flow in the organisation that have no contact group. *)
Definition in_scope (org obj : nat) (t : Trigger) : Prop :=
  trigger_org t = org /\ trigger_flow t = Some obj /\ groups t = [].

(** A row after [post_save] is the row before it, or, for a row in scope,
    the row with another value of [is_archived]. *)
Definition same_or_flipped (org obj : nat) (t t' : Trigger) : Prop :=
  t' = t \/ (in_scope org obj t /\ exists value, t' = set_is_archived value t).

(** A row as [post_save] creates it. *)
Definition fresh (org obj : nat) (user : string) (t : Trigger) : Prop :=
  kw_scope org obj t /\ is_archived t = false /\ is_active t = true
  /\ created_by t = user /\ modified_by t = user.

End TriggerFrame.

(** * FlowCRUDL.Create *)

Module CreateFlow.

Import Triggers.

(** The values of the [flow_type] choice. *)
Inductive FlowType := TYPE_MESSAGE | TYPE_VOICE | TYPE_SURVEY.

#[global] Instance FlowType_eq_dec : EqDecision FlowType.
Proof. solve_decision. Defined.

(** The row that [Trigger.objects.create] adds. *)
Definition created_trigger (org : nat) (keyword : string) (type : TriggerType)
    (flow : nat) (user : string) : Trigger :=
  {| trigger_org := org; trigger_flow := Some flow; trigger_keyword := keyword;
     trigger_type := type; is_archived := false; is_active := true; groups := [];
     created_by := user; modified_by := user |}.

Section PostSave.

(** The type of a trigger created without one, a default of the
    [Trigger] model. *)
Variable DEFAULT_TRIGGER_TYPE : TriggerType.

(** [Create.post_save]: the trigger table after it.  [flow_type] is
    [cleaned_data.get("flow_type")], [keyword_triggers] is
    [cleaned_data["keyword_triggers"]], and [len(...) > 0] the test that
    it is not empty. *)
Definition post_save (org : nat) (user : string) (obj : nat) (flow_type : option FlowType)
    (keyword_triggers : string) (table : list Trigger) : list Trigger :=
  if negb (bool_decide (flow_type = Some TYPE_SURVEY)) then
    if Nat.ltb 0 (String.length keyword_triggers) then
      fold_left (fun table keyword => create org keyword DEFAULT_TRIGGER_TYPE obj user table)
        (split "," keyword_triggers) table
    else table
  else table.

End PostSave.

End CreateFlow.

(** * FlowCRUDL.Broadcast: what stops a start *)

Module BroadcastChecks.

Import Broadcast.

(** The message of the first check of [BroadcastForm.clean] that fails. *)
Definition blocking_message (flow : Flow) (starts : list FlowStart) : option string :=
  if is_starting flow starts then Some starting_message
  else if is_suspended (flow_org flow) then Some suspended_message
  else if is_flagged (flow_org flow) then Some flagged_message
  else None.

(** The errors that [clean] filed. *)
Definition non_field_errors (errors : Errors) : Errors :=
  filter (fun error => error.1 = NON_FIELD_ERRORS) errors.

End BroadcastChecks.

Module BroadcastCheckSamples.

Import Broadcast.

(** A flow of a workspace that is both suspended and flagged. *)
Definition suspended_org : Org := {| org_id := 2; is_suspended := true; is_flagged := true |}.
Definition flow6 : Flow := {| flow_id := 6; flow_org := suspended_org |}.

End BroadcastCheckSamples.

(** * FlowCRUDL.ImportTranslation: the catalogs that pass *)

Module ImportChecks.

Import ImportTranslation.

(** A catalog passes [clean_po_file] when it can be read and either
    declares no language, or declares one that is not the base language of
    the flow and is a language of the organisation. *)
Definition acceptable (read_po_info : UploadedFile -> option POInfo) (flow : Flow)
    (file : UploadedFile) : Prop :=
  exists po_info,
    read_po_info file = Some po_info
    /\ (code_truthy (language_code po_info) = false
        \/ exists code l,
             language_code po_info = Some code
             /\ code <> base_language flow
             /\ l ∈ languages (flow_org flow) /\ iso_code l = code).

End ImportChecks.

(** * FlowCRUDL.ActivityChart: the responses by hour and by day *)

Module ActivityPeriods.

Local Open Scope Z_scope.

(** A row of the [FlowPathCount] table. *)
Record FlowPathCount := {
  fpc_flow : nat;
  fpc_from_uuid : string;
  fpc_period : Z;
  fpc_count : Z
}.

(** [FlowPathCount.objects.filter(flow=flow, from_uuid__in=from_uuids)] *)
Definition path_counts (flow : nat) (from_uuids : list string) (table : list FlowPathCount)
  : list FlowPathCount :=
  filter (fun r => fpc_flow r = flow /\ fpc_from_uuid r ∈ from_uuids) table.

(** [Sum("count")] over the rows that [part] sends to one value. *)
Definition part_sum (part : Z -> Z) (rows : list FlowPathCount) (value : Z) : Z :=
  sum_Z (map fpc_count (filter (fun r => part (fpc_period r) = value) rows)).

(** [.extra({name: "extract(... from period::timestamp)"}).values(name).annotate(count=Sum("count"))]:
    one row per value of the extracted part that occurs, with the sum of
    its counts; [part] is the extraction, which the database computes. *)
Definition annotate_count (part : Z -> Z) (rows : list FlowPathCount) : list (Z * Z) :=
  map (fun value => (value, part_sum part rows value))
    (remove_dups (map (fun r => part (fpc_period r)) rows)).

(** [.order_by("hour")] *)
Definition part_le (a b : Z * Z) : Prop := a.1 <= b.1.

#[global] Instance part_le_dec a b : Decision (part_le a b).
Proof. unfold part_le. apply _. Defined.

Definition order_by_part (rows : list (Z * Z)) : list (Z * Z) :=
  merge_sort part_le rows.

(** The dict comprehensions [{int(h.get("hour")): h.get("count") for h in hod}]. *)
Definition to_dict (rows : list (Z * Z)) : gmap Z Z :=
  fold_left (fun d '(value, count) => <[value := count]> d) rows ∅.

(** The loop [for x in range(0, 24)]: the bucket [datetime(1970, 1, 1, hour=x)]
    and the count of each hour. *)
Definition hours (hod_dict : gmap Z Z) : list (Z * Z) :=
  fold_left
    (fun hours x => hours ++ [(ActivityChart.timedelta_hours x, default 0 (hod_dict !! x))])
    (seqZ 0 24) [].

(** The loop [for x in range(0, 7)]: the count of each day and
    [total_responses]. *)
Definition days (dow_dict : gmap Z Z) : list (Z * Z) * Z :=
  fold_left
    (fun '(dow, total_responses) x =>
       let day_count := default 0 (dow_dict !! x) in
       (dow ++ [(x, day_count)], total_responses + day_count))
    (seqZ 0 7) ([], 0).

(** The hour of the day and the day of the week of a period in UTC, the
    epoch being a Thursday. *)
Definition utc_hour (period : Z) : Z := (period / 3600000000) mod 24.
Definition utc_dow (period : Z) : Z := (period / 86400000000 + 4) mod 7.

End ActivityPeriods.

(** * FlowCRUDL.RunTable *)

Module RunTable.

Local Open Scope Z_scope.

(** A row of the [FlowRun] table; [results] maps a result key to its
    value. *)
Record FlowRun := {
  run_id : nat;
  run_flow : nat;
  responded : bool;
  modified_on : Z;
  results : gmap string Json
}.

(** The exceptions that escape the view. *)
Inductive Exception :=
| MultiValueDictKeyError (key : string)
| ParseError (msg : string)
| ValueError (msg : string).

(** The query parameters the view reads. *)
Record QueryDict := {
  GET_responded : option string;
  GET_modified_on : option string;
  GET_id : option string
}.

Definition paginate_by : nat := 50.

(** [order_by("-modified_on")] *)
Definition modified_desc (a b : FlowRun) : Prop := modified_on b <= modified_on a.

#[global] Instance modified_desc_dec a b : Decision (modified_desc a b).
Proof. unfold modified_desc. apply _. Defined.

(** The entries of the context that the view adds: [more] and the runs
    of the page, each with its [value_list]. *)
Record Context := {
  more : bool;
  runs : list (FlowRun * list (option Json))
}.

(** The runs that the page is taken from: those of the flow, those that
    responded when asked for, and, with a cursor, those modified no later
    than it other than the run of the cursor. *)
Definition matching (flow : nat) (only_responded : bool) (cursor : option (Z * nat))
    (table : list FlowRun) : list FlowRun :=
  let runs := filter (fun r => run_flow r = flow) table in
  let runs := if only_responded then filter (fun r => responded r = true) runs else runs in
  match cursor with
  | Some (modified, id) =>
      filter (fun r => run_id r <> id) (filter (fun r => modified_on r <= modified) runs)
  | None => runs
  end.

(** The page: one run more than [paginate_by] is fetched to know whether
    there is more, and each run is given the values of the result fields,
    [None] for a result it does not have. *)
Definition page (result_keys : list string) (runs : list FlowRun) : Context :=
  let runs := take (paginate_by + 1) (merge_sort modified_desc runs) in
  let more := Nat.ltb paginate_by (length runs) in
  let runs := take paginate_by runs in
  {| more := more;
     runs := map (fun run => (run, map (fun key => results run !! key) result_keys)) runs |}.

Section View.

(** [str_to_bool], [iso8601.parse_date] and the coercion of the [id]
    parameter to a key by the [exclude] lookup are outside the file. *)
Variable str_to_bool : string -> bool.
Variable parse_date : string -> result Exception Z.
Variable to_pk : string -> result Exception nat.

(** The cursor of the pagination: read only when [modified_on] is given
    and not empty. *)
Definition cursor (GET : QueryDict) : result Exception (option (Z * nat)) :=
  match GET_modified_on GET with
  | Some (String c rest) =>
      match GET_id GET with
      | None => Raise (MultiValueDictKeyError "id")
      | Some id =>
          modified ← parse_date (String c rest);
          pk ← to_pk id;
          Ok (Some (modified, pk))
      end
  | _ => Ok None
  end.

(** [RunTable.get_context_data]; [result_keys] are the keys of
    [flow.metadata["results"]]. *)
Definition get_context_data (flow : nat) (result_keys : list string)
    (table : list FlowRun) (GET : QueryDict) : result Exception Context :=
  let only_responded := str_to_bool (default "true" (GET_responded GET)) in
  cursor ← cursor GET;
  Ok (page result_keys (matching flow only_responded cursor table)).

End View.

End RunTable.

(** * FlowCRUDL.DownloadTranslation *)

Module DownloadTranslation.

Record Flow := {
  flow_id : nat;
  flow_org : nat;
  flow_is_active : bool;
  flow_name : string
}.

(** [self.flows = Flow.objects.filter(id__in=..., is_active=True)]; [ids]
    are the [flow] parameters of the request as the lookup reads them. *)
Definition flows (ids : list nat) (table : list Flow) : list Flow :=
  filter (fun f => flow_id f ∈ ids /\ flow_is_active f = true) table.

(** [get_object_org]: the organisation the permission of the user is
    checked against, [None] when there is none. *)
Definition get_object_org (ids : list nat) (table : list Flow) : option nat :=
  let flows := flows ids table in
  let flow_orgs : gset nat := list_to_set (map flow_org flows) in
  if Nat.eqb (size flow_orgs) 1 then flow_org <$> head flows else None.

End DownloadTranslation.

(** * FlowCRUDL.Editor: the assets of the editor *)

(** [s.startswith(prefix)] and [s.endswith(suffix)]. *)
Fixpoint startswith (s prefix : string) : bool :=
  match prefix, s with
  | EmptyString, _ => true
  | String p prefix', String c s' => Ascii.eqb c p && startswith s' prefix'
  | String _ _, EmptyString => false
  end.

Definition reverse_str (s : string) : string :=
  string_of_list_ascii (rev (list_ascii_of_string s)).

Definition endswith (s suffix : string) : bool :=
  startswith (reverse_str s) (reverse_str suffix).

Module Editor.

(** The entries of the manifest that the loop skips. *)
Definition ignored (key : string) : bool :=
  startswith key "precache-manifest" || startswith key "service-worker".

(** The lists [scripts] and [styles] after one turn of the loop over
    [data.get("files").items()]. *)
Definition assets_step (prefix : string) (acc : list string * list string)
    (entry : string * string) : list string * list string :=
  let '(scripts, styles) := acc in
  let '(key, filename) := entry in
  let filename := prefix +:+ filename in
  if ignored key then (scripts, styles)
  else
    let styles :=
      if endswith key ".css" && endswith filename ".css" then styles ++ [filename]
      else styles in
    let scripts :=
      if endswith key ".js" && endswith filename ".js" then scripts ++ [filename]
      else scripts in
    (scripts, styles).

(** [prefix = "/dev" if dev_mode else settings.STATIC_URL] *)
Definition prefix_of (dev_mode : bool) (STATIC_URL : string) : string :=
  if dev_mode then "/dev" else STATIC_URL.

(** The scripts and the styles of the context, from the files of the
    asset manifest in the order of the file. *)
Definition assets (dev_mode : bool) (STATIC_URL : string) (files : list (string * string))
  : list string * list string :=
  fold_left (assets_step (prefix_of dev_mode STATIC_URL)) files ([], []).

(** A URL with the ending [suffix] that is the prefix followed by the file
    of a manifest entry whose key has that ending and is not skipped. *)
Definition from_manifest (prefix suffix : string) (files : list (string * string))
    (url : string) : Prop :=
  endswith url suffix = true
  /\ exists key filename,
       (key, filename) ∈ files /\ url = prefix +:+ filename
       /\ endswith key suffix = true /\ ignored key = false.

End Editor.

(** * Properties *)

(** ** The activity chart *)

Section ActivityChartFacts.

Import ActivityChart.

Local Open Scope Z_scope.

(** C2: the bucket of the histogram is chosen by the span between the first
    and the last period alone: hourly exactly when the span is under 21
    days, daily exactly when it is at least 21 and under 500 days, weekly
    exactly when it is at least 500 days. *)
Theorem histogram_bucket_thresholds (start_date end_date : datetime) :
  let S := end_date - start_date in
  (fst (histogram_for start_date end_date) = Hour <-> S < timedelta_days 21)
  /\ (fst (histogram_for start_date end_date) = Day
      <-> timedelta_days 21 <= S < timedelta_days 500)
  /\ (fst (histogram_for start_date end_date) = Week <-> timedelta_days 500 <= S).
Proof.
  intros S. unfold histogram_for. fold S.
  assert (timedelta_days 21 < timedelta_days 500) by (unfold timedelta_days; lia).
  destruct (Z.ltb_spec S (timedelta_days 21)); simpl;
    [|destruct (Z.ltb_spec S (timedelta_days 500)); simpl];
    repeat split; intros; try discriminate; try lia; try reflexivity.
Qed.

Lemma EXIT_TYPES_inj e1 e2 : EXIT_TYPES e1 = EXIT_TYPES e2 -> e1 = e2.
Proof.
  destruct e1 as [[]|], e2 as [[]|]; simpl; intros H; try reflexivity; discriminate H.
Qed.

Lemma count_sum_cons r rows e :
  count_sum (r :: rows) e
  = (if decide (frc_exit_type r = e) then frc_count r else 0) + count_sum rows e.
Proof.
  unfold count_sum. rewrite filter_cons.
  destruct (decide (frc_exit_type r = e)); reflexivity.
Qed.

Lemma count_sum_absent rows e : e ∉ map frc_exit_type rows -> count_sum rows e = 0.
Proof.
  induction rows as [|r rows IH]; intros Hnot; [reflexivity|].
  rewrite count_sum_cons. simpl in Hnot. rewrite not_elem_of_cons in Hnot.
  destruct Hnot as [Hne Hnot].
  destruct (decide (frc_exit_type r = e)); [congruence|].
  rewrite IH by assumption. reflexivity.
Qed.

(** The sum of an indicator over a list without duplicates. *)
Lemma sum_indicator (x : option ExitType) (c : Z) (l : list (option ExitType)) :
  NoDup l ->
  sum_Z (map (fun e => if decide (x = e) then c else 0) l)
  = if decide (x ∈ l) then c else 0.
Proof.
  induction 1 as [|e l Hnotin Hnodup IH]; simpl.
  - destruct (decide (x ∈ [])) as [Hin|]; [inversion Hin|reflexivity].
  - rewrite IH.
    destruct (decide (x = e)) as [->|Hne].
    + destruct (decide (e ∈ l)); [contradiction|].
      destruct (decide (e ∈ e :: l)) as [|Hn]; [lia|].
      exfalso. apply Hn. left.
    + destruct (decide (x ∈ l)) as [Hin|Hnin].
      * destruct (decide (x ∈ e :: l)) as [|Hn]; [lia|].
        exfalso. apply Hn. right. assumption.
      * destruct (decide (x ∈ e :: l)) as [Hin'|]; [|lia].
        exfalso. apply elem_of_cons in Hin'. destruct Hin'; contradiction.
Qed.

Lemma sum_Z_add {A} (f g : A -> Z) (l : list A) :
  sum_Z (map (fun x => f x + g x) l) = sum_Z (map f l) + sum_Z (map g l).
Proof. induction l as [|x l IH]; simpl; [reflexivity|]. rewrite IH. lia. Qed.

(** Summing the per-type sums over any duplicate-free list that covers the
    exit types of the rows gives the sum of all the rows. *)
Lemma sum_count_sum (rows : list FlowRunCount) (l : list (option ExitType)) :
  NoDup l ->
  (forall r, r ∈ rows -> frc_exit_type r ∈ l) ->
  sum_Z (map (count_sum rows) l) = sum_Z (map frc_count rows).
Proof.
  intros Hnodup. induction rows as [|r rows IH]; intros Hcover.
  - induction l as [|e l IHl]; simpl; [reflexivity|].
    apply NoDup_cons in Hnodup. destruct Hnodup as [_ Hnodup].
    rewrite IHl; [reflexivity|assumption|intros r Hr; inversion Hr].
  - erewrite (map_ext (count_sum (r :: rows))) by (intros e; apply count_sum_cons).
    rewrite sum_Z_add, sum_indicator by assumption.
    rewrite IH by (intros r' Hr'; apply Hcover; right; assumption).
    destruct (decide (frc_exit_type r ∈ l)) as [|Hn]; [reflexivity|].
    exfalso. apply Hn, Hcover. left.
Qed.

(** The loop over the counts: the total is the sum of the counts, and an
    exit type reads its own sum when it occurs and is left alone when not. *)
Lemma add_counts_fold (f : option ExitType -> Z) (keys : list (option ExitType))
    (context : gmap string Z) (total : Z) :
  let r := fold_left
      (fun '(context, total_runs) '(exit_type, count__sum) =>
         (<[EXIT_TYPES exit_type := count__sum]> context, total_runs + count__sum))
      (map (fun e => (e, f e)) keys) (context, total) in
  r.2 = total + sum_Z (map f keys)
  /\ (forall e, r.1 !! EXIT_TYPES e
                = if decide (e ∈ keys) then Some (f e) else context !! EXIT_TYPES e)
  /\ (forall k, (forall e, k <> EXIT_TYPES e) -> r.1 !! k = context !! k).
Proof.
  revert context total. induction keys as [|k keys IH]; intros context total; simpl.
  - split; [lia|]. split; [|reflexivity].
    intros e. destruct (decide (e ∈ [])) as [Hin|]; [inversion Hin|reflexivity].
  - destruct (IH (<[EXIT_TYPES k := f k]> context) (total + f k)) as (Ht & Hl & Ho).
    split; [rewrite Ht; lia|]. split.
    + intros e. rewrite Hl.
      destruct (decide (e ∈ keys)) as [Hin|Hnin].
      * destruct (decide (e ∈ k :: keys)) as [|Hn]; [reflexivity|].
        exfalso. apply Hn. right. assumption.
      * destruct (decide (e = k)) as [->|Hne].
        -- rewrite lookup_insert_eq.
           destruct (decide (k ∈ k :: keys)) as [|Hn]; [reflexivity|].
           exfalso. apply Hn. left.
        -- rewrite lookup_insert_ne
             by (intros Heq; apply Hne; symmetry; apply EXIT_TYPES_inj; assumption).
           destruct (decide (e ∈ k :: keys)) as [Hin'|]; [|reflexivity].
           exfalso. apply elem_of_cons in Hin'. destruct Hin'; contradiction.
    + intros key Hkey. rewrite Ho by assumption.
      apply lookup_insert_ne. intros Heq. apply (Hkey k). symmetry. assumption.
Qed.

Lemma default_states_lookup (context : gmap string Z) (e : option ExitType) :
  default_states context !! EXIT_TYPES e = Some (default 0 (context !! EXIT_TYPES e)).
Proof.
  unfold default_states. simpl.
  destruct e as [[]|]; simpl;
    repeat (case_match; simplify_map_eq); reflexivity.
Qed.

(** C9: when the context built so far holds none of the four state keys,
    the context of the chart gives each state the sum of the stored counts
    of its exit type for the flow, zero for an exit type without a row,
    and [total_runs] is the sum of the four. *)
Theorem total_runs_is_sum_of_states (flow : nat) (table : list FlowRunCount)
    (total_responses : Z) (context : gmap string Z) :
  (forall e, context !! EXIT_TYPES e = None) ->
  let context' := get_context_data flow table total_responses context in
  let rows := filter (fun r => frc_flow r = flow) table in
  exists active completed interrupted expired : Z,
    context' !! "active" = Some active
    /\ context' !! "completed" = Some completed
    /\ context' !! "interrupted" = Some interrupted
    /\ context' !! "expired" = Some expired
    /\ context' !! "total_runs" = Some (active + completed + interrupted + expired)
    /\ active = count_sum rows None
    /\ completed = count_sum rows (Some EXIT_TYPE_COMPLETED)
    /\ interrupted = count_sum rows (Some EXIT_TYPE_INTERRUPTED)
    /\ expired = count_sum rows (Some EXIT_TYPE_EXPIRED)
    /\ (forall e, e ∉ map frc_exit_type rows -> context' !! EXIT_TYPES e = Some 0).
Proof.
  intros Hfresh context' rows.
  pose (keys := remove_dups (map frc_exit_type rows)).
  assert (Hstate : forall e, context' !! EXIT_TYPES e = Some (count_sum rows e)).
  { intros e. unfold context', get_context_data, add_counts, run_counts.
    fold rows. fold keys.
    destruct (add_counts_fold (count_sum rows) keys context 0) as (_ & Hl & _).
    destruct (fold_left _ _ _) as [c t]. simpl in Hl.
    rewrite !lookup_insert_ne by (destruct e as [[]|]; discriminate).
    rewrite default_states_lookup, Hl, Hfresh.
    destruct (decide (e ∈ keys)) as [|Hn]; [reflexivity|].
    simpl. rewrite count_sum_absent; [reflexivity|].
    intros Hin. apply Hn. unfold keys. apply elem_of_remove_dups. assumption. }
  assert (Htotal : context' !! "total_runs"
                   = Some (sum_Z (map (count_sum rows) keys))).
  { unfold context', get_context_data, add_counts, run_counts.
    fold rows. fold keys.
    destruct (add_counts_fold (count_sum rows) keys context 0) as (Ht & _ & _).
    destruct (fold_left _ _ _) as [c t]. simpl in Ht. subst t.
    rewrite lookup_insert_ne by discriminate.
    rewrite lookup_insert_eq. f_equal; lia. }
  assert (Hcover : forall l, (forall r, r ∈ rows -> frc_exit_type r ∈ l) ->
                             NoDup l ->
                             sum_Z (map (count_sum rows) l) = sum_Z (map frc_count rows)).
  { intros l Hl Hnd. apply sum_count_sum; assumption. }
  exists (count_sum rows None), (count_sum rows (Some EXIT_TYPE_COMPLETED)),
    (count_sum rows (Some EXIT_TYPE_INTERRUPTED)), (count_sum rows (Some EXIT_TYPE_EXPIRED)).
  repeat split.
  - apply (Hstate None).
  - apply (Hstate (Some EXIT_TYPE_COMPLETED)).
  - apply (Hstate (Some EXIT_TYPE_INTERRUPTED)).
  - apply (Hstate (Some EXIT_TYPE_EXPIRED)).
  - rewrite Htotal. f_equal.
    rewrite (Hcover keys).
    + rewrite <- (Hcover [None; Some EXIT_TYPE_COMPLETED; Some EXIT_TYPE_INTERRUPTED;
                           Some EXIT_TYPE_EXPIRED]).
      * simpl. lia.
      * intros r _. destruct (frc_exit_type r) as [[]|]; compute_done.
      * compute_done.
    + intros r Hr. unfold keys. apply elem_of_remove_dups.
      apply list_elem_of_fmap. exists r. split; [reflexivity|assumption].
    + apply NoDup_remove_dups.
  - intros e Hnot. rewrite Hstate, count_sum_absent by assumption. reflexivity.
Qed.

(** A flow with three completed runs in two rows, one expired run and no
    other row: the chart reports 3, 1, 0 and 0, and 4 in total. *)
Lemma total_runs_is_sum_of_states_witness :
  exists active completed interrupted expired : Z,
    get_context_data 7
      [{| frc_flow := 7; frc_exit_type := Some EXIT_TYPE_COMPLETED; frc_count := 2 |};
       {| frc_flow := 7; frc_exit_type := Some EXIT_TYPE_EXPIRED; frc_count := 1 |};
       {| frc_flow := 8; frc_exit_type := None; frc_count := 5 |};
       {| frc_flow := 7; frc_exit_type := Some EXIT_TYPE_COMPLETED; frc_count := 1 |}]
      0 ∅ !! "total_runs" = Some (active + completed + interrupted + expired)
    /\ active = 0 /\ completed = 3 /\ interrupted = 0 /\ expired = 1.
Proof.
  destruct (total_runs_is_sum_of_states 7
      [{| frc_flow := 7; frc_exit_type := Some EXIT_TYPE_COMPLETED; frc_count := 2 |};
       {| frc_flow := 7; frc_exit_type := Some EXIT_TYPE_EXPIRED; frc_count := 1 |};
       {| frc_flow := 8; frc_exit_type := None; frc_count := 5 |};
       {| frc_flow := 7; frc_exit_type := Some EXIT_TYPE_COMPLETED; frc_count := 1 |}]
      0 ∅ (fun e => lookup_empty (EXIT_TYPES e)))
    as (a & c & i & e & _ & _ & _ & _ & Ht & Ha & Hc & Hi & He & _).
  exists a, c, i, e. split; [exact Ht|].
  rewrite Ha, Hc, Hi, He. vm_compute. repeat split.
Defined.

End ActivityChartFacts.

(** Spans of one day short of 21, of 21 days, and of 500 days. *)
Example histogram_20_days :
  ActivityChart.histogram_for 0%Z (ActivityChart.timedelta_days 20)
  = (ActivityChart.Hour, (- ActivityChart.timedelta_hours 1)%Z).
Proof. reflexivity. Qed.

Example histogram_21_days :
  fst (ActivityChart.histogram_for 0%Z (ActivityChart.timedelta_days 21)) = ActivityChart.Day.
Proof. reflexivity. Qed.

(** Without responses no histogram is built. *)
Example histogram_without_responses :
  ActivityChart.histogram 0%Z 0%Z (ActivityChart.timedelta_days 30) = None.
Proof. reflexivity. Qed.

Example histogram_500_days :
  fst (ActivityChart.histogram_for 0%Z (ActivityChart.timedelta_days 500)) = ActivityChart.Week.
Proof. reflexivity. Qed.

(** ** The revision listing *)

Section RevisionsGetFacts.

Import Revisions.

Variable CURRENT_SPEC_VERSION : Version.
Variable INITIAL_GOFLOW_VERSION : Version.
Variable FINAL_LEGACY_VERSION : Version.
Variable get_migrated_definition : FlowRevision -> Version -> result Exception FlowDefinition.
Variable validate_legacy_definition : FlowDefinition -> result Exception unit.
Variable as_json : FlowRevision -> Json.
Variable definition_json : FlowDefinition -> Json.
Variable flow_inspect : nat -> FlowDefinition -> result Exception Json.
Variable get_metadata : Json -> Json.

#[local] Abbreviation get :=
  (get CURRENT_SPEC_VERSION INITIAL_GOFLOW_VERSION FINAL_LEGACY_VERSION
     get_migrated_definition validate_legacy_definition as_json definition_json
     flow_inspect get_metadata).
#[local] Abbreviation revisions_step :=
  (revisions_step INITIAL_GOFLOW_VERSION FINAL_LEGACY_VERSION
     get_migrated_definition validate_legacy_definition as_json).
#[local] Abbreviation listed :=
  (listed INITIAL_GOFLOW_VERSION FINAL_LEGACY_VERSION
     get_migrated_definition validate_legacy_definition).
#[local] Abbreviation reported :=
  (reported INITIAL_GOFLOW_VERSION FINAL_LEGACY_VERSION
     get_migrated_definition validate_legacy_definition).

#[local] Instance revision_desc_total : Total revision_desc.
Proof. intros a b. unfold revision_desc. lia. Qed.

#[local] Instance revision_desc_trans : Transitive revision_desc.
Proof. intros a b c. unfold revision_desc. lia. Qed.

(** The loop of the listing appends, in order, the listed revisions to the
    results and the reported ones to the log. *)
Lemma fold_revisions_step (flow : Flow) (l : list FlowRevision)
    (revisions : list Json) (log : list LogRecord) :
  fold_left (revisions_step flow) l (revisions, log)
  = (revisions ++ map as_json (filter (fun r => listed r = true) l),
     log ++ omap (reported flow) l).
Proof.
  revert revisions log. induction l as [|r l IH]; intros revisions log; simpl.
  - rewrite !app_nil_r. reflexivity.
  - rewrite filter_cons.
    unfold Revisions.listed, Revisions.reported, Revisions.unexpected,
      Revisions.validate_legacy.
    destruct (version_ge (rev_spec_version r) INITIAL_GOFLOW_VERSION) eqn:Hv; simpl.
    + rewrite IH, <- app_assoc. reflexivity.
    + destruct (get_migrated_definition r FINAL_LEGACY_VERSION) as [legacy_flow_def|e];
        [destruct (validate_legacy_definition legacy_flow_def) as [[]|e]|]; simpl.
      * rewrite IH, <- app_assoc. reflexivity.
      * destruct (is_ValueError e); simpl; rewrite IH; [reflexivity|].
        rewrite <- app_assoc. reflexivity.
      * destruct (is_ValueError e); simpl; rewrite IH; [reflexivity|].
        rewrite <- app_assoc. reflexivity.
Qed.

(** C7: the listing never raises; it answers the result list made of the
    revisions at or above the initial goflow version, taken as they are
    whatever their migration or validation would give, and of the legacy
    revisions whose migration to the final legacy version returns a
    definition that validates; a legacy revision whose migration or
    validation raises is left out, and written to the error log exactly
    when the exception is not a [ValueError]. *)
Theorem revisions_listing_culls_and_reports (table : list FlowRevision) (flow : Flow)
    (requested_version : option Version) :
  let considered := take 100 (order_by_revision_desc (flow_revisions flow table)) in
  let record r e :=
    {| log_flow_uuid := flow_uuid flow;
       log_revision_id := rev_id r;
       log_error := exception_str e |} in
  get table flow None requested_version
  = (Ok (JObj [("results", JList (map as_json (filter (fun r => listed r = true) considered)))]),
     omap (reported flow) considered)
  /\ (forall r, version_ge (rev_spec_version r) INITIAL_GOFLOW_VERSION = true ->
                listed r = true /\ reported flow r = None)
  /\ (forall r legacy_flow_def,
        version_ge (rev_spec_version r) INITIAL_GOFLOW_VERSION = false ->
        get_migrated_definition r FINAL_LEGACY_VERSION = Ok legacy_flow_def ->
        validate_legacy_definition legacy_flow_def = Ok tt ->
        listed r = true /\ reported flow r = None)
  /\ (forall r e,
        version_ge (rev_spec_version r) INITIAL_GOFLOW_VERSION = false ->
        get_migrated_definition r FINAL_LEGACY_VERSION = Raise e ->
        listed r = false
        /\ reported flow r = if is_ValueError e then None else Some (record r e))
  /\ (forall r legacy_flow_def e,
        version_ge (rev_spec_version r) INITIAL_GOFLOW_VERSION = false ->
        get_migrated_definition r FINAL_LEGACY_VERSION = Ok legacy_flow_def ->
        validate_legacy_definition legacy_flow_def = Raise e ->
        listed r = false
        /\ reported flow r = if is_ValueError e then None else Some (record r e)).
Proof.
  intros considered record. split; [|split; [|split; [|split]]].
  - unfold Revisions.get. fold considered.
    rewrite fold_revisions_step. reflexivity.
  - intros r Hv. unfold Revisions.listed, Revisions.reported. rewrite Hv. split; reflexivity.
  - intros r legacy_flow_def Hv Hmigrated Hvalid.
    unfold Revisions.listed, Revisions.reported.
    rewrite Hv, Hmigrated, Hvalid. split; reflexivity.
  - intros r e Hv Hmigrated.
    unfold Revisions.listed, Revisions.reported, Revisions.unexpected.
    rewrite Hv, Hmigrated. split; reflexivity.
  - intros r legacy_flow_def e Hv Hmigrated Hvalid.
    unfold Revisions.listed, Revisions.reported, Revisions.unexpected.
    rewrite Hv, Hmigrated, Hvalid. split; reflexivity.
Qed.

(** C10: the listing looks at the first 100 revisions of the flow in
    descending order of revision number and at no other: its results are
    drawn from them in that order, so there are at most 100, and every
    revision left out of the 100 has a number no higher than each of them. *)
Theorem revisions_listing_top_100 (table : list FlowRevision) (flow : Flow)
    (requested_version : option Version) :
  let ordered := order_by_revision_desc (flow_revisions flow table) in
  exists results log,
    get table flow None requested_version = (Ok (JObj [("results", JList results)]), log)
    /\ results = map as_json (filter (fun r => listed r = true) (take 100 ordered))
    /\ length results <= 100
    /\ ordered ≡ₚ flow_revisions flow table
    /\ StronglySorted revision_desc ordered
    /\ (forall r r', r ∈ take 100 ordered -> r' ∈ drop 100 ordered ->
                     rev_revision r' <= rev_revision r).
Proof.
  intros ordered.
  eexists _, _. split.
  { unfold Revisions.get. fold ordered. rewrite fold_revisions_step. reflexivity. }
  simpl. split; [reflexivity|]. split; [|split; [|split]].
  - rewrite length_map.
    etransitivity; [apply length_filter|].
    rewrite length_take. lia.
  - apply merge_sort_Permutation.
  - apply StronglySorted_merge_sort; apply _.
  - intros r r' Hr Hr'.
    assert (Hs : StronglySorted revision_desc (take 100 ordered ++ drop 100 ordered)).
    { rewrite take_drop. apply StronglySorted_merge_sort; apply _. }
    exact (StronglySorted_app_1_elem_of _ _ _ _ _ Hs Hr Hr').
Qed.

End RevisionsGetFacts.

(** Of revisions 0 to 3, where 0 fails with another exception, 1 with a
    [ValueError] and 2 is valid, the listing answers 3 and 2 and logs 0. *)
Example revisions_listing :
  RevisionSamples.get
    [RevisionSamples.legacy 1 "invalid"; RevisionSamples.rev3;
     RevisionSamples.legacy 0 "broken"; RevisionSamples.legacy 2 "fine"]
    RevisionSamples.flow1 None None
  = (Ok (JObj [("results", JList [JInt 3; JInt 2])]),
     [{| Revisions.log_flow_uuid := "f1"; Revisions.log_revision_id := 0;
         Revisions.log_error := "boom" |}]).
Proof. reflexivity. Qed.

(** ** Saving a revision *)

Section RevisionsPostFacts.

Import Revisions.

Variable json_loads : string -> result Exception FlowDefinition.
Variable encode_datetime : Z -> string.
Variable as_json : FlowRevision -> Json.
Variable validate : FlowDefinition -> option string.

#[local] Abbreviation post := (post json_loads encode_datetime as_json validate).
#[local] Abbreviation save_revision := (save_revision validate).



End RevisionsPostFacts.


(** ** Starting a flow *)

Section BroadcastFacts.

Import Broadcast.

Variable omnibox_field : option string -> result string Json.
Variable boolean_field : option string -> result string bool.
Variable recipients_mode_field : option string -> result string string.
Variable contact_query_field : option string -> result string string.
Variable strip : string -> string.
Variable omnibox_deserialize : Org -> Json -> Omnibox.
Variable parse_query : Org -> string -> result string string.

#[local] Abbreviation full_clean :=
  (full_clean omnibox_field boolean_field recipients_mode_field contact_query_field
     strip omnibox_deserialize parse_query).
#[local] Abbreviation post :=
  (post omnibox_field boolean_field recipients_mode_field contact_query_field
     strip omnibox_deserialize parse_query).

(** While the flow is starting, the cleaning of the form either ends with
    the error of [clean] among the non-field errors, or is cut short by the
    lookup of a recipients mode that was not submitted. *)
Lemma full_clean_while_starting (flow : Flow) (starts : list FlowStart) (data : PostData) :
  is_starting flow starts = true ->
  match full_clean flow starts data with
  | Ok (cleaned, errors) => (NON_FIELD_ERRORS, starting_message) ∈ errors
  | Raise e => data_recipients_mode data = None
  end.
Proof.
  intros Hstarting.
  unfold Broadcast.full_clean, clean, clean_omnibox, clean_contact_query, data_get.
  rewrite Hstarting.
  destruct (data_recipients_mode data) as [mode|]; simpl.
  - repeat (match goal with
            | |- context [field_clean ?r] => destruct r; simpl
            | |- context [if ?b then _ else _] => destruct b; simpl
            | |- context [parse_query ?o ?q] => destruct (parse_query o q); simpl
            end);
      apply list_elem_of_In; simpl; tauto.
  - repeat (match goal with
            | |- context [field_clean ?r] => destruct r; simpl
            end);
      first [reflexivity | apply list_elem_of_In; simpl; tauto].
Qed.

(** C1, as the code has it: while the flow has an unfinished start, a
    submission of the form creates no FlowStart whatever it carries; every
    answer of the view is the invalid form with the already-being-started
    error, and every submission that names a recipients mode gets that
    answer. *)
Theorem broadcast_rejected_while_starting (flow : Flow) (user : string)
    (data : PostData) (starts : list FlowStart) :
  is_starting flow starts = true ->
  (post flow user data starts).1 = starts
  /\ (forall response, (post flow user data starts).2 = Ok response ->
        exists errors, response = FormInvalid errors
                       /\ (NON_FIELD_ERRORS, starting_message) ∈ errors)
  /\ (is_Some (data_recipients_mode data) ->
      exists errors, (post flow user data starts).2 = Ok (FormInvalid errors)
                     /\ (NON_FIELD_ERRORS, starting_message) ∈ errors).
Proof.
  intros Hstarting.
  pose proof (full_clean_while_starting flow starts data Hstarting) as Hclean.
  unfold Broadcast.post.
  destruct (full_clean flow starts data) as [[cleaned errors]|e].
  - destruct errors as [|error errors]; [inversion Hclean|]. simpl.
    split; [reflexivity|]. split.
    + intros response Hr. inversion Hr. eexists. split; [reflexivity|assumption].
    + intros _. eexists. split; [reflexivity|assumption].
  - simpl. split; [reflexivity|]. split.
    + intros response Hr. discriminate Hr.
    + intros [mode Hmode]. congruence.
Qed.

End BroadcastFacts.

(** While flow 5 has a pending start, a query submission with both flags
    set creates nothing and is answered with the error. *)
Lemma broadcast_rejected_while_starting_witness :
  (BroadcastSamples.post BroadcastSamples.flow5 "bob" BroadcastSamples.query_adults
     [BroadcastSamples.pending]).1 = [BroadcastSamples.pending]
  /\ exists errors,
       (BroadcastSamples.post BroadcastSamples.flow5 "bob" BroadcastSamples.query_adults
          [BroadcastSamples.pending]).2 = Ok (Broadcast.FormInvalid errors)
       /\ (Broadcast.NON_FIELD_ERRORS, Broadcast.starting_message) ∈ errors.
Proof.
  destruct (broadcast_rejected_while_starting
              BroadcastSamples.omnibox_field BroadcastSamples.boolean_field
              BroadcastSamples.recipients_mode_field BroadcastSamples.contact_query_field
              AsciiText.strip BroadcastSamples.omnibox_deserialize
              BroadcastSamples.parse_query BroadcastSamples.flow5 "bob"
              BroadcastSamples.query_adults [BroadcastSamples.pending] eq_refl)
    as (Hstarts & _ & Hinvalid).
  split; [exact Hstarts|]. apply Hinvalid. eexists. reflexivity.
Defined.

(** The same submissions once the start is over: each creates one start. *)
Example broadcast_select_when_idle :
  BroadcastSamples.post BroadcastSamples.flow5 "bob" BroadcastSamples.select_group []
  = ([{| Broadcast.start_flow := 5; Broadcast.start_status := Broadcast.STATUS_PENDING;
         Broadcast.start_created_by := "bob"; Broadcast.start_groups := [3];
         Broadcast.start_contacts := []; Broadcast.start_query := None;
         Broadcast.start_restart_participants := false;
         Broadcast.start_include_active := false |}],
     Ok (Broadcast.Redirect BroadcastSamples.flow5)).
Proof. reflexivity. Qed.

Example broadcast_query_when_idle :
  BroadcastSamples.post BroadcastSamples.flow5 "bob" BroadcastSamples.query_adults []
  = ([{| Broadcast.start_flow := 5; Broadcast.start_status := Broadcast.STATUS_PENDING;
         Broadcast.start_created_by := "bob"; Broadcast.start_groups := [];
         Broadcast.start_contacts := []; Broadcast.start_query := Some "age > 18";
         Broadcast.start_restart_participants := true;
         Broadcast.start_include_active := true |}],
     Ok (Broadcast.Redirect BroadcastSamples.flow5)).
Proof. reflexivity. Qed.

(** C1, as the specification has it, fails: flow 5 is starting, and a
    submission without a recipients mode is not answered with the
    already-being-started error, or with any form: the lookup of the
    missing key raises in the cleaning of the fields, before [clean] is
    run.  It creates no start either. *)
Lemma broadcast_without_mode :
  let data :=
    {| Broadcast.data_omnibox := None; Broadcast.data_restart_participants := None;
       Broadcast.data_include_active := None; Broadcast.data_recipients_mode := None;
       Broadcast.data_contact_query := None |} in
  Broadcast.is_starting BroadcastSamples.flow5 [BroadcastSamples.pending] = true
  /\ BroadcastSamples.post BroadcastSamples.flow5 "bob" data [BroadcastSamples.pending]
     = ([BroadcastSamples.pending], Raise (Broadcast.MultiValueDictKeyError "recipients_mode"))
  /\ ~ exists errors,
         (BroadcastSamples.post BroadcastSamples.flow5 "bob" data
            [BroadcastSamples.pending]).2 = Ok (Broadcast.FormInvalid errors)
         /\ (Broadcast.NON_FIELD_ERRORS, Broadcast.starting_message) ∈ errors.
Proof.
  intros data. split; [reflexivity|]. split; [reflexivity|].
  intros (errors & Hpost & _). discriminate Hpost.
Qed.

(** ** Keyword triggers *)

Section StringOrder.

Lemma ascii_compare_lt_trans (a b c : ascii) :
  Ascii.compare a b = Lt -> Ascii.compare b c = Lt -> Ascii.compare a c = Lt.
Proof.
  unfold Ascii.compare. rewrite !N.compare_lt_iff. lia.
Qed.

Lemma string_compare_lt_trans (a b c : string) :
  String.compare a b = Lt -> String.compare b c = Lt -> String.compare a c = Lt.
Proof.
  revert b c. induction a as [|x a IH]; intros [|y b] [|z c]; simpl;
    intros Hab Hbc; try discriminate; try reflexivity.
  destruct (Ascii.compare x y) eqn:Hxy; try discriminate.
  - apply Ascii.compare_eq_iff in Hxy. subst y.
    destruct (Ascii.compare x z) eqn:Hxz; try discriminate; try reflexivity.
    exact (IH _ _ Hab Hbc).
  - destruct (Ascii.compare y z) eqn:Hyz; try discriminate.
    + apply Ascii.compare_eq_iff in Hyz. subst z. rewrite Hxy. reflexivity.
    + rewrite (ascii_compare_lt_trans _ _ _ Hxy Hyz). reflexivity.
Qed.

#[local] Instance str_le_total : Total str_le.
Proof. intros a b. apply String.leb_total. Qed.

#[local] Instance str_le_trans : Transitive str_le.
Proof.
  intros a b c. unfold str_le, String.leb.
  destruct (String.compare a b) eqn:Hab; try discriminate; intros _;
    destruct (String.compare b c) eqn:Hbc; try discriminate; intros _.
  - apply String.compare_eq_iff in Hab, Hbc. subst.
    destruct (String.compare c c) eqn:Hcc; try reflexivity.
    pose proof (String.compare_antisym c c) as Hanti. rewrite Hcc in Hanti.
    discriminate Hanti.
  - apply String.compare_eq_iff in Hab. subst. rewrite Hbc. reflexivity.
  - apply String.compare_eq_iff in Hbc. subst. rewrite Hab. reflexivity.
  - rewrite (string_compare_lt_trans _ _ _ Hab Hbc). reflexivity.
Qed.

(** [sorted] orders its argument and keeps its elements. *)
Lemma sorted_StronglySorted (l : list string) : StronglySorted str_le (sorted l).
Proof. apply StronglySorted_merge_sort; apply _. Qed.

Lemma sorted_Permutation (l : list string) : sorted l ≡ₚ l.
Proof. apply merge_sort_Permutation. Qed.

End StringOrder.

Section PostSaveFacts.

Import Triggers.

Variables org obj : nat.
Variable user : string.

Lemma elem_of_keyword_triggers_of (archived : bool) (table : list Trigger) (t : Trigger) :
  t ∈ keyword_triggers_of org obj archived table
  <-> t ∈ table /\ kw_scope org obj t /\ is_archived t = archived.
Proof.
  unfold keyword_triggers_of, kw_scope. rewrite list_elem_of_filter.
  rewrite !andb_True, !bool_decide_spec, !Is_true_true, Nat.eqb_eq, Bool.eqb_true_iff.
  tauto.
Qed.

Lemma elem_of_existing_keywords (table : list Trigger) (k : string) :
  k ∈ existing_keywords org obj table
  <-> exists t, t ∈ table /\ kw_scope org obj t /\ is_archived t = false
                /\ trigger_keyword t = k.
Proof.
  unfold existing_keywords. rewrite elem_of_list_to_set, list_elem_of_fmap.
  split.
  - intros (t & Hk & Ht). apply elem_of_keyword_triggers_of in Ht.
    exists t. symmetry in Hk. tauto.
  - intros (t & Ht & Hs & Ha & Hk). exists t. split; [congruence|].
    apply elem_of_keyword_triggers_of. tauto.
Qed.

Lemma elem_of_archived_keywords (table : list Trigger) (k : string) :
  k ∈ map trigger_keyword (keyword_triggers_of org obj true table)
  <-> exists t, t ∈ table /\ kw_scope org obj t /\ is_archived t = true
                /\ trigger_keyword t = k.
Proof.
  rewrite list_elem_of_fmap. split.
  - intros (t & Hk & Ht). apply elem_of_keyword_triggers_of in Ht.
    exists t. symmetry in Hk. tauto.
  - intros (t & Ht & Hs & Ha & Hk). exists t. split; [congruence|].
    apply elem_of_keyword_triggers_of. tauto.
Qed.

Lemma to_archive_spec (k : string) (t : Trigger) :
  to_archive org obj k t = true
  <-> trigger_org t = org /\ trigger_flow t = Some obj /\ trigger_keyword t = k
      /\ groups t = [] /\ is_archived t = false.
Proof.
  unfold to_archive.
  rewrite !andb_true_iff, !bool_decide_eq_true, Nat.eqb_eq, String.eqb_eq,
    negb_true_iff. tauto.
Qed.

Lemma to_reactivate_spec (k : string) (t : Trigger) :
  to_reactivate org obj k t = true
  <-> trigger_org t = org /\ trigger_flow t = Some obj /\ trigger_keyword t = k
      /\ groups t = [].
Proof.
  unfold to_reactivate.
  rewrite !andb_true_iff, !bool_decide_eq_true, Nat.eqb_eq, String.eqb_eq. tauto.
Qed.

Lemma elem_of_update_is_archived (matches : Trigger -> bool) (value : bool)
    (table : list Trigger) (t' : Trigger) :
  t' ∈ update_is_archived matches value table
  <-> exists t, t ∈ table
                /\ t' = if matches t then set_is_archived value t else t.
Proof.
  unfold update_is_archived. rewrite list_elem_of_fmap.
  split; intros (t & H1 & H2); exists t; tauto.
Qed.

(** Archiving the triggers of one keyword takes that keyword, and no
    other, out of the existing keywords. *)
Lemma existing_keywords_archive (k : string) (table : list Trigger) :
  existing_keywords org obj (update_is_archived (to_archive org obj k) true table)
  = existing_keywords org obj table ∖ {[k]}.
Proof.
  apply set_eq. intros x.
  rewrite elem_of_difference, elem_of_singleton, !elem_of_existing_keywords.
  split.
  - intros (t' & Ht' & Hs & Ha & Hk).
    apply elem_of_update_is_archived in Ht'. destruct Ht' as (t & Ht & ->).
    destruct (to_archive org obj k t) eqn:Hm; [discriminate Ha|].
    split; [exists t; tauto|].
    intros ->. apply not_true_iff_false in Hm. apply Hm.
    apply to_archive_spec. unfold kw_scope in Hs. tauto.
  - intros [(t & Ht & Hs & Ha & Hk) Hne].
    exists t. split; [|tauto].
    apply elem_of_update_is_archived. exists t. split; [assumption|].
    destruct (to_archive org obj k t) eqn:Hm; [|reflexivity].
    apply to_archive_spec in Hm. exfalso. apply Hne. rewrite <- Hk. tauto.
Qed.

(** It leaves the archived keywords other than that one as they were. *)
Lemma archived_keywords_archive (k x : string) (table : list Trigger) :
  x <> k ->
  x ∈ map trigger_keyword
        (keyword_triggers_of org obj true
           (update_is_archived (to_archive org obj k) true table))
  <-> x ∈ map trigger_keyword (keyword_triggers_of org obj true table).
Proof.
  intros Hne. rewrite !elem_of_archived_keywords. split.
  - intros (t' & Ht' & Hs & Ha & Hk).
    apply elem_of_update_is_archived in Ht'. destruct Ht' as (t & Ht & ->).
    destruct (to_archive org obj k t) eqn:Hm.
    + apply to_archive_spec in Hm. simpl in Hk. exfalso. apply Hne. rewrite <- Hk. tauto.
    + exists t. tauto.
  - intros (t & Ht & Hs & Ha & Hk).
    exists t. split; [|tauto].
    apply elem_of_update_is_archived. exists t. split; [assumption|].
    destruct (to_archive org obj k t) eqn:Hm; [|reflexivity].
    apply to_archive_spec in Hm. exfalso. apply Hne. rewrite <- Hk. tauto.
Qed.

(** The loop over the removed keywords. *)
Lemma fold_remove_step (ks : list string) (table : list Trigger) (writes : list Write) :
  let r := fold_left (remove_step org obj) ks (table, writes) in
  r.2 = writes ++ map Archive ks
  /\ existing_keywords org obj r.1 = existing_keywords org obj table ∖ list_to_set ks
  /\ (forall x, x ∉ ks ->
        x ∈ map trigger_keyword (keyword_triggers_of org obj true r.1)
        <-> x ∈ map trigger_keyword (keyword_triggers_of org obj true table)).
Proof.
  revert table writes. induction ks as [|k ks IH]; intros table writes; simpl.
  - rewrite app_nil_r. split; [reflexivity|]. split; [set_solver|reflexivity].
  - destruct (IH (update_is_archived (to_archive org obj k) true table)
                (writes ++ [Archive k])) as (Hw & He & Ha).
    split; [rewrite Hw, <- app_assoc; reflexivity|]. split.
    + rewrite He, existing_keywords_archive. set_solver.
    + intros x Hx. apply not_elem_of_cons in Hx. destruct Hx as [Hne Hx].
      rewrite (Ha x Hx). apply archived_keywords_archive. assumption.
Qed.

Lemma covers_update (keywords : list string) (matches : Trigger -> bool) (value : bool)
    (table : list Trigger) :
  covers org obj keywords table -> covers org obj keywords (update_is_archived matches value table).
Proof.
  intros Hc x Hx. destruct (Hc x Hx) as (t & Ht & Hs & Hk).
  exists (if matches t then set_is_archived value t else t). split.
  - apply elem_of_update_is_archived. exists t. tauto.
  - destruct (matches t); tauto.
Qed.

Lemma covers_create (keywords : list string) (k : string) (table : list Trigger) :
  covers org obj keywords table ->
  covers org obj keywords (create org k TYPE_KEYWORD obj user table).
Proof.
  intros Hc x Hx. destruct (Hc x Hx) as (t & Ht & Hs & Hk).
  exists t. split; [|tauto]. unfold create. apply elem_of_app. left. assumption.
Qed.

(** Reactivating the triggers of a keyword that has a keyword trigger adds
    that keyword, and no other, to the existing keywords. *)
Lemma existing_keywords_reactivate (k : string) (table : list Trigger) :
  covers org obj [k] table ->
  existing_keywords org obj (update_is_archived (to_reactivate org obj k) false table)
  = existing_keywords org obj table ∪ {[k]}.
Proof.
  intros Hc. apply set_eq. intros x.
  rewrite elem_of_union, elem_of_singleton, !elem_of_existing_keywords.
  split.
  - intros (t' & Ht' & Hs & Ha & Hk).
    apply elem_of_update_is_archived in Ht'. destruct Ht' as (t & Ht & ->).
    destruct (to_reactivate org obj k t) eqn:Hm.
    + right. apply to_reactivate_spec in Hm. simpl in Hk. rewrite <- Hk. tauto.
    + left. exists t. tauto.
  - intros [(t & Ht & Hs & Ha & Hk)| ->].
    + exists (if to_reactivate org obj k t then set_is_archived false t else t).
      split; [apply elem_of_update_is_archived; exists t; tauto|].
      destruct (to_reactivate org obj k t); tauto.
    + destruct (Hc k) as (t & Ht & Hs & Hk); [left|].
      exists (if to_reactivate org obj k t then set_is_archived false t else t).
      split; [apply elem_of_update_is_archived; exists t; tauto|].
      assert (Hm : to_reactivate org obj k t = true)
        by (apply to_reactivate_spec; unfold kw_scope in Hs; tauto).
      rewrite Hm. unfold kw_scope in *. simpl. tauto.
Qed.

(** So does creating a trigger for it. *)
Lemma existing_keywords_create (k : string) (table : list Trigger) :
  existing_keywords org obj (create org k TYPE_KEYWORD obj user table)
  = existing_keywords org obj table ∪ {[k]}.
Proof.
  apply set_eq. intros x.
  rewrite elem_of_union, elem_of_singleton, !elem_of_existing_keywords.
  unfold create. split.
  - intros (t & Ht & Hs & Ha & Hk). apply elem_of_app in Ht. destruct Ht as [Ht|Ht].
    + left. exists t. tauto.
    + right. apply list_elem_of_singleton in Ht. subst t. simpl in Hk. congruence.
  - intros [(t & Ht & Hs & Ha & Hk)| ->].
    + exists t. split; [apply elem_of_app; left; assumption|tauto].
    + eexists. split; [apply elem_of_app; right; apply list_elem_of_singleton; reflexivity|].
      unfold kw_scope. simpl. tauto.
Qed.

(** The loop over the added keywords. *)
Lemma fold_add_step (archived_keywords ks : list string) (table : list Trigger)
    (writes : list Write) :
  covers org obj archived_keywords table ->
  let r := fold_left (add_step org obj user archived_keywords) ks (table, writes) in
  r.2 = writes ++ map (add_write archived_keywords) ks
  /\ existing_keywords org obj r.1 = existing_keywords org obj table ∪ list_to_set ks.
Proof.
  revert table writes. induction ks as [|k ks IH]; intros table writes Hc; simpl.
  - rewrite app_nil_r. split; [reflexivity|set_solver].
  - unfold add_write at 1.
    destruct (bool_decide (k ∈ archived_keywords)) eqn:Hk.
    + apply bool_decide_eq_true in Hk.
      destruct (IH (update_is_archived (to_reactivate org obj k) false table)
                  (writes ++ [Reactivate k])) as (Hw & He).
      { apply covers_update. assumption. }
      split; [rewrite Hw, <- app_assoc; reflexivity|].
      rewrite He, existing_keywords_reactivate; [set_solver|].
      intros x Hx. apply list_elem_of_singleton in Hx. subst x. apply Hc. assumption.
    + destruct (IH (create org k TYPE_KEYWORD obj user table)
                  (writes ++ [Create k])) as (Hw & He).
      { apply covers_create. assumption. }
      split; [rewrite Hw, <- app_assoc; reflexivity|].
      rewrite He, existing_keywords_create. set_solver.
Qed.

Lemma covers_archived_keywords (table : list Trigger) :
  covers org obj (map trigger_keyword (keyword_triggers_of org obj true table)) table.
Proof.
  intros x Hx. apply elem_of_archived_keywords in Hx.
  destruct Hx as (t & Ht & Hs & _ & Hk). exists t. tauto.
Qed.

Lemma list_to_set_sorted (l : list string) :
  list_to_set (sorted l) =@{gset string} list_to_set l.
Proof.
  apply set_eq. intros x. rewrite !elem_of_list_to_set, sorted_Permutation. reflexivity.
Qed.

(** C3: on a flow update the writes to the trigger table are one archive
    per keyword of existing minus new, then, for the keywords of new minus
    existing in sorted order, a reactivation when the flow has an archived
    keyword trigger for the keyword and a creation otherwise; afterwards
    the existing keywords are the new ones, and running the reconciliation
    again with the same keywords writes nothing and leaves the table as it
    is. *)
Theorem keyword_reconciliation_idempotent (cleaned : string) (table : list Trigger) :
  let existing := existing_keywords org obj table in
  let new := submitted_keywords cleaned in
  let removed := elements (existing ∖ new) in
  let added := sorted (elements (new ∖ existing)) in
  let archived := map trigger_keyword (keyword_triggers_of org obj true table) in
  let r := post_save org user obj (Some cleaned) table in
  r.2 = map Archive removed ++ map (add_write archived) added
  /\ (forall k, k ∈ removed <-> k ∈ existing /\ k ∉ new)
  /\ (forall k, k ∈ added <-> k ∈ new /\ k ∉ existing)
  /\ StronglySorted str_le added
  /\ existing_keywords org obj r.1 = new
  /\ post_save org user obj (Some cleaned) r.1 = (r.1, []).
Proof.
  intros existing new removed added archived r.
  assert (Hremoved : forall k, k ∈ removed <-> k ∈ existing /\ k ∉ new).
  { intros k. unfold removed. rewrite elem_of_elements, elem_of_difference. reflexivity. }
  assert (Hadded : forall k, k ∈ added <-> k ∈ new /\ k ∉ existing).
  { intros k. unfold added. rewrite sorted_Permutation, elem_of_elements,
      elem_of_difference. reflexivity. }
  assert (Hr : r.2 = map Archive removed ++ map (add_write archived) added
               /\ existing_keywords org obj r.1 = new).
  { unfold r, post_save. fold existing new removed.
    destruct (fold_remove_step removed table []) as (Hw1 & He1 & Ha1).
    destruct (fold_left (remove_step org obj) removed (table, [])) as [table1 writes1].
    simpl in Hw1, He1, Ha1. fold added.
    destruct (fold_add_step
                (map trigger_keyword (keyword_triggers_of org obj true table1))
                added table1 writes1 (covers_archived_keywords table1)) as (Hw2 & He2).
    split.
    - rewrite Hw2, Hw1. f_equal. apply map_ext_in. intros k Hk.
      apply list_elem_of_In, Hadded in Hk. unfold add_write.
      rewrite (bool_decide_ext _ (k ∈ archived)); [reflexivity|].
      apply Ha1. rewrite Hremoved. tauto.
    - rewrite He2, He1. unfold added, removed.
      rewrite list_to_set_sorted, !list_to_set_elements_L.
      fold existing. apply set_eq. intros x.
      rewrite elem_of_union, !elem_of_difference.
      destruct (decide (x ∈ existing)), (decide (x ∈ new)); tauto. }
  destruct Hr as [Hwrites Hexisting].
  split; [assumption|]. split; [assumption|]. split; [assumption|].
  split; [apply sorted_StronglySorted|]. split; [assumption|].
  unfold post_save at 1. rewrite Hexisting. fold new.
  rewrite difference_diag_L, elements_empty. reflexivity.
Qed.

End PostSaveFacts.

(** Flow 7 has the active keyword old and the archived keyword back; the
    form submits new and back. *)
Example post_save_writes :
  (Triggers.post_save 1 "bob" 7 (Some "new,back")
     [TriggerSamples.old_trigger; TriggerSamples.back_trigger;
      TriggerSamples.other_trigger]).2
  = [Triggers.Archive "old"; Triggers.Reactivate "back"; Triggers.Create "new"].
Proof. vm_compute. reflexivity. Qed.

Example post_save_again :
  let table := (Triggers.post_save 1 "bob" 7 (Some "new,back")
                  [TriggerSamples.old_trigger; TriggerSamples.back_trigger;
                   TriggerSamples.other_trigger]).1 in
  Triggers.post_save 1 "bob" 7 (Some "new,back") table = (table, []).
Proof. vm_compute. reflexivity. Qed.

Example split_keywords : split "," "new,back" = ["new"; "back"].
Proof. reflexivity. Qed.

Section CleanKeywordFacts.

Import Triggers.

Variable lower : string -> string.
Variable strip : string -> string.
Variable word_match : string -> bool.
Variable iexact : string -> string -> bool.
Variable KEYWORD_MAX_LEN : nat.

#[local] Abbreviation existing := (existing iexact).
#[local] Abbreviation keyword_step :=
  (keyword_step lower strip word_match iexact KEYWORD_MAX_LEN).
#[local] Abbreviation clean_keyword_triggers :=
  (clean_keyword_triggers lower strip word_match iexact KEYWORD_MAX_LEN).

(** An active trigger of the organisation that is not archived, matches
    the keyword and belongs to another flow than the one of the form is
    found by the uniqueness query. *)
Lemma existing_of_another_flow (org : nat) (instance_pk : option nat)
    (table : list Trigger) (k : string) (t : Trigger) :
  t ∈ table -> trigger_org t = org -> iexact (trigger_keyword t) k = true ->
  is_archived t = false -> is_active t = true -> trigger_flow t <> instance_pk ->
  existing org instance_pk k table <> [].
Proof.
  intros Ht Ho Hk Ha Hact Hflow Hnil.
  assert (Hin : t ∈ existing org instance_pk k table).
  { unfold Triggers.existing. apply list_elem_of_filter. split.
    - apply Is_true_true, negb_true_iff, bool_decide_eq_false. assumption.
    - apply list_elem_of_filter. split; [|assumption].
      apply Is_true_true. rewrite Ho, Hk, Ha, Hact, Nat.eqb_refl. reflexivity. }
  rewrite Hnil in Hin. inversion Hin.
Qed.

(** The loop over the submitted keywords keeps the duplicates found so
    far, adds every keyword that the uniqueness query finds, and adds to
    the badly formed keywords only keywords that are badly formed. *)
Lemma fold_keyword_step (org : nat) (instance_pk : option nat) (table : list Trigger)
    (value : list string) (duplicates wrong_format cleaned_keywords : list string) :
  let r := fold_left (keyword_step org instance_pk table) value
             (duplicates, wrong_format, cleaned_keywords) in
  (forall x, x ∈ duplicates -> x ∈ r.1.1)
  /\ (forall keyword, keyword ∈ value ->
        str_truthy (strip (lower keyword)) = true ->
        existing org instance_pk (strip (lower keyword)) table <> [] ->
        strip (lower keyword) ∈ r.1.1)
  /\ ((forall keyword, keyword ∈ value ->
         str_truthy (strip (lower keyword)) = true ->
         word_match (strip (lower keyword)) = true
         /\ len (strip (lower keyword)) <= KEYWORD_MAX_LEN) ->
      r.1.2 = wrong_format).
Proof.
  revert duplicates wrong_format cleaned_keywords.
  induction value as [|kw value IH]; intros duplicates wrong_format cleaned_keywords; simpl.
  - split; [tauto|]. split; [|reflexivity]. intros keyword Hin. inversion Hin.
  - unfold Triggers.keyword_step at 2.
    destruct (str_truthy (strip (lower kw))) eqn:Hkw; simpl.
    + set (wf := if negb (word_match (strip (lower kw)))
                    || Nat.ltb KEYWORD_MAX_LEN (len (strip (lower kw)))
                 then wrong_format ++ [strip (lower kw)] else wrong_format).
      assert (Hwf : word_match (strip (lower kw)) = true
                    /\ len (strip (lower kw)) <= KEYWORD_MAX_LEN ->
                    wf = wrong_format).
      { intros [Hw Hl]. unfold wf. rewrite Hw. simpl.
        apply Nat.ltb_ge in Hl. rewrite Hl. reflexivity. }
      destruct (existing org instance_pk (strip (lower kw)) table) as [|t ts] eqn:Hex.
      * destruct (IH duplicates wf (cleaned_keywords ++ [strip (lower kw)]))
          as (Hd & Hk & Hw).
        split; [assumption|]. split.
        -- intros keyword Hin Htruthy Hexists.
           apply elem_of_cons in Hin. destruct Hin as [->|Hin]; [congruence|].
           apply Hk; assumption.
        -- intros Hall. rewrite Hw.
           ++ apply Hwf, Hall; [left|assumption].
           ++ intros keyword Hin. apply Hall. right. assumption.
      * destruct (IH (duplicates ++ [strip (lower kw)]) wf cleaned_keywords)
          as (Hd & Hk & Hw).
        split; [intros x Hx; apply Hd, elem_of_app; left; assumption|]. split.
        -- intros keyword Hin Htruthy Hexists.
           apply elem_of_cons in Hin. destruct Hin as [->|Hin].
           ++ apply Hd, elem_of_app. right. left.
           ++ apply Hk; assumption.
        -- intros Hall. rewrite Hw.
           ++ apply Hwf, Hall; [left|assumption].
           ++ intros keyword Hin. apply Hall. right. assumption.
    + destruct (IH duplicates wrong_format cleaned_keywords) as (Hd & Hk & Hw).
      split; [assumption|]. split.
      * intros keyword Hin Htruthy Hexists.
        apply elem_of_cons in Hin. destruct Hin as [->|Hin]; [congruence|].
        apply Hk; assumption.
      * intros Hall. apply Hw. intros keyword Hin. apply Hall. right. assumption.
Qed.

(** What the uniqueness query finds is an active trigger of the
    organisation that is not archived, matches the keyword and belongs to
    another flow than the one of the form. *)
Lemma elem_of_existing (org : nat) (instance_pk : option nat) (table : list Trigger)
    (k : string) (t : Trigger) :
  t ∈ existing org instance_pk k table ->
  t ∈ table /\ trigger_org t = org /\ iexact (trigger_keyword t) k = true
  /\ is_archived t = false /\ is_active t = true /\ trigger_flow t <> instance_pk.
Proof.
  unfold Triggers.existing. rewrite !list_elem_of_filter.
  intros (Hflow & Hrow & Ht).
  apply Is_true_true, negb_true_iff, bool_decide_eq_false in Hflow.
  apply Is_true_true in Hrow.
  apply andb_true_iff in Hrow. destruct Hrow as [Hrow Hact].
  apply andb_true_iff in Hrow. destruct Hrow as [Hrow Harch].
  apply andb_true_iff in Hrow. destruct Hrow as [Horg Hk].
  apply Nat.eqb_eq in Horg. apply negb_true_iff in Harch.
  repeat (split; [assumption|]). assumption.
Qed.

(** The loop reports as duplicates only keywords that the uniqueness
    query finds. *)
Lemma fold_keyword_step_found (org : nat) (instance_pk : option nat)
    (table : list Trigger) (value : list string)
    (duplicates wrong_format cleaned_keywords : list string) (x : string) :
  x ∈ (fold_left (keyword_step org instance_pk table) value
         (duplicates, wrong_format, cleaned_keywords)).1.1 ->
  x ∈ duplicates
  \/ exists keyword, keyword ∈ value /\ x = strip (lower keyword)
                     /\ existing org instance_pk x table <> [].
Proof.
  revert duplicates wrong_format cleaned_keywords.
  induction value as [|kw value IH]; intros duplicates wrong_format cleaned_keywords; simpl.
  - intros Hx. left. exact Hx.
  - assert (Hlater : forall d w c,
               x ∈ (fold_left (keyword_step org instance_pk table) value (d, w, c)).1.1 ->
               (x ∈ d -> x ∈ duplicates
                         \/ exists keyword, keyword ∈ kw :: value /\ x = strip (lower keyword)
                                            /\ existing org instance_pk x table <> []) ->
               x ∈ duplicates
               \/ exists keyword, keyword ∈ kw :: value /\ x = strip (lower keyword)
                                  /\ existing org instance_pk x table <> []).
    { intros d w c Hx Hd. destruct (IH d w c Hx) as [Hin|(k & Hk & Heq & Hex)].
      - apply Hd. assumption.
      - right. exists k. split; [right; assumption|]. split; assumption. }
    destruct (str_truthy (strip (lower kw))); simpl.
    + destruct (existing org instance_pk (strip (lower kw)) table) as [|t ts] eqn:Hex.
      * intros Hx. apply (Hlater _ _ _ Hx). intros Hd. left. assumption.
      * intros Hx. apply (Hlater _ _ _ Hx). intros Hd.
        apply elem_of_app in Hd. destruct Hd as [Hd|Hd]; [left; assumption|].
        apply list_elem_of_singleton in Hd. subst x.
        right. exists kw. split; [left|]. split; [reflexivity|].
        rewrite Hex. discriminate.
    + intros Hx. apply (Hlater _ _ _ Hx). intros Hd. left. assumption.
Qed.

(** C5, as the code has it: a submitted keyword that, once lowered and
    stripped, is not empty and matches an active trigger of the
    organisation that is not archived and belongs to another flow than the
    one being edited makes the validation fail; when every submitted
    keyword is well formed the failure is the duplicate error and lists
    the keyword.  The triggers of the flow being edited do not count: every
    keyword that the duplicate error lists is matched by such a trigger of
    another flow, and a submission of well formed keywords that only
    triggers of the edited flow match is accepted. *)
Theorem keyword_of_another_flow_is_rejected (org : nat) (instance_pk : option nat)
    (table : list Trigger) (value : list string) :
  let well_formed :=
    forall keyword, keyword ∈ value ->
      str_truthy (strip (lower keyword)) = true ->
      word_match (strip (lower keyword)) = true
      /\ len (strip (lower keyword)) <= KEYWORD_MAX_LEN in
  (forall keyword t,
     keyword ∈ value ->
     str_truthy (strip (lower keyword)) = true ->
     t ∈ table -> trigger_org t = org ->
     iexact (trigger_keyword t) (strip (lower keyword)) = true ->
     is_archived t = false -> is_active t = true -> trigger_flow t <> instance_pk ->
     (exists e, clean_keyword_triggers org instance_pk table value = Raise e)
     /\ (well_formed ->
         exists duplicates,
           clean_keyword_triggers org instance_pk table value = Raise (Duplicates duplicates)
           /\ strip (lower keyword) ∈ duplicates))
  /\ (forall duplicates k,
        clean_keyword_triggers org instance_pk table value = Raise (Duplicates duplicates) ->
        k ∈ duplicates ->
        exists keyword t,
          keyword ∈ value /\ k = strip (lower keyword)
          /\ t ∈ table /\ trigger_org t = org /\ iexact (trigger_keyword t) k = true
          /\ is_archived t = false /\ is_active t = true /\ trigger_flow t <> instance_pk)
  /\ (well_formed ->
      (forall keyword t,
         keyword ∈ value -> t ∈ table -> trigger_org t = org ->
         iexact (trigger_keyword t) (strip (lower keyword)) = true ->
         is_archived t = false -> is_active t = true -> trigger_flow t = instance_pk) ->
      exists cleaned, clean_keyword_triggers org instance_pk table value = Ok cleaned).
Proof.
  intros well_formed.
  destruct (fold_keyword_step org instance_pk table value [] [] []) as (_ & Hdup & Hwf).
  pose proof (fun x => fold_keyword_step_found org instance_pk table value [] [] [] x)
    as Hfound.
  unfold Triggers.clean_keyword_triggers.
  destruct (fold_left _ value _) as [[duplicates wrong_format] cleaned_keywords].
  simpl in Hdup, Hwf, Hfound. split; [|split].
  - intros keyword t Hin Htruthy Ht Ho Hk Ha Hact Hflow.
    pose proof (existing_of_another_flow org instance_pk table _ t Ht Ho Hk Ha Hact Hflow)
      as Hex.
    specialize (Hdup keyword Hin Htruthy Hex). split.
    + destruct wrong_format; [|eexists; reflexivity].
      destruct duplicates; [inversion Hdup|eexists; reflexivity].
    + intros Hall. rewrite (Hwf Hall).
      destruct duplicates as [|d duplicates]; [inversion Hdup|].
      eexists. split; [reflexivity|assumption].
  - intros listed k Hraise Hk.
    assert (Hlisted : listed = duplicates).
    { destruct wrong_format; [|discriminate Hraise].
      destruct duplicates; [discriminate Hraise|]. inversion Hraise. reflexivity. }
    subst listed.
    destruct (Hfound k Hk) as [Hnil|(keyword & Hin & Heq & Hex)]; [inversion Hnil|].
    destruct (existing org instance_pk k table) as [|t ts] eqn:Hquery; [congruence|].
    assert (Ht : t ∈ existing org instance_pk k table) by (rewrite Hquery; left).
    apply elem_of_existing in Ht.
    exists keyword, t. split; [assumption|]. split; assumption.
  - intros Hall Hown. rewrite (Hwf Hall).
    destruct duplicates as [|d duplicates]; [eexists; reflexivity|].
    destruct (Hfound d) as [Hnil|(keyword & Hin & Heq & Hex)]; [left|inversion Hnil|].
    destruct (existing org instance_pk d table) as [|t ts] eqn:Hquery; [congruence|].
    assert (Ht : t ∈ existing org instance_pk d table) by (rewrite Hquery; left).
    apply elem_of_existing in Ht.
    destruct Ht as (Ht & Ho & Hk & Ha & Hact & Hflow).
    subst d. contradict Hflow. eapply Hown; eassumption.
Qed.

End CleanKeywordFacts.

(** C5, as the specification has it, fails: flow 7 has an active trigger
    for start that is not archived, and the form of flow 7 accepts the
    keyword Start. *)
Lemma keyword_of_same_flow_is_accepted :
  TriggerSamples.start_trigger ∈ [TriggerSamples.start_trigger]
  /\ Triggers.trigger_flow TriggerSamples.start_trigger = Some 7
  /\ Triggers.is_archived TriggerSamples.start_trigger = false
  /\ Triggers.is_active TriggerSamples.start_trigger = true
  /\ AsciiText.strip (AsciiText.lower "Start")
     = Triggers.trigger_keyword TriggerSamples.start_trigger
  /\ TriggerSamples.clean_keyword_triggers 1 (Some 7) [TriggerSamples.start_trigger] ["Start"]
     = Ok "start".
Proof. repeat split. left. Qed.

(** The same keyword submitted for flow 8 is a duplicate. *)
Lemma keyword_of_another_flow_is_rejected_witness :
  exists duplicates,
    TriggerSamples.clean_keyword_triggers 1 (Some 8) [TriggerSamples.start_trigger] ["Start"]
    = Raise (Triggers.Duplicates duplicates)
    /\ "start" ∈ duplicates.
Proof.
  refine (proj2 (proj1 (keyword_of_another_flow_is_rejected AsciiText.lower AsciiText.strip
                          AsciiText.word_match AsciiText.iexact
                          TriggerSamples.KEYWORD_MAX_LEN
                          1 (Some 8) [TriggerSamples.start_trigger] ["Start"])
                   "Start" TriggerSamples.start_trigger
                   _ eq_refl _ eq_refl eq_refl eq_refl eq_refl _)
            _).
  - left.
  - left.
  - discriminate.
  - intros keyword Hin. apply list_elem_of_singleton in Hin. subst keyword.
    intros _. split; [reflexivity|]. vm_compute. lia.
Defined.

(** The length of a keyword is counted in code points, not in bytes: nine
    accented letters, eighteen bytes, are within the limit of sixteen, and
    seventeen of them are not. *)
Example accented_keyword_is_accepted :
  TriggerSamples.clean_keyword_triggers 1 (Some 7) [] ["ééééééééé"] = Ok "ééééééééé".
Proof. reflexivity. Qed.

Example long_accented_keyword_is_rejected :
  TriggerSamples.clean_keyword_triggers 1 (Some 7) [] ["ééééééééééééééééé"]
  = Raise (Triggers.WrongFormat ["ééééééééééééééééé"] 16).
Proof. reflexivity. Qed.

(** ** Importing a translation *)

Section ImportTranslationFacts.

Import ImportTranslation.

Variable read_po_info : UploadedFile -> option POInfo.
Variable file_field : option UploadedFile -> result string (option UploadedFile).
Variable po_save : option UploadedFile -> string.

#[local] Abbreviation clean_po_file := (clean_po_file read_po_info).
#[local] Abbreviation post := (post read_po_info file_field po_save).

Lemma language_exists_false (org : Org) (code : string) :
  language_exists org code = false
  <-> forall l, l ∈ languages org -> iso_code l <> code.
Proof.
  unfold language_exists. induction (languages org) as [|l ls IH]; simpl.
  - split; [intros _ l Hl; inversion Hl|reflexivity].
  - rewrite orb_false_iff, IH, String.eqb_neq. split.
    + intros [Hl Hls] l' Hin. apply elem_of_cons in Hin. destruct Hin as [->|Hin]; auto.
    + intros Hall. split; [apply Hall; left|]. intros l' Hin. apply Hall. right. assumption.
Qed.

(** C6: an uploaded catalog that declares a language code is rejected by
    the validation of the form, and nothing is stored, when the code is the
    base language of the flow, and when the code is not the code of a
    language of the organisation. *)
Theorem catalog_language_is_validated (flow : Flow) (upload : option UploadedFile)
    (file : UploadedFile) (po_info : POInfo) (code : string) (storage : Storage) :
  file_field upload = Ok (Some file) ->
  read_po_info file = Some po_info ->
  language_code po_info = Some code ->
  str_truthy code = true ->
  (code = base_language flow ->
   clean_po_file flow (Some file) = Raise (IsBaseLanguage (language_name po_info))
   /\ post flow upload storage = (storage, FormInvalid (IsBaseLanguage (language_name po_info))))
  /\ ((forall l, l ∈ languages (flow_org flow) -> iso_code l <> code) ->
      exists e, clean_po_file flow (Some file) = Raise e
                /\ post flow upload storage = (storage, FormInvalid e)
                /\ e = if bool_decide (code = base_language flow)
                       then IsBaseLanguage (language_name po_info)
                       else NotSupportedLanguage (language_name po_info)).
Proof.
  intros Hfield Hread Hcode Htruthy.
  unfold ImportTranslation.post, ImportTranslation.full_clean,
    ImportTranslation.clean_po_file.
  rewrite Hfield, Hread, Hcode. simpl. rewrite Htruthy. split.
  - intros ->. rewrite bool_decide_eq_true_2 by reflexivity. split; reflexivity.
  - intros Hnone. apply language_exists_false in Hnone.
    destruct (decide (code = base_language flow)) as [->|Hne].
    + rewrite !bool_decide_eq_true_2 by reflexivity. eexists. repeat split.
    + rewrite (bool_decide_eq_false_2 (Some code = Some (base_language flow)))
        by congruence.
      rewrite (bool_decide_eq_false_2 (code = base_language flow)) by assumption.
      rewrite Hnone. simpl. eexists. repeat split.
Qed.

End ImportTranslationFacts.

(** For a flow in English of an organisation with English and French, a
    catalog in English and a catalog in Spanish are both rejected. *)
Lemma catalog_language_is_validated_witness :
  ImportTranslation.post TranslationSamples.read_po_info TranslationSamples.file_field
    TranslationSamples.po_save TranslationSamples.flow1 (Some (TranslationSamples.po "eng")) []
  = ([], ImportTranslation.FormInvalid (ImportTranslation.IsBaseLanguage "eng"))
  /\ ImportTranslation.post TranslationSamples.read_po_info TranslationSamples.file_field
       TranslationSamples.po_save TranslationSamples.flow1
       (Some (TranslationSamples.po "spa")) []
     = ([], ImportTranslation.FormInvalid (ImportTranslation.NotSupportedLanguage "spa")).
Proof.
  split.
  - refine (proj2 (proj1 (catalog_language_is_validated TranslationSamples.read_po_info
                            TranslationSamples.file_field TranslationSamples.po_save
                            TranslationSamples.flow1 (Some (TranslationSamples.po "eng"))
                            (TranslationSamples.po "eng") _ "eng" []
                            eq_refl eq_refl eq_refl eq_refl) eq_refl)).
  - destruct (proj2 (catalog_language_is_validated TranslationSamples.read_po_info
                       TranslationSamples.file_field TranslationSamples.po_save
                       TranslationSamples.flow1 (Some (TranslationSamples.po "spa"))
                       (TranslationSamples.po "spa") _ "spa" []
                       eq_refl eq_refl eq_refl eq_refl)) as (e & _ & Hpost & He).
    + intros l Hl. apply list_elem_of_In in Hl. simpl in Hl.
      destruct Hl as [<-|[<-|[]]]; discriminate.
    + rewrite Hpost, He. reflexivity.
Defined.

(** ** Exporting results *)

Section ExportResultsFacts.

Import ExportResults.

Variable get_recent_unfinished : nat -> list ExportFlowResultsTask -> option ExportFlowResultsTask.
Variable CELERY_ALWAYS_EAGER : bool.
Variable download_url : nat -> string.
Variable success_url : string.

#[local] Abbreviation form_valid :=
  (form_valid get_recent_unfinished CELERY_ALWAYS_EAGER download_url success_url).



End ExportResultsFacts.

(** With task 4 of alice unfinished, a request of bob only adds the
    message; with an empty table it creates task 1 and queues it at the
    commit. *)
Example export_while_running :
  (ExportResults.form_valid ExportSamples.get_recent_unfinished false
     ExportSamples.download_url "/flow/" 1 "bob" ExportSamples.cleaned false
     (ExportSamples.state [ExportSamples.running])).1
  = {| ExportResults.tasks := [ExportSamples.running];
       ExportResults.messages := [ExportResults.in_progress_message "alice"];
       ExportResults.on_commit := [];
       ExportResults.queue := [] |}.
Proof. reflexivity. Qed.

Example export_when_idle :
  ExportResults.queue
    (ExportResults.commit
       (ExportResults.form_valid ExportSamples.get_recent_unfinished false
          ExportSamples.download_url "/flow/" 1 "bob" ExportSamples.cleaned false
          (ExportSamples.state [])).1)
  = [1].
Proof. reflexivity. Qed.

(** * Further properties *)

(** ** The keyword field from the form to the triggers *)

Section SplitFacts.

Lemma split_no_sep (sep : ascii) (s : string) :
  contains sep s = false -> split sep s = [s].
Proof.
  induction s as [|c s IH]; simpl; [reflexivity|].
  intros H. apply orb_false_iff in H. destruct H as [Hc Hs].
  rewrite Hc, (IH Hs). reflexivity.
Qed.

Lemma split_app_sep (sep : ascii) (s rest : string) :
  contains sep s = false ->
  split sep (s +:+ String sep rest) = s :: split sep rest.
Proof.
  induction s as [|c s IH]; simpl.
  - intros _. rewrite Ascii.eqb_refl. reflexivity.
  - intros H. apply orb_false_iff in H. destruct H as [Hc Hs].
    rewrite Hc, (IH Hs). reflexivity.
Qed.

(** Splitting a joined list gives the list back when no element holds the
    separator. *)
Lemma split_concat (sep : ascii) (l : list string) :
  l <> [] -> (forall k, k ∈ l -> contains sep k = false) ->
  split sep (String.concat (String sep EmptyString) l) = l.
Proof.
  induction l as [|x l IH]; intros Hne Hfree; [congruence|].
  destruct l as [|y l].
  - simpl. apply split_no_sep, Hfree. left.
  - change (String.concat (String sep EmptyString) (x :: y :: l))
      with (x +:+ String sep (String.concat (String sep EmptyString) (y :: l))).
    rewrite split_app_sep by (apply Hfree; left).
    rewrite IH; [reflexivity|discriminate|].
    intros k Hk. apply Hfree. right. assumption.
Qed.

Lemma concat_truthy (sep : string) (l : list string) :
  l <> [] -> (forall k, k ∈ l -> str_truthy k = true) ->
  str_truthy (String.concat sep l) = true.
Proof.
  destruct l as [|x l]; intros Hne Ht; [congruence|].
  assert (Hx : str_truthy x = true) by (apply Ht; left).
  destruct x as [|c x]; [discriminate Hx|].
  simpl. destruct l; reflexivity.
Qed.

End SplitFacts.

Section KeywordFormFacts.

Import Triggers KeywordForms.

Variable lower : string -> string.
Variable strip : string -> string.
Variable word_match : string -> bool.
Variable iexact : string -> string -> bool.
Variable KEYWORD_MAX_LEN : nat.

#[local] Abbreviation keyword_step :=
  (keyword_step lower strip word_match iexact KEYWORD_MAX_LEN).
#[local] Abbreviation clean_keyword_triggers :=
  (clean_keyword_triggers lower strip word_match iexact KEYWORD_MAX_LEN).
#[local] Abbreviation normalised := (normalised lower strip).
#[local] Abbreviation badly_formed := (badly_formed word_match KEYWORD_MAX_LEN).
#[local] Abbreviation taken := (taken iexact).

(** One turn of the loop, with its tests named. *)
Lemma keyword_step_tests (org : nat) (instance_pk : option nat) (table : list Trigger)
    (duplicates wrong_format cleaned_keywords : list string) (kw : string) :
  keyword_step org instance_pk table (duplicates, wrong_format, cleaned_keywords) kw
  = let k := strip (lower kw) in
    if str_truthy k then
      (if taken org instance_pk table k then duplicates ++ [k] else duplicates,
       if badly_formed k then wrong_format ++ [k] else wrong_format,
       if taken org instance_pk table k then cleaned_keywords else cleaned_keywords ++ [k])
    else (duplicates, wrong_format, cleaned_keywords).
Proof.
  unfold Triggers.keyword_step, KeywordForms.taken, KeywordForms.badly_formed. simpl.
  destruct (str_truthy (strip (lower kw))); simpl; [|reflexivity].
  destruct (existing iexact org instance_pk (strip (lower kw)) table); reflexivity.
Qed.

(** The loop of [clean_keyword_triggers] sorts the keywords that are not
    empty into its three lists, in the order of submission. *)
Lemma fold_keyword_step_lists (org : nat) (instance_pk : option nat) (table : list Trigger)
    (value duplicates wrong_format cleaned_keywords : list string) :
  fold_left (keyword_step org instance_pk table) value
    (duplicates, wrong_format, cleaned_keywords)
  = (duplicates ++ filter (fun k => taken org instance_pk table k = true) (normalised value),
     wrong_format ++ filter (fun k => badly_formed k = true) (normalised value),
     cleaned_keywords
       ++ filter (fun k => taken org instance_pk table k = false) (normalised value)).
Proof.
  revert duplicates wrong_format cleaned_keywords.
  induction value as [|kw value IH]; intros duplicates wrong_format cleaned_keywords.
  - simpl. rewrite !app_nil_r. reflexivity.
  - cbn [fold_left]. rewrite keyword_step_tests. cbv zeta.
    unfold KeywordForms.normalised. cbn [map]. rewrite filter_cons.
    fold (normalised value).
    destruct (str_truthy (strip (lower kw))) eqn:Hkw.
    + rewrite decide_True by reflexivity. rewrite !filter_cons.
      destruct (taken org instance_pk table (strip (lower kw)));
        destruct (badly_formed (strip (lower kw)));
        rewrite IH; simpl; rewrite <- ?app_assoc; reflexivity.
    + rewrite decide_False by discriminate. apply IH.
Qed.

Lemma filter_true_nil {A} (P : A -> bool) (l : list A) :
  filter (fun x => P x = true) l = [] -> filter (fun x => P x = false) l = l.
Proof.
  induction l as [|y l IH]; intros Hnil; [reflexivity|].
  rewrite filter_cons in Hnil. rewrite filter_cons. destruct (P y) eqn:Hy.
  - rewrite decide_True in Hnil by reflexivity. discriminate Hnil.
  - rewrite decide_False in Hnil by discriminate.
    rewrite decide_True by reflexivity. rewrite (IH Hnil). reflexivity.
Qed.

(** What an accepted submission says of its keywords. *)
Lemma clean_keyword_triggers_ok (org : nat) (instance_pk : option nat)
    (table : list Trigger) (value : list string) (cleaned : string) :
  clean_keyword_triggers org instance_pk table value = Ok cleaned ->
  filter (fun k => badly_formed k = true) (normalised value) = []
  /\ filter (fun k => taken org instance_pk table k = true) (normalised value) = []
  /\ cleaned = String.concat "," (normalised value).
Proof.
  unfold Triggers.clean_keyword_triggers. rewrite fold_keyword_step_lists. cbn [app].
  destruct (filter (fun k => badly_formed k = true) (normalised value)) eqn:Hwf;
    [|discriminate].
  destruct (filter (fun k => taken org instance_pk table k = true) (normalised value))
    eqn:Hdup; [|discriminate].
  intros Hok. inversion Hok. rewrite (filter_true_nil _ _ Hdup).
  split; [reflexivity|]. split; reflexivity.
Qed.

Lemma clean_keyword_triggers_blank (org : nat) (instance_pk : option nat)
    (table : list Trigger) (value : list string) :
  normalised value = [] ->
  clean_keyword_triggers org instance_pk table value = Ok EmptyString.
Proof.
  intros Hnone. unfold Triggers.clean_keyword_triggers.
  rewrite fold_keyword_step_lists, Hnone. reflexivity.
Qed.

(** X1: the keywords that are empty once lowered and stripped are ignored;
    when some keyword is badly formed the format error is raised and lists
    all of them, whether or not others are duplicates; otherwise a keyword
    that is taken raises the duplicate error listing all that are; and
    otherwise all the keywords are returned, in order, joined by commas. *)
Theorem clean_keyword_triggers_outcome (org : nat) (instance_pk : option nat)
    (table : list Trigger) (value : list string) :
  let keywords := normalised value in
  let wrong_format := filter (fun k => badly_formed k = true) keywords in
  let duplicates := filter (fun k => taken org instance_pk table k = true) keywords in
  clean_keyword_triggers org instance_pk table value
  = match wrong_format, duplicates with
    | _ :: _, _ => Raise (WrongFormat wrong_format KEYWORD_MAX_LEN)
    | [], _ :: _ => Raise (Duplicates duplicates)
    | [], [] => Ok (String.concat "," keywords)
    end.
Proof.
  intros keywords wrong_format duplicates.
  unfold Triggers.clean_keyword_triggers. rewrite fold_keyword_step_lists.
  fold keywords. cbn [app]. fold wrong_format duplicates.
  destruct wrong_format as [|w ws]; [|reflexivity].
  destruct duplicates as [|d ds] eqn:Hd; [|reflexivity].
  subst duplicates. rewrite (filter_true_nil _ _ Hd). reflexivity.
Qed.

End KeywordFormFacts.

Section KeywordUpdateFacts.

Import Triggers KeywordForms.

Variable lower : string -> string.
Variable strip : string -> string.
Variable word_match : string -> bool.
Variable iexact : string -> string -> bool.
Variable KEYWORD_MAX_LEN : nat.

#[local] Abbreviation clean_keyword_triggers :=
  (clean_keyword_triggers lower strip word_match iexact KEYWORD_MAX_LEN).
#[local] Abbreviation normalised := (normalised lower strip).
#[local] Abbreviation badly_formed := (badly_formed word_match KEYWORD_MAX_LEN).
#[local] Abbreviation taken := (taken iexact).

Lemma filter_nil_all {A} (P : A -> bool) (l : list A) :
  filter (fun x => P x = true) l = [] -> forall x, x ∈ l -> P x = false.
Proof.
  induction l as [|y l IH]; intros Hnil x Hx; [inversion Hx|].
  rewrite filter_cons in Hnil. destruct (P y) eqn:Hy.
  - rewrite decide_True in Hnil by reflexivity. discriminate Hnil.
  - rewrite decide_False in Hnil by discriminate.
    apply elem_of_cons in Hx. destruct Hx as [->|Hx]; [assumption|].
    apply IH; assumption.
Qed.

Lemma normalised_truthy (value : list string) (k : string) :
  k ∈ normalised value -> str_truthy k = true.
Proof.
  unfold KeywordForms.normalised. intros Hk.
  apply list_elem_of_filter in Hk. destruct Hk as [Hk _]. exact Hk.
Qed.

(** The list that [split] reads back from the join of the keywords. *)
Lemma cleaned_split (value : list string) :
  (forall k, k ∈ normalised value -> contains "," k = false) ->
  keywords_of (String.concat "," (normalised value)) = normalised value.
Proof.
  intros Hfree. unfold keywords_of.
  destruct (normalised value) as [|k ks] eqn:Hks; [reflexivity|].
  assert (Htruthy : str_truthy (String.concat "," (k :: ks)) = true).
  { apply concat_truthy; [discriminate|].
    intros x Hx. apply (normalised_truthy value). rewrite Hks. assumption. }
  destruct (String.concat "," (k :: ks)) as [|c rest] eqn:Hjoin; [discriminate Htruthy|].
  cbn [String.length Nat.ltb Nat.leb]. rewrite <- Hjoin.
  apply split_concat; [discriminate|assumption].
Qed.

Lemma submitted_keywords_of (cleaned : string) :
  submitted_keywords cleaned = list_to_set (keywords_of cleaned).
Proof.
  unfold submitted_keywords, keywords_of.
  destruct (Nat.ltb 0 (String.length cleaned)); reflexivity.
Qed.

(** X2: when the pattern of a keyword lets no comma through, the string
    that [clean_keyword_triggers] returns is read back by [post_save] as
    exactly the set of the submitted keywords, lowered and stripped, the
    empty ones left out; each of them is well formed and free. *)
Theorem cleaned_keywords_are_submitted (org : nat) (instance_pk : option nat)
    (table : list Trigger) (value : list string) (cleaned : string) :
  (forall k, word_match k = true -> contains "," k = false) ->
  clean_keyword_triggers org instance_pk table value = Ok cleaned ->
  submitted_keywords cleaned = list_to_set (normalised value)
  /\ (forall k, k ∈ normalised value ->
        badly_formed k = false /\ taken org instance_pk table k = false).
Proof.
  intros Hcomma Hclean.
  destruct (clean_keyword_triggers_ok lower strip word_match iexact KEYWORD_MAX_LEN
              _ _ _ _ _ Hclean) as (Hwf & Hdup & ->).
  pose proof (filter_nil_all _ _ Hwf) as Hgood.
  pose proof (filter_nil_all _ _ Hdup) as Hfree.
  split; [|intros k Hk; split; [apply Hgood|apply Hfree]; assumption].
  rewrite submitted_keywords_of. apply f_equal, (cleaned_split value).
  intros x Hx. apply Hcomma.
  specialize (Hgood x Hx). unfold KeywordForms.badly_formed in Hgood.
  apply orb_false_iff in Hgood. destruct Hgood as [Hw _].
  apply negb_false_iff in Hw. assumption.
Qed.

(** X3: a submission that holds no keyword, or only blank ones, is
    accepted as the empty string, and [post_save] then archives every
    existing keyword of the flow, one write each, creates nothing and
    leaves the flow without keywords. *)
Theorem blank_keywords_archive_all (org : nat) (user : string) (obj : nat)
    (instance_pk : option nat) (table : list Trigger) (value : list string) :
  (forall keyword, keyword ∈ value -> str_truthy (strip (lower keyword)) = false) ->
  clean_keyword_triggers org instance_pk table value = Ok EmptyString
  /\ (post_save org user obj (Some EmptyString) table).2
     = map Archive (elements (existing_keywords org obj table))
  /\ existing_keywords org obj (post_save org user obj (Some EmptyString) table).1 = ∅
  /\ length (post_save org user obj (Some EmptyString) table).1 = length table.
Proof.
  intros Hblank.
  assert (Hnone : normalised value = []).
  { unfold KeywordForms.normalised. induction value as [|kw value IH]; [reflexivity|].
    cbn [map]. rewrite filter_cons, decide_False.
    - apply IH. intros k Hk. apply Hblank. right. assumption.
    - rewrite (Hblank kw) by left. discriminate. }
  split.
  { apply clean_keyword_triggers_blank. assumption. }
  unfold post_save, submitted_keywords. cbn [String.length Nat.ltb Nat.leb].
  rewrite difference_empty_L, empty_difference_L.
  destruct (fold_remove_step org obj (elements (existing_keywords org obj table)) table [])
    as (Hw & He & _).
  assert (Hlen : forall ks t w,
             length (fold_left (remove_step org obj) ks (t, w)).1 = length t).
  { induction ks as [|k ks IH]; intros t w; [reflexivity|].
    simpl. rewrite IH. unfold update_is_archived. apply length_map. }
  specialize (Hlen (elements (existing_keywords org obj table)) table []).
  destruct (fold_left _ _ (table, [])) as [table1 writes1].
  simpl in Hw, He, Hlen |- *.
  rewrite elements_empty. simpl.
  split; [assumption|]. split; [|assumption].
  rewrite He, list_to_set_elements_L. set_solver.
Qed.

End KeywordUpdateFacts.

Section PostSaveFrame.

Import Triggers TriggerFrame.

Variables org obj : nat.
Variable user : string.

Lemma same_or_flipped_trans (t t' t'' : Trigger) :
  same_or_flipped org obj t t' -> same_or_flipped org obj t' t'' ->
  same_or_flipped org obj t t''.
Proof.
  intros [->|(Hs & b & ->)] [->|(Hs' & b' & ->)].
  - left. reflexivity.
  - right. split; [assumption|]. exists b'. reflexivity.
  - right. split; [assumption|]. exists b. reflexivity.
  - right. split; [assumption|]. exists b'. reflexivity.
Qed.

(** An update of [is_archived] whose filter stays within the scope keeps
    every row in place, flipped or not. *)
Lemma update_frame (matches : Trigger -> bool) (value : bool) (table : list Trigger) :
  (forall t, matches t = true -> in_scope org obj t) ->
  length (update_is_archived matches value table) = length table
  /\ forall i t, table !! i = Some t ->
       exists t', update_is_archived matches value table !! i = Some t'
                  /\ same_or_flipped org obj t t'.
Proof.
  intros Hscope. unfold update_is_archived. split; [apply length_map|].
  intros i t Hi. rewrite list_lookup_fmap, Hi. simpl. eexists. split; [reflexivity|].
  destruct (matches t) eqn:Hm; [|left; reflexivity].
  right. split; [apply Hscope; assumption|]. exists value. reflexivity.
Qed.

Lemma to_archive_in_scope (k : string) (t : Trigger) :
  to_archive org obj k t = true -> in_scope org obj t.
Proof. intros H. apply to_archive_spec in H. unfold in_scope. tauto. Qed.

Lemma to_reactivate_in_scope (k : string) (t : Trigger) :
  to_reactivate org obj k t = true -> in_scope org obj t.
Proof. intros H. apply to_reactivate_spec in H. unfold in_scope. tauto. Qed.

Lemma remove_fold_frame (ks : list string) (table : list Trigger) (writes : list Write) :
  let r := fold_left (remove_step org obj) ks (table, writes) in
  length r.1 = length table
  /\ forall i t, table !! i = Some t ->
       exists t', r.1 !! i = Some t' /\ same_or_flipped org obj t t'.
Proof.
  revert table writes. induction ks as [|k ks IH]; intros table writes; simpl.
  - split; [reflexivity|]. intros i t Hi. exists t. split; [assumption|left; reflexivity].
  - destruct (update_frame (to_archive org obj k) true table (to_archive_in_scope k))
      as (Hlen & Hrows).
    destruct (IH (update_is_archived (to_archive org obj k) true table)
                (writes ++ [Archive k])) as (Hlen' & Hrows').
    split; [congruence|].
    intros i t Hi. destruct (Hrows i t Hi) as (t1 & Hi1 & Hr1).
    destruct (Hrows' i t1 Hi1) as (t2 & Hi2 & Hr2).
    exists t2. split; [assumption|]. eapply same_or_flipped_trans; eassumption.
Qed.

Lemma fresh_unarchive (t : Trigger) :
  fresh org obj user t -> fresh org obj user (set_is_archived false t).
Proof. unfold fresh, kw_scope. simpl. tauto. Qed.

Lemma add_fold_frame (archived_keywords ks : list string) (n : nat)
    (table : list Trigger) (writes : list Write) :
  n <= length table ->
  (forall i t, n <= i -> table !! i = Some t -> fresh org obj user t) ->
  let r := fold_left (add_step org obj user archived_keywords) ks (table, writes) in
  length table <= length r.1
  /\ (forall i t, table !! i = Some t ->
        exists t', r.1 !! i = Some t' /\ same_or_flipped org obj t t')
  /\ (forall i t, n <= i -> r.1 !! i = Some t -> fresh org obj user t).
Proof.
  revert table writes. induction ks as [|k ks IH]; intros table writes Hn Hfresh; simpl.
  - split; [reflexivity|]. split; [|assumption].
    intros i t Hi. exists t. split; [assumption|left; reflexivity].
  - destruct (bool_decide (k ∈ archived_keywords)).
    + destruct (update_frame (to_reactivate org obj k) false table
                  (to_reactivate_in_scope k)) as (Hlen & Hrows).
      destruct (IH (update_is_archived (to_reactivate org obj k) false table)
                  (writes ++ [Reactivate k])) as (Hlen' & Hrows' & Hfresh').
      { lia. }
      { intros i t Hi Ht. unfold update_is_archived in Ht.
        rewrite list_lookup_fmap in Ht.
        destruct (table !! i) as [t0|] eqn:Ht0; [|discriminate Ht].
        simpl in Ht. inversion Ht as [Heq].
        destruct (to_reactivate org obj k t0);
          [apply fresh_unarchive|]; eapply Hfresh; eassumption. }
      split; [lia|]. split; [|assumption].
      intros i t Hi. destruct (Hrows i t Hi) as (t1 & Hi1 & Hr1).
      destruct (Hrows' i t1 Hi1) as (t2 & Hi2 & Hr2).
      exists t2. split; [assumption|]. eapply same_or_flipped_trans; eassumption.
    + destruct (IH (create org k TYPE_KEYWORD obj user table) (writes ++ [Create k]))
        as (Hlen' & Hrows' & Hfresh').
      { unfold create. rewrite length_app. lia. }
      { intros i t Hi Ht. unfold create in Ht.
        destruct (decide (i < length table)) as [Hlt|Hge].
        - rewrite lookup_app_l in Ht by assumption. eapply Hfresh; eassumption.
        - rewrite lookup_app_r in Ht by lia.
          destruct (i - length table) as [|j]; [|discriminate Ht].
          inversion Ht. unfold fresh, kw_scope. simpl. tauto. }
      assert (Hgrow : length (create org k TYPE_KEYWORD obj user table) = S (length table))
        by (unfold create; rewrite length_app; simpl; lia).
      rewrite Hgrow in Hlen'.
      split; [lia|]. split; [|assumption].
      intros i t Hi. apply Hrows'. unfold create.
      rewrite lookup_app_l by (apply lookup_lt_Some in Hi; assumption). assumption.
Qed.

(** The rows of the table after [post_save], by position. *)
Lemma post_save_rows (keyword_triggers : option string) (table : list Trigger) :
  let table' := (post_save org user obj keyword_triggers table).1 in
  length table <= length table'
  /\ (forall i t, table !! i = Some t ->
        exists t', table' !! i = Some t' /\ same_or_flipped org obj t t')
  /\ (forall i t, length table <= i -> table' !! i = Some t -> fresh org obj user t).
Proof.
  intros table'. unfold table', post_save. destruct keyword_triggers as [cleaned|]; simpl.
  - set (removed := elements (existing_keywords org obj table ∖ submitted_keywords cleaned)).
    destruct (remove_fold_frame removed table []) as (Hlen & Hrows).
    destruct (fold_left (remove_step org obj) removed (table, [])) as [table1 writes1].
    simpl in Hlen, Hrows.
    match goal with
    | |- context [fold_left (add_step org obj user ?a) ?ks (table1, writes1)] =>
        destruct (add_fold_frame a ks (length table) table1 writes1)
          as (Hlen' & Hrows' & Hfresh')
    end.
    { lia. }
    { intros i t Hi Ht. apply lookup_lt_Some in Ht. lia. }
    split; [lia|]. split; [|assumption].
    intros i t Hi. destruct (Hrows i t Hi) as (t1 & Hi1 & Hr1).
    destruct (Hrows' i t1 Hi1) as (t2 & Hi2 & Hr2).
    exists t2. split; [assumption|]. eapply same_or_flipped_trans; eassumption.
  - split; [reflexivity|]. split.
    + intros i t Hi. exists t. split; [assumption|left; reflexivity].
    + intros i t Hi Ht. apply lookup_lt_Some in Ht. lia.
Qed.

(** A trigger of another flow that is in the table after [post_save] was
    in it before. *)
Lemma post_save_other_flow (keyword_triggers : option string) (table : list Trigger)
    (t : Trigger) :
  t ∈ (post_save org user obj keyword_triggers table).1 ->
  trigger_flow t <> Some obj -> t ∈ table.
Proof.
  intros Hin Hflow.
  destruct (post_save_rows keyword_triggers table) as (Hlen & Hrows & Hfresh).
  apply list_elem_of_lookup in Hin. destruct Hin as [i Hi].
  destruct (decide (i < length table)) as [Hlt|Hge].
  - destruct (lookup_lt_is_Some_2 table i Hlt) as [t0 Ht0].
    destruct (Hrows i t0 Ht0) as (t' & Hi' & Hrel).
    rewrite Hi in Hi'. inversion Hi'. subst t'.
    destruct Hrel as [->|((_ & Hf & _) & b & ->)].
    + eapply list_elem_of_lookup_2. eassumption.
    + simpl in Hflow. contradiction.
  - assert (Hf : fresh org obj user t) by (apply (Hfresh i t); [lia|assumption]).
    destruct Hf as ((_ & Hf & _) & _). contradiction.
Qed.

(** X4: [post_save] deletes no trigger and moves none: every row of the
    table is still at its place afterwards, identical unless it is a
    trigger of the flow without contact groups, in which case at most its
    archived flag has changed; and every row added after them is an
    active, unarchived keyword trigger of the flow created by the user. *)
Theorem post_save_frame (keyword_triggers : option string) (table : list Trigger) :
  let table' := (post_save org user obj keyword_triggers table).1 in
  length table <= length table'
  /\ (forall i t, table !! i = Some t ->
        exists t', table' !! i = Some t' /\ same_or_flipped org obj t t')
  /\ (forall i t, table !! i = Some t -> ~ in_scope org obj t -> table' !! i = Some t)
  /\ (forall i t, length table <= i -> table' !! i = Some t -> fresh org obj user t).
Proof.
  intros table'.
  destruct (post_save_rows keyword_triggers table) as (Hlen & Hrows & Hfresh).
  fold table' in Hlen, Hrows, Hfresh.
  split; [assumption|]. split; [assumption|]. split; [|assumption].
  intros i t Hi Hout. destruct (Hrows i t Hi) as (t' & Hi' & [->|(Hs & _)]);
    [assumption|contradiction].
Qed.

(** The existing keywords after [post_save] are the submitted ones. *)
Lemma post_save_existing (cleaned : string) (table : list Trigger) :
  existing_keywords org obj (post_save org user obj (Some cleaned) table).1
  = submitted_keywords cleaned.
Proof.
  unfold post_save.
  set (existing := existing_keywords org obj table).
  set (new := submitted_keywords cleaned).
  destruct (fold_remove_step org obj (elements (existing ∖ new)) table [])
    as (_ & He1 & _).
  destruct (fold_left (remove_step org obj) (elements (existing ∖ new)) (table, []))
    as [table1 writes1].
  simpl in He1.
  destruct (fold_add_step org obj user
              (map trigger_keyword (keyword_triggers_of org obj true table1))
              (sorted (elements (new ∖ existing))) table1 writes1
              (covers_archived_keywords org obj table1)) as (_ & He2).
  rewrite He2, He1, list_to_set_sorted, !list_to_set_elements_L.
  apply set_eq. intros x. rewrite elem_of_union, !elem_of_difference.
  destruct (decide (x ∈ existing)), (decide (x ∈ new)); tauto.
Qed.

End PostSaveFrame.

(** The ASCII pattern lets no comma through. *)
Lemma ascii_word_match_no_comma (k : string) :
  AsciiText.word_match k = true -> contains "," k = false.
Proof.
  unfold AsciiText.word_match. generalize false at 1.
  induction k as [|c k IH]; intros seen; simpl; [intros _; reflexivity|].
  destruct (AsciiText.is_word_char c) eqn:Hc.
  - intros H. rewrite (IH _ H), orb_false_r.
    destruct (Ascii.eqb_spec c ","); [subst c; discriminate Hc|reflexivity].
  - intros H. apply andb_true_iff in H. destruct H as [H Hk].
    apply andb_true_iff in H. destruct H as [_ Hnl].
    destruct k; [|discriminate Hk]. simpl. rewrite orb_false_r.
    destruct (Ascii.eqb_spec c ","); [subst c; discriminate Hnl|reflexivity].
Qed.

(** The form of flow 7, which owns start, submits Start, a blank and JOIN
    while no other flow has them. *)
Lemma cleaned_keywords_are_submitted_witness :
  Triggers.submitted_keywords "start,join" = list_to_set ["start"; "join"].
Proof.
  exact (proj1 (cleaned_keywords_are_submitted AsciiText.lower AsciiText.strip
                  AsciiText.word_match AsciiText.iexact TriggerSamples.KEYWORD_MAX_LEN
                  1 (Some 7) [TriggerSamples.start_trigger] ["Start"; " "; "JOIN"]
                  "start,join" ascii_word_match_no_comma eq_refl)).
Defined.

(** The form of flow 7 submits a blank and an empty keyword. *)
Lemma blank_keywords_archive_all_witness :
  (Triggers.post_save 1 "bob" 7 (Some EmptyString)
     [TriggerSamples.old_trigger; TriggerSamples.back_trigger;
      TriggerSamples.other_trigger]).2
  = [Triggers.Archive "old"].
Proof.
  pose proof (blank_keywords_archive_all AsciiText.lower AsciiText.strip
                AsciiText.word_match AsciiText.iexact TriggerSamples.KEYWORD_MAX_LEN
                1 "bob" 7 (Some 7)
                [TriggerSamples.old_trigger; TriggerSamples.back_trigger;
                 TriggerSamples.other_trigger] [" "; EmptyString]) as H.
  destruct H as (_ & Hwrites & _).
  - intros keyword Hin. apply list_elem_of_In in Hin. simpl in Hin.
    destruct Hin as [<-|[<-|[]]]; reflexivity.
  - rewrite Hwrites. vm_compute. reflexivity.
Defined.

(** ** Creating a flow *)

Section CreateFlowFacts.

Import Triggers KeywordForms CreateFlow.

Variable lower : string -> string.
Variable strip : string -> string.
Variable word_match : string -> bool.
Variable iexact : string -> string -> bool.
Variable KEYWORD_MAX_LEN : nat.
Variable DEFAULT_TRIGGER_TYPE : TriggerType.

#[local] Abbreviation clean_keyword_triggers :=
  (clean_keyword_triggers lower strip word_match iexact KEYWORD_MAX_LEN).
#[local] Abbreviation normalised := (normalised lower strip).
#[local] Abbreviation post_save := (CreateFlow.post_save DEFAULT_TRIGGER_TYPE).

Lemma fold_create (org : nat) (user : string) (obj : nat) (keywords : list string)
    (table : list Trigger) :
  fold_left (fun table keyword => create org keyword DEFAULT_TRIGGER_TYPE obj user table)
    keywords table
  = table ++ map (fun k => created_trigger org k DEFAULT_TRIGGER_TYPE obj user) keywords.
Proof.
  revert table. induction keywords as [|k ks IH]; intros table; simpl.
  - rewrite app_nil_r. reflexivity.
  - rewrite IH. unfold create. rewrite <- app_assoc. reflexivity.
Qed.

(** X5: when a flow is created from an accepted form, a survey gets no
    trigger whatever keywords were submitted; any other flow gets, after
    the rows of the table, one active trigger per submitted keyword that is
    not blank, lowered and stripped, in the order of submission, a keyword
    submitted twice giving two triggers. *)
Theorem create_flow_triggers (org : nat) (user : string) (obj : nat)
    (flow_type : option FlowType) (table : list Trigger) (value : list string)
    (cleaned : string) :
  (forall k, word_match k = true -> contains "," k = false) ->
  clean_keyword_triggers org None table value = Ok cleaned ->
  post_save org user obj flow_type cleaned table
  = if bool_decide (flow_type = Some TYPE_SURVEY) then table
    else table ++ map (fun k => created_trigger org k DEFAULT_TRIGGER_TYPE obj user)
                   (normalised value).
Proof.
  intros Hcomma Hclean.
  destruct (clean_keyword_triggers_ok lower strip word_match iexact KEYWORD_MAX_LEN
              _ _ _ _ _ Hclean) as (Hwf & _ & ->).
  unfold CreateFlow.post_save.
  destruct (bool_decide (flow_type = Some TYPE_SURVEY)); [reflexivity|]. cbn [negb].
  assert (Hsplit : keywords_of (String.concat "," (normalised value)) = normalised value).
  { apply (cleaned_split lower strip). intros k Hk. apply Hcomma.
    pose proof (filter_nil_all _ _ Hwf k Hk) as Hgood.
    unfold KeywordForms.badly_formed in Hgood.
    apply orb_false_iff in Hgood. destruct Hgood as [Hw _].
    apply negb_false_iff in Hw. assumption. }
  unfold keywords_of in Hsplit.
  destruct (Nat.ltb 0 (String.length (String.concat "," (normalised value)))).
  - rewrite fold_create, Hsplit. reflexivity.
  - rewrite <- Hsplit, app_nil_r. reflexivity.
Qed.

End CreateFlowFacts.

(** A message flow created with the keywords Join, blank and join gets two
    triggers for join. *)
Lemma create_flow_triggers_witness :
  CreateFlow.post_save Triggers.TYPE_KEYWORD 1 "bob" 9 (Some CreateFlow.TYPE_MESSAGE)
    "join,join" [TriggerSamples.start_trigger]
  = [TriggerSamples.start_trigger;
     CreateFlow.created_trigger 1 "join" Triggers.TYPE_KEYWORD 9 "bob";
     CreateFlow.created_trigger 1 "join" Triggers.TYPE_KEYWORD 9 "bob"].
Proof.
  exact (create_flow_triggers AsciiText.lower AsciiText.strip AsciiText.word_match
           AsciiText.iexact TriggerSamples.KEYWORD_MAX_LEN Triggers.TYPE_KEYWORD
           1 "bob" 9 (Some CreateFlow.TYPE_MESSAGE) [TriggerSamples.start_trigger]
           ["Join"; " "; "join"] "join,join" ascii_word_match_no_comma eq_refl).
Defined.

(** ** Starting a flow: the other ways to fail *)

Section BroadcastCheckFacts.

Import Broadcast BroadcastChecks.

Variable omnibox_field : option string -> result string Json.
Variable boolean_field : option string -> result string bool.
Variable recipients_mode_field : option string -> result string string.
Variable contact_query_field : option string -> result string string.
Variable strip : string -> string.
Variable omnibox_deserialize : Org -> Json -> Omnibox.
Variable parse_query : Org -> string -> result string string.

#[local] Abbreviation full_clean :=
  (full_clean omnibox_field boolean_field recipients_mode_field contact_query_field
     strip omnibox_deserialize parse_query).
#[local] Abbreviation post :=
  (post omnibox_field boolean_field recipients_mode_field contact_query_field
     strip omnibox_deserialize parse_query).

Lemma clean_blocking (flow : Flow) (starts : list FlowStart) (cleaned : CleanedData) :
  clean flow starts cleaned
  = match blocking_message flow starts with
    | Some msg => Raise (ValidationError msg)
    | None => Ok cleaned
    end.
Proof.
  unfold clean, blocking_message.
  destruct (is_starting flow starts); [reflexivity|].
  destruct (is_suspended (flow_org flow)); [reflexivity|].
  destruct (is_flagged (flow_org flow)); reflexivity.
Qed.

Ltac case_fields :=
  repeat match goal with
         | |- context [field_clean ?r] => destruct r; simpl
         | |- context [if ?b then _ else _] => destruct b; simpl
         | |- context [parse_query ?o ?q] => destruct (parse_query o q); simpl
         end.

(** X6: a flow that is starting, or whose workspace is suspended or
    flagged, cannot be started: for any submission that names a recipients
    mode the form is invalid, no start is created, and its non-field
    errors are one message only, the one of the first of the three checks
    that fails. *)
Theorem broadcast_blocked (flow : Flow) (user : string) (data : PostData)
    (starts : list FlowStart) (msg : string) :
  blocking_message flow starts = Some msg ->
  is_Some (data_recipients_mode data) ->
  exists errors,
    post flow user data starts = (starts, Ok (FormInvalid errors))
    /\ non_field_errors errors = [(NON_FIELD_ERRORS, msg)].
Proof.
  intros Hblock [mode Hmode].
  unfold Broadcast.post, Broadcast.full_clean, clean_omnibox, clean_contact_query, data_get.
  rewrite Hmode. simpl.
  case_fields; rewrite clean_blocking, Hblock; simpl;
    eexists; (split; [reflexivity|reflexivity]).
Qed.

(** X7: in query mode a query that is blank once stripped is refused as
    required and a query that the parser rejects is refused with the
    message of the parser; in select mode an empty selection is refused.
    Each time the form is invalid under the field concerned and no start
    is created. *)
Theorem broadcast_recipient_errors (flow : Flow) (user : string) (data : PostData)
    (starts : list FlowStart) :
  (forall raw, data_recipients_mode data = Some "query" ->
     contact_query_field (data_contact_query data) = Ok raw ->
     str_truthy (strip raw) = false ->
     exists errors, post flow user data starts = (starts, Ok (FormInvalid errors))
                    /\ ("contact_query", query_required_message) ∈ errors)
  /\ (forall raw e, data_recipients_mode data = Some "query" ->
        contact_query_field (data_contact_query data) = Ok raw ->
        str_truthy (strip raw) = true ->
        parse_query (flow_org flow) raw = Raise e ->
        exists errors, post flow user data starts = (starts, Ok (FormInvalid errors))
                       /\ ("contact_query", e) ∈ errors)
  /\ (forall selection, data_recipients_mode data = Some "select" ->
        omnibox_field (data_omnibox data) = Ok selection ->
        json_truthy selection = false ->
        exists errors, post flow user data starts = (starts, Ok (FormInvalid errors))
                       /\ ("omnibox", recipients_required_message) ∈ errors).
Proof.
  split; [|split].
  - intros raw Hmode Hfield Hblank.
    unfold Broadcast.post, Broadcast.full_clean, clean_omnibox, clean_contact_query,
      data_get.
    rewrite Hmode, Hfield. simpl. rewrite Hblank. simpl.
    case_fields; rewrite clean_blocking; destruct (blocking_message flow starts); simpl;
      eexists; (split; [reflexivity|apply list_elem_of_In; simpl; tauto]).
  - intros raw e Hmode Hfield Hquery Hparse.
    unfold Broadcast.post, Broadcast.full_clean, clean_omnibox, clean_contact_query,
      data_get.
    rewrite Hmode, Hfield. simpl. rewrite Hquery, Hparse. simpl.
    case_fields; rewrite clean_blocking; destruct (blocking_message flow starts); simpl;
      eexists; (split; [reflexivity|apply list_elem_of_In; simpl; tauto]).
  - intros selection Hmode Hfield Hempty.
    unfold Broadcast.post, Broadcast.full_clean, clean_omnibox, clean_contact_query,
      data_get.
    rewrite Hmode, Hfield. simpl. rewrite Hempty. simpl.
    case_fields; rewrite clean_blocking; destruct (blocking_message flow starts); simpl;
      eexists; (split; [reflexivity|apply list_elem_of_In; simpl; tauto]).
Qed.

Ltac case_fields_in H :=
  repeat match type of H with
         | context [field_clean ?r] => destruct r eqn:?; simpl in H
         | context [parse_query ?o ?q] => destruct (parse_query o q) eqn:?; simpl in H
         | context [if ?b then _ else _] => destruct b eqn:?; simpl in H
         | context [clean ?f ?s ?c] =>
             rewrite (clean_blocking f s c) in H;
             destruct (blocking_message f s) eqn:?; simpl in H
         end.

(** X8: when the framework's choice field hands back the mode that was
    submitted, a submission that is accepted creates exactly one start, by
    the one call of [async_start], with the flags as their fields cleaned
    them: in query mode with the query as the parser normalised it and no
    group or contact, whatever the selection held; in any other mode with
    the groups and contacts of the selection and no query. *)
Theorem broadcast_start_created (flow : Flow) (user : string) (data : PostData)
    (starts starts' : list FlowStart) (target : Flow) :
  (forall raw mode, recipients_mode_field raw = Ok mode -> raw = Some mode) ->
  post flow user data starts = (starts', Ok (Redirect target)) ->
  blocking_message flow starts = None
  /\ exists mode restart include groups contacts query,
       data_recipients_mode data = Some mode
       /\ boolean_field (data_restart_participants data) = Ok restart
       /\ boolean_field (data_include_active data) = Ok include
       /\ starts' = async_start flow user groups contacts query restart include starts
       /\ (mode = "query" ->
           groups = [] /\ contacts = []
           /\ exists raw parsed,
                contact_query_field (data_contact_query data) = Ok raw
                /\ str_truthy (strip raw) = true
                /\ parse_query (flow_org flow) raw = Ok parsed
                /\ query = Some parsed)
       /\ (mode <> "query" ->
           query = None
           /\ exists selection,
                omnibox_field (data_omnibox data) = Ok selection
                /\ groups = omnibox_groups (omnibox_deserialize (flow_org flow) selection)
                /\ contacts
                   = omnibox_contacts (omnibox_deserialize (flow_org flow) selection)
                /\ (mode = "select" -> json_truthy selection = true)).
Proof.
  intros Hchoice Hpost.
  unfold Broadcast.post, Broadcast.full_clean, clean_omnibox, clean_contact_query,
    data_get in Hpost.
  destruct (data_recipients_mode data) as [mode|] eqn:Hmode; simpl in Hpost.
  2: { case_fields_in Hpost; discriminate Hpost. }
  case_fields_in Hpost; simpl in Hpost; try discriminate Hpost.
  all: split; [reflexivity|].
  all: unfold save in Hpost; simpl in Hpost.
  all: match goal with
       | H : recipients_mode_field _ = Ok ?m |- _ =>
           pose proof (Hchoice _ _ H) as Hm; inversion Hm; subst m
       end.
  all: destruct (String.eqb_spec mode "query") as [Hq|Hq]; simpl in Hpost;
    inversion Hpost; subst.
  all: do 6 eexists; split; [reflexivity|]; split; [reflexivity|];
    split; [reflexivity|]; split; [reflexivity|]; split; intros Hcase;
    try congruence.
  - split; [reflexivity|]. split; [reflexivity|]. do 2 eexists.
    split; [reflexivity|]. split; [apply negb_false_iff; assumption|].
    split; [eassumption|reflexivity].
  - split; [reflexivity|]. eexists. split; [reflexivity|].
    split; [reflexivity|]. split; [reflexivity|]. intros ->.
    match goal with
    | H : _ && negb (json_truthy _) = false |- _ =>
        rewrite String.eqb_refl in H; apply negb_false_iff in H; exact H
    end.
  - split; [reflexivity|]. eexists. split; [reflexivity|].
    split; [reflexivity|]. split; [reflexivity|]. intros ->.
    match goal with
    | H : _ && negb (json_truthy _) = false |- _ =>
        rewrite String.eqb_refl in H; apply negb_false_iff in H; exact H
    end.
Qed.

End BroadcastCheckFacts.

(** A workspace that is suspended and flagged: only the suspension is
    reported. *)
Lemma broadcast_blocked_witness :
  exists errors,
    BroadcastSamples.post BroadcastCheckSamples.flow6 "bob" BroadcastSamples.select_group []
    = ([], Ok (Broadcast.FormInvalid errors))
    /\ BroadcastChecks.non_field_errors errors
       = [(Broadcast.NON_FIELD_ERRORS, Broadcast.suspended_message)].
Proof.
  apply (broadcast_blocked BroadcastSamples.omnibox_field BroadcastSamples.boolean_field
           BroadcastSamples.recipients_mode_field BroadcastSamples.contact_query_field
           AsciiText.strip BroadcastSamples.omnibox_deserialize BroadcastSamples.parse_query
           BroadcastCheckSamples.flow6 "bob" BroadcastSamples.select_group []
           Broadcast.suspended_message eq_refl).
  eexists. reflexivity.
Defined.

(** A blank query, and an empty selection. *)
Example broadcast_blank_query :
  BroadcastSamples.post BroadcastSamples.flow5 "bob"
    {| Broadcast.data_omnibox := Some "g-3"; Broadcast.data_restart_participants := None;
       Broadcast.data_include_active := None;
       Broadcast.data_recipients_mode := Some "query";
       Broadcast.data_contact_query := Some "  " |} []
  = ([], Ok (Broadcast.FormInvalid [("contact_query", Broadcast.query_required_message)])).
Proof. reflexivity. Qed.

Example broadcast_empty_selection :
  BroadcastSamples.post BroadcastSamples.flow5 "bob"
    {| Broadcast.data_omnibox := None; Broadcast.data_restart_participants := None;
       Broadcast.data_include_active := None;
       Broadcast.data_recipients_mode := Some "select";
       Broadcast.data_contact_query := Some "age > 18" |} []
  = ([], Ok (Broadcast.FormInvalid [("omnibox", Broadcast.recipients_required_message)])).
Proof. reflexivity. Qed.

Lemma sample_choice_field (raw : option string) (mode : string) :
  BroadcastSamples.recipients_mode_field raw = Ok mode -> raw = Some mode.
Proof.
  unfold BroadcastSamples.recipients_mode_field. destruct raw as [m|]; [|discriminate].
  destruct (String.eqb m "select" || String.eqb m "query"); [|discriminate].
  intros H. inversion H. reflexivity.
Qed.

(** A query submission that also carries a selection: the start has the
    query and no group. *)
Lemma broadcast_start_created_witness :
  exists restart include,
    (BroadcastSamples.post BroadcastSamples.flow5 "bob"
       {| Broadcast.data_omnibox := Some "g-3";
          Broadcast.data_restart_participants := Some "on";
          Broadcast.data_include_active := None;
          Broadcast.data_recipients_mode := Some "query";
          Broadcast.data_contact_query := Some "age > 18" |} []).1
    = Broadcast.async_start BroadcastSamples.flow5 "bob" [] [] (Some "age > 18")
        restart include [].
Proof.
  destruct (broadcast_start_created
              BroadcastSamples.omnibox_field BroadcastSamples.boolean_field
              BroadcastSamples.recipients_mode_field BroadcastSamples.contact_query_field
              AsciiText.strip BroadcastSamples.omnibox_deserialize
              BroadcastSamples.parse_query BroadcastSamples.flow5 "bob"
              {| Broadcast.data_omnibox := Some "g-3";
                 Broadcast.data_restart_participants := Some "on";
                 Broadcast.data_include_active := None;
                 Broadcast.data_recipients_mode := Some "query";
                 Broadcast.data_contact_query := Some "age > 18" |} [] _
              BroadcastSamples.flow5 sample_choice_field eq_refl)
    as (_ & mode & restart & include & groups & contacts & query
        & Hmode & _ & _ & Hstarts & Hquery & _).
  inversion Hmode. subst mode.
  destruct (Hquery eq_refl) as (-> & -> & raw & parsed & Hraw & _ & Hparsed & ->).
  inversion Hraw. subst raw. inversion Hparsed. subst parsed.
  exists restart, include. exact Hstarts.
Defined.

(** ** Importing a translation: the catalogs that pass *)

Section ImportCheckFacts.

Import ImportTranslation ImportChecks.

Variable read_po_info : UploadedFile -> option POInfo.
Variable file_field : option UploadedFile -> result string (option UploadedFile).
Variable po_save : option UploadedFile -> string.

#[local] Abbreviation clean_po_file := (clean_po_file read_po_info).
#[local] Abbreviation post := (post read_po_info file_field po_save).
#[local] Abbreviation acceptable := (acceptable read_po_info).

Lemma language_exists_true (org : Org) (code : string) :
  language_exists org code = true
  <-> exists l, l ∈ languages org /\ iso_code l = code.
Proof.
  unfold language_exists. induction (languages org) as [|l ls IH]; simpl.
  - split; [discriminate|]. intros (l & Hl & _). inversion Hl.
  - rewrite orb_true_iff, IH, String.eqb_eq. split.
    + intros [Hl|(l' & Hin & Hc)]; [exists l; split; [left|assumption]|].
      exists l'. split; [right; assumption|assumption].
    + intros (l' & Hin & Hc). apply elem_of_cons in Hin.
      destruct Hin as [->|Hin]; [left; assumption|right; exists l'; tauto].
Qed.

Lemma clean_po_file_accepts (flow : Flow) (file : UploadedFile) :
  clean_po_file flow (Some file) = Ok (Some file) <-> acceptable flow file.
Proof.
  unfold ImportTranslation.clean_po_file, ImportChecks.acceptable.
  destruct (read_po_info file) as [po_info|]; [|split; [discriminate|]].
  2: { intros (po_info & Hr & _). discriminate Hr. }
  destruct (code_truthy (language_code po_info)) eqn:Htruthy.
  - destruct (language_code po_info) as [code|] eqn:Hcode; [|discriminate Htruthy].
    simpl. destruct (decide (code = base_language flow)) as [->|Hne].
    + rewrite bool_decide_eq_true_2 by reflexivity. split; [discriminate|].
      intros (info & Hi & [Hf|(c & l & Hc & Hb & _)]); inversion Hi; subst info.
      * rewrite Hcode in Hf. simpl in Hf, Htruthy. congruence.
      * rewrite Hcode in Hc. congruence.
    + rewrite bool_decide_eq_false_2 by congruence.
      destruct (language_exists (flow_org flow) code) eqn:Hex; simpl.
      * split; [|reflexivity]. intros _. exists po_info. split; [reflexivity|]. right.
        apply language_exists_true in Hex. destruct Hex as (l & Hl & Hc).
        exists code, l. rewrite Hcode. tauto.
      * split; [discriminate|].
        intros (info & Hi & [Hf|(c & l & Hc & _ & Hl & Hiso)]); inversion Hi; subst info.
        -- rewrite Hcode in Hf. simpl in Hf, Htruthy. congruence.
        -- rewrite Hcode in Hc. inversion Hc. subst c.
           assert (Hyes : language_exists (flow_org flow) code = true)
             by (apply language_exists_true; exists l; split; [assumption|congruence]).
           congruence.
  - split; [|reflexivity]. intros _. exists po_info.
    split; [reflexivity|left; assumption].
Qed.

(** X9: for an upload that the file field lets through, the catalogs that
    the view stores are exactly those that can be read and either declare
    no language at all, or declare one that is not the base language of
    the flow and is a language of the organisation; such a catalog is
    stored once and the view goes to the confirmation step, and any other
    leaves the storage as it was. *)
Theorem stored_catalogs (flow : Flow) (upload : option UploadedFile)
    (file : UploadedFile) (storage : Storage) :
  file_field upload = Ok (Some file) ->
  (acceptable flow file ->
   post flow upload storage
   = (storage ++ [(po_save (Some file), Some file)],
      RedirectToConfirm (flow_id flow) (po_save (Some file))))
  /\ (~ acceptable flow file ->
      exists e, post flow upload storage = (storage, FormInvalid e)).
Proof.
  intros Hfield. unfold ImportTranslation.post, ImportTranslation.full_clean.
  rewrite Hfield. split.
  - intros Hacc. apply clean_po_file_accepts in Hacc. rewrite Hacc. reflexivity.
  - intros Hno.
    destruct (clean_po_file flow (Some file)) as [data|e] eqn:Hclean;
      [|eexists; reflexivity].
    exfalso. apply Hno, clean_po_file_accepts. rewrite Hclean. f_equal.
    unfold ImportTranslation.clean_po_file in Hclean.
    destruct (read_po_info file) as [po_info|]; [|discriminate Hclean].
    destruct (code_truthy (language_code po_info)); [|congruence].
    destruct (bool_decide (language_code po_info = Some (base_language flow)));
      [discriminate Hclean|].
    destruct (negb _); [discriminate Hclean|congruence].
Qed.

End ImportCheckFacts.

(** A catalog that declares no language is stored, for a flow in English. *)
Lemma stored_catalogs_witness :
  ImportTranslation.post
    (fun _ => Some {| ImportTranslation.language_name := EmptyString;
                      ImportTranslation.language_code := None |})
    TranslationSamples.file_field TranslationSamples.po_save TranslationSamples.flow1
    (Some (TranslationSamples.po "any")) []
  = ([("uuid", Some (TranslationSamples.po "any"))],
     ImportTranslation.RedirectToConfirm 7 "uuid").
Proof.
  apply (proj1 (stored_catalogs
                  (fun _ => Some {| ImportTranslation.language_name := EmptyString;
                                    ImportTranslation.language_code := None |})
                  TranslationSamples.file_field TranslationSamples.po_save
                  TranslationSamples.flow1 (Some (TranslationSamples.po "any"))
                  (TranslationSamples.po "any") [] eq_refl)).
  eexists. split; [reflexivity|]. left. reflexivity.
Defined.

(** ** The window of the activity chart *)

Section ActivityWindowFacts.

Import ActivityChart.

Local Open Scope Z_scope.

(** X10: when the first period is not after the last, the window of the
    histogram, from [min_date] to the last period, is never empty and
    never longer than 500 days: an hourly chart starts one hour before the
    first period, a daily chart shows the last 100 days, so it leaves out
    the oldest periods as soon as the span exceeds 100 days, and a weekly
    chart shows the last 500 days. *)
Theorem histogram_window (start_date end_date : datetime) :
  start_date <= end_date ->
  let bucket := fst (histogram_for start_date end_date) in
  let min_date := snd (histogram_for start_date end_date) in
  0 < end_date - min_date <= timedelta_days 500
  /\ (bucket = Hour ->
      min_date = start_date - timedelta_hours 1
      /\ end_date - min_date < timedelta_days 21 + timedelta_hours 1)
  /\ (bucket = Day ->
      end_date - min_date = timedelta_days 100
      /\ (timedelta_days 100 < end_date - start_date <-> start_date < min_date))
  /\ (bucket = Week -> end_date - min_date = timedelta_days 500).
Proof.
  intros Horder bucket min_date. unfold bucket, min_date, histogram_for.
  unfold timedelta_days, timedelta_hours.
  destruct (Z.ltb_spec (end_date - start_date) (21 * 86400 * 1000000)); simpl;
    [|destruct (Z.ltb_spec (end_date - start_date) (500 * 86400 * 1000000)); simpl].
  all: repeat split; intros; try discriminate; lia.
Qed.

End ActivityWindowFacts.

(** A span of 200 days: the daily chart shows the last 100 of them. *)
Lemma histogram_window_witness :
  (ActivityChart.timedelta_days 200
   - snd (ActivityChart.histogram_for 0 (ActivityChart.timedelta_days 200))
   = ActivityChart.timedelta_days 100)%Z.
Proof.
  assert (Horder : (0 <= ActivityChart.timedelta_days 200)%Z) by (vm_compute; discriminate).
  exact (proj1 (proj1 (proj2 (proj2 (histogram_window 0%Z (ActivityChart.timedelta_days 200)
                                       Horder))) eq_refl)).
Defined.

(** ** The responses by hour and by day *)

Section ActivityPeriodFacts.

Import ActivityPeriods.

Local Open Scope Z_scope.

Variable part : Z -> Z.

Lemma part_sum_cons (r : FlowPathCount) (rows : list FlowPathCount) (value : Z) :
  part_sum part (r :: rows) value
  = (if decide (part (fpc_period r) = value) then fpc_count r else 0)
    + part_sum part rows value.
Proof.
  unfold part_sum. rewrite filter_cons.
  destruct (decide (part (fpc_period r) = value)); reflexivity.
Qed.

Lemma part_sum_absent (rows : list FlowPathCount) (value : Z) :
  value ∉ map (fun r => part (fpc_period r)) rows -> part_sum part rows value = 0.
Proof.
  induction rows as [|r rows IH]; intros Hnot; [reflexivity|].
  rewrite part_sum_cons. simpl in Hnot. apply not_elem_of_cons in Hnot.
  destruct Hnot as [Hne Hnot].
  destruct (decide (part (fpc_period r) = value)); [congruence|].
  rewrite IH by assumption. reflexivity.
Qed.

Lemma sum_one_of (x c : Z) (l : list Z) :
  NoDup l ->
  sum_Z (map (fun v => if decide (x = v) then c else 0) l) = if decide (x ∈ l) then c else 0.
Proof.
  induction 1 as [|v l Hnotin Hnodup IH]; simpl.
  - destruct (decide (x ∈ [])) as [Hin|]; [inversion Hin|reflexivity].
  - rewrite IH. destruct (decide (x = v)) as [->|Hne].
    + rewrite decide_False by assumption. rewrite decide_True by left. lia.
    + destruct (decide (x ∈ l)) as [Hin|Hnin].
      * rewrite decide_True by (right; assumption). lia.
      * rewrite decide_False; [lia|].
        intros Hin. apply elem_of_cons in Hin. destruct Hin; contradiction.
Qed.

(** Summing the sums of the parts over a list without duplicates that
    holds every part that occurs gives the sum of all the rows. *)
Lemma sum_part_sum (rows : list FlowPathCount) (l : list Z) :
  NoDup l ->
  (forall r, r ∈ rows -> part (fpc_period r) ∈ l) ->
  sum_Z (map (part_sum part rows) l) = sum_Z (map fpc_count rows).
Proof.
  intros Hnodup. induction rows as [|r rows IH]; intros Hcover.
  - clear Hcover Hnodup. induction l as [|v l IHl]; simpl; [reflexivity|].
    rewrite IHl. reflexivity.
  - rewrite (map_ext _ (fun v => (if decide (part (fpc_period r) = v) then fpc_count r else 0)
                                 + part_sum part rows v))
      by (intros v; apply part_sum_cons).
    rewrite (sum_Z_add (fun v => if decide (part (fpc_period r) = v) then fpc_count r else 0)
               (part_sum part rows)).
    rewrite sum_one_of by assumption.
    rewrite IH by (intros r' Hr'; apply Hcover; right; assumption).
    rewrite decide_True by (apply Hcover; left). reflexivity.
Qed.

(** The dictionary of rows that all carry the sum of their part. *)
Lemma to_dict_fold (rows : list FlowPathCount) (l : list (Z * Z)) (d : gmap Z Z) (x : Z) :
  (forall entry, entry ∈ l -> entry.2 = part_sum part rows entry.1) ->
  fold_left (fun d '(value, count) => <[value := count]> d) l d !! x
  = if decide (x ∈ map fst l) then Some (part_sum part rows x) else d !! x.
Proof.
  revert d. induction l as [|[v c] l IH]; intros d Hall; cbn [fold_left map fst].
  - rewrite decide_False; [reflexivity|]. intros Hin. inversion Hin.
  - rewrite IH by (intros entry He; apply Hall; right; assumption).
    destruct (decide (x ∈ map fst l)) as [Hin|Hnin].
    + rewrite decide_True by (right; assumption). reflexivity.
    + destruct (decide (x = v)) as [->|Hne].
      * rewrite decide_True by left. rewrite lookup_insert_eq.
        specialize (Hall (v, c) (list_elem_of_here _ _)). simpl in Hall.
        rewrite Hall. reflexivity.
      * rewrite decide_False.
        -- apply lookup_insert_ne. congruence.
        -- intros Hin. apply elem_of_cons in Hin. destruct Hin; contradiction.
Qed.

(** Reading a part in the dictionary, with 0 for a missing key, gives the
    sum of the part, in whatever order the rows of the query come. *)
Lemma dict_get (rows : list FlowPathCount) (l : list (Z * Z)) (x : Z) :
  l ≡ₚ annotate_count part rows ->
  default 0 (to_dict l !! x) = part_sum part rows x.
Proof.
  intros Hperm. unfold to_dict. rewrite (to_dict_fold rows).
  - rewrite lookup_empty. destruct (decide (x ∈ map fst l)) as [Hin|Hnin]; [reflexivity|].
    simpl. symmetry. apply part_sum_absent. intros Hx. apply Hnin.
    rewrite Hperm. unfold annotate_count. rewrite map_map. simpl. rewrite map_id.
    apply elem_of_remove_dups. assumption.
  - intros entry He. rewrite Hperm in He. unfold annotate_count in He.
    apply list_elem_of_fmap in He. destruct He as (v & -> & _). reflexivity.
Qed.

End ActivityPeriodFacts.

Section ActivityTotals.

Import ActivityPeriods.

Local Open Scope Z_scope.

Variable extract_hour : Z -> Z.
Variable extract_dow : Z -> Z.

Lemma days_fold (d : gmap Z Z) (xs : list Z) (dow : list (Z * Z)) (total : Z) :
  fold_left
    (fun '(dow, total_responses) x =>
       let day_count := default 0 (d !! x) in
       (dow ++ [(x, day_count)], total_responses + day_count))
    xs (dow, total)
  = (dow ++ map (fun x => (x, default 0 (d !! x))) xs,
     total + sum_Z (map (fun x => default 0 (d !! x)) xs)).
Proof.
  revert dow total. induction xs as [|x xs IH]; intros dow total; simpl.
  - rewrite app_nil_r. f_equal. lia.
  - rewrite IH, <- app_assoc. f_equal. lia.
Qed.

Lemma hours_fold (d : gmap Z Z) (xs : list Z) (acc : list (Z * Z)) :
  fold_left
    (fun hours x => hours ++ [(ActivityChart.timedelta_hours x, default 0 (d !! x))])
    xs acc
  = acc ++ map (fun x => (ActivityChart.timedelta_hours x, default 0 (d !! x))) xs.
Proof.
  revert acc. induction xs as [|x xs IH]; intros acc; simpl.
  - rewrite app_nil_r. reflexivity.
  - rewrite IH, <- app_assoc. reflexivity.
Qed.

(** The counts read in a dictionary of parts over a range that holds
    every part add up to the sum of the rows. *)
Lemma range_total (part : Z -> Z) (n : Z) (rows : list FlowPathCount) (l : list (Z * Z)) :
  (forall p, 0 <= part p < n) ->
  l ≡ₚ annotate_count part rows ->
  sum_Z (map (fun x => default 0 (to_dict l !! x)) (seqZ 0 n))
  = sum_Z (map fpc_count rows).
Proof.
  intros Hrange Hperm.
  rewrite (map_ext _ (part_sum part rows)) by (intros x; apply dict_get; assumption).
  apply sum_part_sum; [apply NoDup_seqZ|].
  intros r _. apply elem_of_seqZ. specialize (Hrange (fpc_period r)). lia.
Qed.

(** X11: when the database extracts hours from 0 to 23 and days of the
    week from 0 to 6, the chart by day has the seven days in order, the
    chart by hour the 24 hours in order, and the counts of both add up to
    [total_responses], which is the sum of the path counts of the flow
    for the exits that wait for a response. *)
Theorem responses_by_hour_and_day (flow : nat) (from_uuids : list string)
    (table : list FlowPathCount) :
  (forall p, 0 <= extract_hour p < 24) ->
  (forall p, 0 <= extract_dow p < 7) ->
  let rows := path_counts flow from_uuids table in
  let hod_dict := to_dict (order_by_part (annotate_count extract_hour rows)) in
  let dow_dict := to_dict (annotate_count extract_dow rows) in
  let total_responses := (days dow_dict).2 in
  total_responses = sum_Z (map fpc_count rows)
  /\ map fst (days dow_dict).1 = seqZ 0 7
  /\ sum_Z (map snd (days dow_dict).1) = total_responses
  /\ map fst (hours hod_dict) = map ActivityChart.timedelta_hours (seqZ 0 24)
  /\ sum_Z (map snd (hours hod_dict)) = total_responses.
Proof.
  intros Hhour Hdow rows hod_dict dow_dict total_responses.
  pose proof (range_total extract_dow 7 rows (annotate_count extract_dow rows) Hdow
                (reflexivity _)) as Hdays.
  pose proof (range_total extract_hour 24 rows
                (order_by_part (annotate_count extract_hour rows)) Hhour
                (merge_sort_Permutation _ _)) as Hhours.
  fold dow_dict in Hdays. fold hod_dict in Hhours.
  assert (Htotal : total_responses = sum_Z (map fpc_count rows)).
  { unfold total_responses, days. rewrite days_fold. cbn [snd]. rewrite Hdays. lia. }
  split; [assumption|]. split; [|split; [|split]].
  - unfold days. rewrite days_fold. cbn [fst app].
    rewrite map_map. apply map_id.
  - unfold days at 1. rewrite days_fold. cbn [fst app]. rewrite map_map. cbn [snd].
    rewrite Htotal. exact Hdays.
  - unfold hours. rewrite hours_fold. cbn [app]. rewrite map_map. reflexivity.
  - unfold hours. rewrite hours_fold. cbn [app]. rewrite map_map. cbn [snd].
    rewrite Htotal. exact Hhours.
Qed.

End ActivityTotals.

(** Five responses on the first day of the epoch, a Thursday, at one
    o'clock, and two a day later at noon. *)
Lemma responses_by_hour_and_day_witness :
  let rows :=
    [{| ActivityPeriods.fpc_flow := 7; ActivityPeriods.fpc_from_uuid := "exit";
        ActivityPeriods.fpc_period := 3600000000; ActivityPeriods.fpc_count := 5 |};
     {| ActivityPeriods.fpc_flow := 7; ActivityPeriods.fpc_from_uuid := "exit";
        ActivityPeriods.fpc_period := 129600000000; ActivityPeriods.fpc_count := 2 |};
     {| ActivityPeriods.fpc_flow := 7; ActivityPeriods.fpc_from_uuid := "other";
        ActivityPeriods.fpc_period := 0; ActivityPeriods.fpc_count := 9 |}] in
  (ActivityPeriods.days
     (ActivityPeriods.to_dict
        (ActivityPeriods.annotate_count ActivityPeriods.utc_dow
           (ActivityPeriods.path_counts 7 ["exit"] rows)))).2 = 7%Z.
Proof.
  intros rows.
  destruct (responses_by_hour_and_day ActivityPeriods.utc_hour ActivityPeriods.utc_dow
              7 ["exit"] rows) as (Htotal & _).
  - intros p. apply Z.mod_pos_bound. reflexivity.
  - intros p. apply Z.mod_pos_bound. reflexivity.
  - rewrite Htotal. reflexivity.
Defined.

Example responses_by_day :
  (ActivityPeriods.days
     (ActivityPeriods.to_dict
        (ActivityPeriods.annotate_count ActivityPeriods.utc_dow
           [{| ActivityPeriods.fpc_flow := 7; ActivityPeriods.fpc_from_uuid := "exit";
               ActivityPeriods.fpc_period := 3600000000;
               ActivityPeriods.fpc_count := 5 |};
            {| ActivityPeriods.fpc_flow := 7; ActivityPeriods.fpc_from_uuid := "exit";
               ActivityPeriods.fpc_period := 129600000000;
               ActivityPeriods.fpc_count := 2 |}]))).1
  = [(0, 0); (1, 0); (2, 0); (3, 0); (4, 5); (5, 2); (6, 0)]%Z.
Proof. vm_compute. reflexivity. Qed.

(** ** The table of runs *)

Section RunTableFacts.

Import RunTable.

Local Open Scope Z_scope.

Variable str_to_bool : string -> bool.
Variable parse_date : string -> result Exception Z.
Variable to_pk : string -> result Exception nat.

#[local] Abbreviation get_context_data := (get_context_data str_to_bool parse_date to_pk).

#[local] Instance modified_desc_total : Total modified_desc.
Proof. intros a b. unfold modified_desc. lia. Qed.

#[local] Instance modified_desc_trans : Transitive modified_desc.
Proof. intros a b c. unfold modified_desc. lia. Qed.

Lemma elem_of_matching (flow : nat) (only_responded : bool) (cursor : option (Z * nat))
    (table : list FlowRun) (r : FlowRun) :
  r ∈ matching flow only_responded cursor table
  <-> r ∈ table /\ run_flow r = flow
      /\ (only_responded = true -> responded r = true)
      /\ (forall modified id, cursor = Some (modified, id) ->
            modified_on r <= modified /\ run_id r <> id).
Proof.
  unfold matching. destruct cursor as [[modified id]|], only_responded;
    rewrite ?list_elem_of_filter.
  - split.
    + intros (Hid & Hmod & Hresp & Hflow & Hin).
      split; [assumption|]. split; [assumption|]. split; [intros _; assumption|].
      intros m i Hc. inversion Hc. subst. split; assumption.
    + intros (Hin & Hflow & Hresp & Hc). destruct (Hc _ _ eq_refl). auto.
  - split.
    + intros (Hid & Hmod & Hflow & Hin).
      split; [assumption|]. split; [assumption|]. split; [discriminate|].
      intros m i Hc. inversion Hc. subst. split; assumption.
    + intros (Hin & Hflow & _ & Hc). destruct (Hc _ _ eq_refl). auto.
  - split.
    + intros (Hresp & Hflow & Hin).
      split; [assumption|]. split; [assumption|]. split; [intros _; assumption|].
      discriminate.
    + intros (Hin & Hflow & Hresp & _). auto.
  - split.
    + intros (Hflow & Hin).
      split; [assumption|]. split; [assumption|]. split; discriminate.
    + intros (Hin & Hflow & _). auto.
Qed.

(** X12: the cursor of a request is read only from a [modified_on] that
    is not empty: then a missing [id] raises before anything is parsed, a
    date or an [id] that does not parse raises the error of its parser,
    and otherwise the cursor is the parsed date and key.  A request that
    is answered gets a page of at most 50 runs, newest first, drawn from
    the candidates: the runs of the flow, only those that responded when
    asked for, and with a cursor only those modified no later than its
    date, the run with its key left out; [more] is set exactly when there
    are more than 50 candidates; no candidate left out is newer than a run
    of the page; and each run comes with one value per result field, in
    the order of the fields, [None] where the run has no such result. *)
Theorem run_table_page (flow : nat) (result_keys : list string) (table : list FlowRun)
    (GET : QueryDict) :
  let only_responded := str_to_bool (default "true" (GET_responded GET)) in
  (forall modified, GET_modified_on GET = Some modified ->
     str_truthy modified = true -> GET_id GET = None ->
     get_context_data flow result_keys table GET = Raise (MultiValueDictKeyError "id"))
  /\ (forall modified id e, GET_modified_on GET = Some modified ->
        str_truthy modified = true -> GET_id GET = Some id ->
        parse_date modified = Raise e ->
        get_context_data flow result_keys table GET = Raise e)
  /\ (forall modified id date e, GET_modified_on GET = Some modified ->
        str_truthy modified = true -> GET_id GET = Some id ->
        parse_date modified = Ok date -> to_pk id = Raise e ->
        get_context_data flow result_keys table GET = Raise e)
  /\ forall context,
       get_context_data flow result_keys table GET = Ok context ->
       exists cursor,
         let candidates := matching flow only_responded cursor table in
         (forall modified, GET_modified_on GET = Some modified ->
            str_truthy modified = true ->
            exists id date pk,
              GET_id GET = Some id /\ parse_date modified = Ok date /\ to_pk id = Ok pk
              /\ cursor = Some (date, pk))
         /\ (GET_modified_on GET = None \/ GET_modified_on GET = Some EmptyString ->
             cursor = None)
         /\ (forall run, run ∈ candidates
               <-> run ∈ table /\ run_flow run = flow
                   /\ (only_responded = true -> responded run = true)
                   /\ (forall date pk, cursor = Some (date, pk) ->
                         modified_on run <= date /\ run_id run <> pk))
         /\ (length (runs context) <= 50)%nat
         /\ (more context = true <-> (50 < length candidates)%nat)
         /\ StronglySorted modified_desc (map fst (runs context))
         /\ (forall run, run ∈ map fst (runs context) -> run ∈ candidates)
         /\ (forall run other, run ∈ map fst (runs context) -> other ∈ candidates ->
               other ∉ map fst (runs context) -> modified_on other <= modified_on run)
         /\ (forall run values, (run, values) ∈ runs context ->
               values = map (fun key => results run !! key) result_keys).
Proof.
  intros only_responded. split; [|split; [|split]].
  - intros modified Hmod Htruthy Hid.
    unfold RunTable.get_context_data, RunTable.cursor. rewrite Hmod, Hid.
    destruct modified; [discriminate Htruthy|reflexivity].
  - intros modified id e Hmod Htruthy Hid Hdate.
    unfold RunTable.get_context_data, RunTable.cursor. rewrite Hmod, Hid.
    destruct modified as [|c rest]; [discriminate Htruthy|].
    rewrite Hdate. reflexivity.
  - intros modified id date e Hmod Htruthy Hid Hdate Hpk.
    unfold RunTable.get_context_data, RunTable.cursor. rewrite Hmod, Hid.
    destruct modified as [|c rest]; [discriminate Htruthy|].
    rewrite Hdate. simpl. rewrite Hpk. reflexivity.
  - intros context Hcontext.
    unfold RunTable.get_context_data in Hcontext.
    destruct (RunTable.cursor parse_date to_pk GET) as [cursor|e] eqn:Hcursor;
      [|discriminate Hcontext].
    simpl in Hcontext. inversion Hcontext as [Hctx]. clear Hcontext.
    exists cursor. intros candidates. fold only_responded. fold candidates.
    set (ordered := merge_sort modified_desc candidates).
    assert (Hsorted : StronglySorted modified_desc ordered)
      by (apply StronglySorted_merge_sort; apply _).
    assert (Hperm : ordered ≡ₚ candidates) by apply merge_sort_Permutation.
    assert (Hpage : map fst (runs (page result_keys candidates)) = take 50 ordered).
    { unfold page. cbn [runs]. rewrite map_map. cbn [fst]. rewrite map_id.
      fold ordered. rewrite take_take. reflexivity. }
    split; [|split; [|split; [|split; [|split; [|split; [|split; [|split]]]]]]].
    + intros modified Hmod Htruthy. unfold RunTable.cursor in Hcursor.
      rewrite Hmod in Hcursor.
      destruct modified as [|c rest]; [discriminate Htruthy|].
      destruct (GET_id GET) as [id|]; [|discriminate Hcursor].
      destruct (parse_date (String c rest)) as [date|e] eqn:Hdate; [|discriminate Hcursor].
      simpl in Hcursor.
      destruct (to_pk id) as [pk|e] eqn:Hpk; [|discriminate Hcursor].
      simpl in Hcursor. inversion Hcursor.
      exists id, date, pk.
      split; [reflexivity|]. split; [reflexivity|]. split; [assumption|reflexivity].
    + intros Hnone. unfold RunTable.cursor in Hcursor.
      destruct Hnone as [Hnone|Hnone]; rewrite Hnone in Hcursor;
        inversion Hcursor; reflexivity.
    + intros run. apply elem_of_matching.
    + rewrite <- (length_map fst), Hpage, length_take. lia.
    + unfold page. cbn [more]. fold ordered.
      rewrite Nat.ltb_lt, length_take, <- (Permutation_length Hperm).
      unfold paginate_by. lia.
    + rewrite Hpage. rewrite <- (take_drop 50 ordered) in Hsorted.
      apply StronglySorted_app_1_l in Hsorted. assumption.
    + intros run Hrun. rewrite Hpage in Hrun. rewrite <- Hperm.
      apply elem_of_take in Hrun. destruct Hrun as (i & Hi & _).
      eapply list_elem_of_lookup_2. eassumption.
    + intros run other Hrun Hother Hout. rewrite Hpage in Hrun, Hout.
      rewrite <- Hperm, <- (take_drop 50 ordered) in Hother.
      apply elem_of_app in Hother. destruct Hother as [Hin|Hin]; [contradiction|].
      rewrite <- (take_drop 50 ordered) in Hsorted.
      exact (StronglySorted_app_1_elem_of _ _ _ _ _ Hsorted Hrun Hin).
    + intros run values Hin. unfold page in Hin. cbn [runs] in Hin.
      apply list_elem_of_fmap in Hin. destruct Hin as (r & Heq & _).
      inversion Heq. reflexivity.
Qed.

End RunTableFacts.

(** ** Downloading a translation *)

Section DownloadTranslationFacts.

Import DownloadTranslation.

(** X13: the download of translations is checked against an organisation
    exactly when the request names at least one active flow and all the
    active flows it names belong to that organisation; a request that
    names flows of two organisations, or no active flow, has none. *)
Theorem download_translation_org (ids : list nat) (table : list Flow) (org : nat) :
  get_object_org ids table = Some org
  <-> flows ids table <> [] /\ forall f, f ∈ flows ids table -> flow_org f = org.
Proof.
  unfold get_object_org. set (fs := flows ids table).
  set (orgs := list_to_set (map flow_org fs) : gset nat).
  assert (Hin : forall f, f ∈ fs -> flow_org f ∈ orgs).
  { intros f Hf. unfold orgs. apply elem_of_list_to_set, list_elem_of_fmap.
    exists f. split; [reflexivity|assumption]. }
  destruct (Nat.eqb_spec (size orgs) 1) as [Hone|Hmany].
  - apply size_1_elem_of in Hone. destruct Hone as [x Hx].
    apply leibniz_equiv in Hx.
    destruct fs as [|f fs'] eqn:Hfs.
    + exfalso. unfold orgs in Hx. simpl in Hx.
      assert (Habs : x ∈ (∅ : gset nat)) by (rewrite Hx; apply elem_of_singleton; reflexivity).
      apply not_elem_of_empty in Habs. exact Habs.
    + simpl. split.
      * intros Heq. inversion Heq as [Horg]. split; [discriminate|].
        intros f' Hf'. pose proof (Hin f' Hf') as H1.
        pose proof (Hin f (list_elem_of_here _ _)) as H2.
        rewrite Hx in H1, H2. apply elem_of_singleton in H1, H2. congruence.
      * intros [_ Hall]. f_equal. apply Hall. left.
  - split; [discriminate|]. intros [Hne Hall]. exfalso. apply Hmany.
    assert (Horgs : orgs = {[org]}).
    { apply set_eq. intros x. unfold orgs.
      rewrite elem_of_list_to_set, list_elem_of_fmap, elem_of_singleton. split.
      - intros (f & -> & Hf). apply Hall. assumption.
      - intros ->. destruct fs as [|f fs']; [congruence|].
        exists f. split; [symmetry; apply Hall; left|left]. }
    rewrite Horgs. apply size_singleton.
Qed.

End DownloadTranslationFacts.

(** Flows 1 and 2 of organisation 5 and flow 3 of organisation 6: the
    first two have an organisation, the three together have none. *)
Example download_one_org :
  DownloadTranslation.get_object_org [1; 2]
    [{| DownloadTranslation.flow_id := 1; DownloadTranslation.flow_org := 5;
        DownloadTranslation.flow_is_active := true;
        DownloadTranslation.flow_name := "a" |};
     {| DownloadTranslation.flow_id := 2; DownloadTranslation.flow_org := 5;
        DownloadTranslation.flow_is_active := true;
        DownloadTranslation.flow_name := "b" |};
     {| DownloadTranslation.flow_id := 3; DownloadTranslation.flow_org := 6;
        DownloadTranslation.flow_is_active := true;
        DownloadTranslation.flow_name := "c" |}] = Some 5.
Proof. vm_compute. reflexivity. Qed.

Example download_two_orgs :
  DownloadTranslation.get_object_org [1; 2; 3]
    [{| DownloadTranslation.flow_id := 1; DownloadTranslation.flow_org := 5;
        DownloadTranslation.flow_is_active := true;
        DownloadTranslation.flow_name := "a" |};
     {| DownloadTranslation.flow_id := 2; DownloadTranslation.flow_org := 5;
        DownloadTranslation.flow_is_active := true;
        DownloadTranslation.flow_name := "b" |};
     {| DownloadTranslation.flow_id := 3; DownloadTranslation.flow_org := 6;
        DownloadTranslation.flow_is_active := true;
        DownloadTranslation.flow_name := "c" |}] = None.
Proof. vm_compute. reflexivity. Qed.

(** ** Revisions: requests that cannot be served *)

Section RevisionsEdgeFacts.

Import Revisions.

Variable CURRENT_SPEC_VERSION : Version.
Variable INITIAL_GOFLOW_VERSION : Version.
Variable FINAL_LEGACY_VERSION : Version.
Variable get_migrated_definition : FlowRevision -> Version -> result Exception FlowDefinition.
Variable validate_legacy_definition : FlowDefinition -> result Exception unit.
Variable as_json : FlowRevision -> Json.
Variable definition_json : FlowDefinition -> Json.
Variable flow_inspect : nat -> FlowDefinition -> result Exception Json.
Variable get_metadata : Json -> Json.
Variable json_loads : string -> result Exception FlowDefinition.
Variable encode_datetime : Z -> string.
Variable validate : FlowDefinition -> option string.

#[local] Abbreviation get :=
  (get CURRENT_SPEC_VERSION INITIAL_GOFLOW_VERSION FINAL_LEGACY_VERSION
     get_migrated_definition validate_legacy_definition as_json definition_json
     flow_inspect get_metadata).
#[local] Abbreviation post := (post json_loads encode_datetime as_json validate).

Lemma find_none {A} (P : A -> bool) (l : list A) :
  (forall x, x ∈ l -> P x = false) -> find P l = None.
Proof.
  induction l as [|y l IH]; intros Hall; [reflexivity|].
  simpl. rewrite (Hall y) by left. apply IH. intros x Hx. apply Hall. right. assumption.
Qed.

Lemma find_some {A} (P : A -> bool) (l : list A) (x : A) :
  find P l = Some x -> x ∈ l /\ P x = true.
Proof.
  induction l as [|y l IH]; [discriminate|]. simpl.
  destruct (P y) eqn:Hy.
  - intros H. inversion H. subst. split; [left|assumption].
  - intros H. destruct (IH H). split; [right; assumption|assumption].
Qed.

(** X14: a revision is served only under the flow it belongs to: asking a
    flow for the identifier of a revision of another flow raises the
    lookup error and logs nothing, and whenever a definition is answered
    it is the migration, to the requested version or to the current one
    for want of a request, of a revision of the flow with that
    identifier. *)
Theorem revision_of_another_flow (table : list FlowRevision) (flow : Flow)
    (revision_id : nat) (requested_version : option Version) :
  ((forall r, r ∈ table -> rev_id r = revision_id -> rev_flow r <> flow_id flow) ->
   get table flow (Some revision_id) requested_version
   = (Raise (OtherException "FlowRevision matching query does not exist."), []))
  /\ (forall response log,
        get table flow (Some revision_id) requested_version = (Ok response, log) ->
        exists revision definition flow_info,
          revision ∈ table
          /\ rev_flow revision = flow_id flow /\ rev_id revision = revision_id
          /\ get_migrated_definition revision
               (default CURRENT_SPEC_VERSION requested_version) = Ok definition
          /\ flow_inspect (flow_org_id flow) definition = Ok flow_info
          /\ response = JObj [("definition", definition_json definition);
                              ("metadata", get_metadata flow_info)]
          /\ log = []).
Proof.
  unfold Revisions.get. split.
  - intros Hother. rewrite find_none; [reflexivity|].
    intros r Hr. apply bool_decide_eq_false. intros [Hflow Hid].
    exact (Hother r Hr Hid Hflow).
  - intros response log Hget.
    destruct (find _ table) as [revision|] eqn:Hfind; [|discriminate Hget].
    apply find_some in Hfind. destruct Hfind as [Hin Hmatch].
    apply bool_decide_eq_true in Hmatch. destruct Hmatch as [Hflow Hid].
    destruct (get_migrated_definition revision _) as [definition|e] eqn:Hmig;
      [|discriminate Hget].
    destruct (flow_inspect (flow_org_id flow) definition) as [flow_info|e] eqn:Hins;
      [|discriminate Hget].
    inversion Hget. subst.
    exists revision, definition, flow_info. repeat split; assumption.
Qed.

(** X15: a save for a flow that is not there, or is no longer active,
    writes nothing, whatever the definition, and is not answered with
    the response of a save that succeeded. *)
Theorem post_to_inactive_flow (db : DB) (user uuid body : string) (now : Z)
    (definition : FlowDefinition) :
  json_loads body = Ok definition ->
  (forall f, f ∈ db_flows db -> flow_uuid f = uuid -> flow_is_active f = false) ->
  (post db true user uuid body now).1 = db
  /\ forall response, (post db true user uuid body now).2 = Ok response ->
       response_status response <> 200.
Proof.
  intros Hjson Hinactive. unfold Revisions.post, get_object. simpl. rewrite Hjson.
  rewrite find_none.
  - split; [reflexivity|]. intros response Hresponse. discriminate Hresponse.
  - intros f Hf. destruct (String.eqb_spec (flow_uuid f) uuid) as [Hu|]; [|reflexivity].
    rewrite (Hinactive f Hf Hu). reflexivity.
Qed.

End RevisionsEdgeFacts.

(** Flow f1 once deleted: bob's save leaves the tables as they were. *)
Lemma post_to_inactive_flow_witness :
  (Revisions.post RevisionSamples.json_loads RevisionSamples.encode_datetime
     RevisionSamples.as_json RevisionSamples.validate RevisionSamples.db_deleted
     true "bob" "f1" "stale" 20%Z).1
  = RevisionSamples.db_deleted.
Proof.
  refine (proj1 (post_to_inactive_flow RevisionSamples.as_json RevisionSamples.json_loads
                   RevisionSamples.encode_datetime RevisionSamples.validate
                   RevisionSamples.db_deleted "bob" "f1" "stale" 20%Z
                   RevisionSamples.def_stale eq_refl _)).
  intros f Hf _. apply list_elem_of_singleton in Hf. subst f. reflexivity.
Defined.

(** The lookup of the deleted flow raises in the [try] block; the last
    handler raises in its turn, and that exception leaves the view. *)
Example post_to_deleted_flow :
  Revisions.post RevisionSamples.json_loads RevisionSamples.encode_datetime
    RevisionSamples.as_json RevisionSamples.validate RevisionSamples.db_deleted
    true "bob" "f1" "stale" 20%Z
  = (RevisionSamples.db_deleted, Raise (Revisions.OtherException "AttributeError")).
Proof. reflexivity. Qed.

(** Revision 30 belongs to flow 1: flow 2 cannot fetch it. *)
Example revision_hidden_from_other_flow :
  RevisionSamples.get [RevisionSamples.rev3]
    {| Revisions.flow_id := 2; Revisions.flow_uuid := "f2"; Revisions.flow_org_id := 1;
       Revisions.flow_is_active := true; Revisions.flow_version := RevisionSamples.v13;
       Revisions.flow_saved_by := "alice"; Revisions.flow_saved_on := 10;
       Revisions.flow_metadata := JNull |} (Some 30) None
  = (Raise (Revisions.OtherException "FlowRevision matching query does not exist."), []).
Proof. reflexivity. Qed.

(** ** The assets of the editor *)

Section EditorFacts.

Import Editor.

(** No key ends both in [.css] and in [.js]. *)
Lemma css_is_not_js (key : string) :
  endswith key ".css" = true -> endswith key ".js" = false.
Proof.
  unfold endswith.
  change (reverse_str ".css") with "ssc.". change (reverse_str ".js") with "sj.".
  destruct (reverse_str key) as [|c1 [|c2 r]]; simpl; try discriminate.
  - rewrite andb_false_r. discriminate.
  - destruct (Ascii.eqb_spec c2 "s") as [->|]; simpl.
    + intros _. rewrite andb_false_r. reflexivity.
    + rewrite andb_false_r. discriminate.
Qed.

Lemma assets_fold (prefix : string) (files seen : list (string * string))
    (scripts styles : list string) :
  (forall url, url ∈ scripts -> from_manifest prefix ".js" seen url) ->
  (forall url, url ∈ styles -> from_manifest prefix ".css" seen url) ->
  length scripts + length styles <= length seen ->
  let r := fold_left (assets_step prefix) files (scripts, styles) in
  (forall url, url ∈ r.1 -> from_manifest prefix ".js" (seen ++ files) url)
  /\ (forall url, url ∈ r.2 -> from_manifest prefix ".css" (seen ++ files) url)
  /\ length r.1 + length r.2 <= length (seen ++ files).
Proof.
  revert seen scripts styles.
  induction files as [|[key filename] files IH]; intros seen scripts styles Hjs Hcss Hlen.
  - simpl. rewrite app_nil_r. auto.
  - cbn [fold_left].
    assert (Hgrow : forall suffix url,
               from_manifest prefix suffix seen url ->
               from_manifest prefix suffix (seen ++ [(key, filename)]) url).
    { intros suffix url (Hend & k & f & Hin & Heq & Hk & Hi).
      split; [assumption|]. exists k, f. split; [|tauto].
      apply elem_of_app. left. assumption. }
    assert (Hnew : forall suffix,
               endswith key suffix && endswith (prefix +:+ filename) suffix = true ->
               ignored key = false ->
               from_manifest prefix suffix (seen ++ [(key, filename)]) (prefix +:+ filename)).
    { intros suffix Hboth Hi. apply andb_true_iff in Hboth. destruct Hboth as [Hk Hf].
      split; [assumption|]. exists key, filename. split; [|tauto].
      apply elem_of_app. right. left. }
    replace (seen ++ (key, filename) :: files) with ((seen ++ [(key, filename)]) ++ files)
      by (rewrite <- app_assoc; reflexivity).
    assert (Hstep : assets_step prefix (scripts, styles) (key, filename)
                    = (if ignored key then scripts
                       else if endswith key ".js" && endswith (prefix +:+ filename) ".js"
                            then scripts ++ [prefix +:+ filename] else scripts,
                       if ignored key then styles
                       else if endswith key ".css" && endswith (prefix +:+ filename) ".css"
                            then styles ++ [prefix +:+ filename] else styles))
      by (unfold assets_step; destruct (ignored key); reflexivity).
    rewrite Hstep. apply IH.
    + destruct (ignored key) eqn:Hi; [intros url Hu; apply Hgrow, Hjs; assumption|].
      destruct (endswith key ".js" && endswith (prefix +:+ filename) ".js") eqn:Hj;
        intros url Hu; simpl in Hu.
      * apply elem_of_app in Hu. destruct Hu as [Hu|Hu]; [apply Hgrow, Hjs; assumption|].
        apply list_elem_of_singleton in Hu. subst url. exact (Hnew ".js" Hj eq_refl).
      * apply Hgrow, Hjs. assumption.
    + destruct (ignored key) eqn:Hi; [intros url Hu; apply Hgrow, Hcss; assumption|].
      destruct (endswith key ".css" && endswith (prefix +:+ filename) ".css") eqn:Hc;
        intros url Hu; simpl in Hu.
      * apply elem_of_app in Hu. destruct Hu as [Hu|Hu]; [apply Hgrow, Hcss; assumption|].
        apply list_elem_of_singleton in Hu. subst url. exact (Hnew ".css" Hc eq_refl).
      * apply Hgrow, Hcss. assumption.
    + rewrite length_app. simpl.
      destruct (ignored key); [simpl; lia|].
      destruct (endswith key ".css") eqn:Hc.
      * rewrite (css_is_not_js key Hc). simpl.
        destruct (endswith (prefix +:+ filename) ".css"); simpl;
          rewrite ?length_app; simpl; lia.
      * simpl. destruct (endswith key ".js" && endswith (prefix +:+ filename) ".js");
          simpl; rewrite ?length_app; simpl; lia.
Qed.

(** X16: every script of the editor page ends in [.js] and every style in
    [.css]; each is the prefix followed by the file of a manifest entry
    whose key has the same ending and is neither a precache manifest nor
    a service worker; and no entry gives both a script and a style, so
    the two lists together are no longer than the manifest. *)
Theorem editor_assets (dev_mode : bool) (STATIC_URL : string)
    (files : list (string * string)) :
  let prefix := prefix_of dev_mode STATIC_URL in
  let scripts := (assets dev_mode STATIC_URL files).1 in
  let styles := (assets dev_mode STATIC_URL files).2 in
  (forall url, url ∈ scripts -> from_manifest prefix ".js" files url)
  /\ (forall url, url ∈ styles -> from_manifest prefix ".css" files url)
  /\ length scripts + length styles <= length files.
Proof.
  intros prefix scripts styles. unfold scripts, styles, assets. fold prefix.
  apply (assets_fold prefix files [] [] []); simpl; [| |lia];
    intros url Hu; inversion Hu.
Qed.

End EditorFacts.

Example editor_assets_sample :
  Editor.assets false "/static/"
    [("main.css", "css/main.1.css"); ("main.js", "js/main.1.js");
     ("main.js.map", "js/main.1.js.map"); ("service-worker.js", "sw.js");
     ("precache-manifest.9.js", "pm.js")]
  = (["/static/js/main.1.js"], ["/static/css/main.1.css"]).
Proof. reflexivity. Qed.


Section KeywordExclusive.

Import Triggers KeywordForms.

Variable lower : string -> string.
Variable strip : string -> string.
Variable word_match : string -> bool.
Variable iexact : string -> string -> bool.
Variable KEYWORD_MAX_LEN : nat.

(** X17: after an update whose keywords the form of the flow has accepted,
    when the pattern of a keyword lets no comma through, no keyword of the
    flow matches the keyword of an active, unarchived trigger of another
    flow of the organisation. *)
Theorem updated_keywords_are_exclusive (org : nat) (user : string) (obj : nat)
    (table : list Trigger) (value : list string) (cleaned : string) :
  (forall k, word_match k = true -> contains "," k = false) ->
  clean_keyword_triggers lower strip word_match iexact KEYWORD_MAX_LEN
    org (Some obj) table value = Ok cleaned ->
  let table' := (post_save org user obj (Some cleaned) table).1 in
  forall k t,
    k ∈ existing_keywords org obj table' ->
    t ∈ table' ->
    trigger_org t = org -> is_archived t = false -> is_active t = true ->
    trigger_flow t <> Some obj ->
    iexact (trigger_keyword t) k = false.
Proof.
  intros Hcomma Hclean table' k t Hk Ht Horg Harch Hact Hflow.
  destruct (clean_keyword_triggers_ok lower strip word_match iexact KEYWORD_MAX_LEN
              _ _ _ _ _ Hclean) as (Hwf & Hdup & ->).
  pose proof (filter_nil_all _ _ Hwf) as Hgood.
  pose proof (filter_nil_all _ _ Hdup) as Hfree.
  unfold table' in Hk, Ht.
  rewrite post_save_existing, submitted_keywords_of in Hk.
  rewrite (cleaned_split lower strip value) in Hk.
  2:{ intros x Hx. apply Hcomma. specialize (Hgood x Hx).
      unfold badly_formed in Hgood. apply orb_false_iff in Hgood.
      destruct Hgood as [Hw _]. apply negb_false_iff in Hw. assumption. }
  apply elem_of_list_to_set in Hk.
  apply post_save_other_flow in Ht; [|assumption].
  specialize (Hfree k Hk). unfold taken in Hfree.
  destruct (existing iexact org (Some obj) k table) as [|t0 rest] eqn:Hex;
    [|discriminate Hfree].
  destruct (iexact (trigger_keyword t) k) eqn:Hm; [|reflexivity].
  assert (Hin : t ∈ existing iexact org (Some obj) k table).
  { unfold existing. apply list_elem_of_filter. split.
    - rewrite bool_decide_eq_false_2 by assumption. reflexivity.
    - apply list_elem_of_filter. split; [|assumption].
      rewrite Horg, Nat.eqb_refl, Hm, Harch, Hact. reflexivity. }
  rewrite Hex in Hin. inversion Hin.
Qed.

End KeywordExclusive.

(** Flow 7 takes the keyword new while flow 8 keeps join: join of flow 8
    matches no keyword of flow 7. *)
Lemma updated_keywords_are_exclusive_witness :
  AsciiText.iexact (Triggers.trigger_keyword TriggerSamples.other_trigger) "new" = false.
Proof.
  apply (updated_keywords_are_exclusive AsciiText.lower AsciiText.strip
           AsciiText.word_match AsciiText.iexact TriggerSamples.KEYWORD_MAX_LEN
           1 "bob" 7
           [TriggerSamples.old_trigger; TriggerSamples.back_trigger;
            TriggerSamples.other_trigger] ["New"; "back"] "new,back"
           ascii_word_match_no_comma eq_refl "new" TriggerSamples.other_trigger).
  - vm_compute. set_solver.
  - vm_compute. set_solver.
  - reflexivity.
  - reflexivity.
  - reflexivity.
  - discriminate.
Defined.
